(** * personal-ai: the MCP tool subsystem

    A shallow embedding of the server registry ([src/lib/database.ts]),
    the connection manager ([src/lib/mcp-connections.ts]), the schema
    translator ([mcpSchemaToZod] of the chat route) and the API routes that
    connect to, call and delete MCP servers, followed by the properties
    established about them. *)

From stdpp Require Import gmap strings list fin_maps.

#[local] Set Warnings "-register-all".
#[local] Open Scope string_scope.
#[local] Open Scope list_scope.

(** ** JSON values

    What [JSON.parse] produces and what [Record<string, unknown>] holds.
    The payload of a number plays no role in any property below, so numbers
    carry an integer. *)

Inductive Json : Type :=
| JNull
| JBool (b : bool)
| JNum (n : Z)
| JStr (s : string)
| JArr (items : list Json)
| JObj (fields : gmap string Json).

(** [v === 'lit'] for a possibly absent property value [v]. *)
Definition strict_eq_str (v : option Json) (lit : string) : bool :=
  match v with
  | Some (JStr s) => bool_decide (s = lit)
  | _ => false
  end.

(** ** The fragment of zod used by the chat route *)

Module Zod.

(** The schemas the translator builds for a single property:
    [z.string()], [z.number()], [z.boolean()], [z.array(e)],
    [z.unknown()] and [t.optional()]. *)
Inductive ZodType : Type :=
| ZString
| ZNumber
| ZBoolean
| ZArray (element : ZodType)
| ZUnknown
| ZOptional (inner : ZodType).

(** Whether a property schema accepts an input; [None] is [undefined],
    which is what a key missing from the parsed object reads as. *)
Fixpoint accepts (t : ZodType) (input : option Json) : bool :=
  match t with
  | ZUnknown => true
  | ZOptional inner =>
      match input with
      | None => true
      | Some _ => accepts inner input
      end
  | ZString => match input with Some (JStr _) => true | _ => false end
  | ZNumber => match input with Some (JNum _) => true | _ => false end
  | ZBoolean => match input with Some (JBool _) => true | _ => false end
  | ZArray element =>
      match input with
      | Some (JArr items) => forallb (fun v => accepts element (Some v)) items
      | _ => false
      end
  end.

(** The shape of a [z.object]: a JS object from keys to property schemas.
    A key can be present and hold [undefined] (here [None]): that is what
    [Object.fromEntries] stores when [zodProperties[key]] does not exist. *)
Abbreviation Shape := (gmap string (option ZodType)).

Inductive Schema : Type :=
| ZObject (shape : Shape)        (* z.object(shape), unknown keys stripped *)
| ZRecord (value : ZodType).     (* z.record(z.string(), value) *)

(** [schema.partial()]: every property schema becomes optional. *)
Definition partial (shape : Shape) : Shape :=
  (fun t : option ZodType => ZOptional <$> t) <$> shape.

(** [a.merge(b)]: the shape is [{...a.shape, ...b.shape}], so on a shared
    key the property schema of [b] replaces the one of [a]. *)
Definition merge (a b : Shape) : Shape := b ∪ a.

(** [Object.fromEntries(entries)]: later entries overwrite earlier ones. *)
Definition Object_fromEntries {V} (entries : list (string * V)) : gmap string V :=
  foldl (fun acc kv => <[kv.1 := kv.2]> acc) ∅ entries.

(** The outcome of validating an input. [ZodError] lists the paths of the
    issues (the root is the empty path); [TypeError] is the exception
    raised when the parser reaches a key whose property schema is
    [undefined]. *)
Inductive SafeParse : Type :=
| Success (data : gmap string Json)
| ZodError (issues : list (list string))
| TypeError.

Definition has_undefined (shape : Shape) : bool :=
  existsb (fun kv => match kv.2 with None => true | Some _ => false end)
          (map_to_list shape).

Definition invalid_paths (shape : Shape) (data : gmap string Json)
  : list (list string) :=
  omap (fun kv =>
          match kv.2 with
          | Some t => if accepts t (data !! kv.1) then None else Some [kv.1]
          | None => None
          end)
       (map_to_list shape).

(** Unknown keys are stripped from the output, never reported. *)
Definition strip (shape : Shape) (data : gmap string Json) : gmap string Json :=
  filter (fun kv => is_Some (shape !! kv.1)) data.

Definition safeParse (schema : Schema) (input : Json) : SafeParse :=
  match input with
  | JObj data =>
      match schema with
      | ZObject shape =>
          if has_undefined shape then TypeError
          else match invalid_paths shape data with
               | [] => Success (strip shape data)
               | issues => ZodError issues
               end
      | ZRecord value =>
          match omap (fun kv => if accepts value (Some kv.2) then None
                                else Some [kv.1]) (map_to_list data) with
          | [] => Success data
          | issues => ZodError issues
          end
      end
  | _ => ZodError [[]]
  end.

End Zod.

(** ** The schema translator (chat route) *)

(** A tool's declared input schema, read through the casts of the source:
    [mcpSchema.type], [mcpSchema.properties as Record<string,
    Record<string, unknown>>] and [mcpSchema.required as string[]]. *)
Record McpSchema : Type := {
  schema_type : option Json;
  schema_properties : option (gmap string (gmap string Json));
  schema_required : option (list string);
}.

(** The body of the [for (const [key, prop] of Object.entries(properties))]
    loop. *)
Definition zod_of_prop (prop : gmap string Json) : Zod.ZodType :=
  if strict_eq_str (prop !! "type") "string" then Zod.ZString
  else if strict_eq_str (prop !! "type") "number" then Zod.ZNumber
  else if strict_eq_str (prop !! "type") "boolean" then Zod.ZBoolean
  else if strict_eq_str (prop !! "type") "array" then Zod.ZArray Zod.ZUnknown
  else Zod.ZUnknown.

Definition mcpSchemaToZod (mcpSchema : McpSchema) : Zod.Schema :=
  match strict_eq_str (schema_type mcpSchema) "object",
        schema_properties mcpSchema with
  | true, Some properties =>
      let required := default [] (schema_required mcpSchema) in
      let zodProperties : gmap string Zod.ZodType := zod_of_prop <$> properties in
      let schema : Zod.Shape := Some <$> zodProperties in
      let optionalSchema := Zod.partial schema in
      let requiredSchema : Zod.Shape :=
        Zod.Object_fromEntries
          (map (fun key => (key, zodProperties !! key)) required) in
      Zod.ZObject (Zod.merge requiredSchema optionalSchema)
  | _, _ => Zod.ZRecord Zod.ZUnknown
  end.

(** The schema [{type: 'object', properties: {a: {type: 'string'}},
    required: ['a']}]. *)
Definition schema_a : McpSchema :=
  {| schema_type := Some (JStr "object");
     schema_properties := Some {[ "a" := {[ "type" := JStr "string" ]} ]};
     schema_required := Some ["a"] |}.

(** ** Exceptions and results *)

(** What a [catch] clause can receive: an [Error] object, of which only the
    message is ever read, or any other thrown value. *)
Inductive Exn : Type :=
| Error (message : string)
| NonError.

Inductive Result (A : Type) : Type :=
| Ok (value : A)
| Throw (e : Exn).
Arguments Ok {A} value.
Arguments Throw {A} e.

(** [error instanceof Error ? error.message : 'Unknown error'] *)
Definition message_or_unknown (e : Exn) : string :=
  match e with
  | Error message => message
  | NonError => "Unknown error"
  end.

(** ** Types ([src/types/mcp.ts]) *)

(** [transport] is a string at run time; the routes compare it with
    ['sse'] and ['stdio']. *)
Record MCPServerConfig : Type := {
  command : option string;
  args : option (list string);
  env : option (gmap string string);
  url : option string;
  headers : option (gmap string string);
  transport : option string;
}.

Record MCPTool : Type := {
  tool_name : string;
  tool_description : string;
  tool_inputSchema : gmap string Json;
}.

Record MCPServer : Type := {
  server_id : string;
  server_name : string;
  server_config : MCPServerConfig;
  server_enabled : bool;
  server_status : string;
  server_tools : option (list MCPTool);
  server_lastChecked : option Z;
}.

(** [JSON.stringify] and [JSON.parse] at a given type. [JSON_parse]
    returns [None] where the source would raise a [SyntaxError]. *)
Class JsonCodec (A : Type) : Type := {
  JSON_stringify : A -> string;
  JSON_parse : string -> option A;
}.

(** A value survives serialization when parsing its text gives it back. *)
Definition survives_JSON {A} `{JsonCodec A} (a : A) : Prop :=
  JSON_parse (JSON_stringify a) = Some a.

(** ** The registry ([src/lib/database.ts]) *)

Module Sql.

(** A row of [mcp_servers]; the two timestamp columns are left out, no
    query modelled here reads them. *)
Record ServerRow : Type := {
  srv_id : string;
  srv_name : string;
  srv_config : string;
  srv_enabled : Z;
  srv_status : string;
}.

(** A row of [mcp_tools]; [description] is the one nullable column. *)
Record ToolRow : Type := {
  tl_id : string;
  tl_server_id : string;
  tl_name : string;
  tl_description : option string;
  tl_input_schema : string;
}.

(** The database file: each table in rowid order, which is the order a
    [SELECT] without [ORDER BY] returns. [foreign_keys] is the
    connection's pragma of that name: better-sqlite3 opens a connection
    with it ON and the source never changes it. *)
Record Db : Type := {
  foreign_keys : bool;
  mcp_servers : list ServerRow;
  mcp_tools : list ToolRow;
}.

Definition with_tools (d : Db) (rows : list ToolRow) : Db :=
  {| foreign_keys := foreign_keys d;
     mcp_servers := mcp_servers d;
     mcp_tools := rows |}.

Definition with_servers (d : Db) (rows : list ServerRow) : Db :=
  {| foreign_keys := foreign_keys d;
     mcp_servers := rows;
     mcp_tools := mcp_tools d |}.

(** The freshly created file. *)
Definition empty : Db :=
  {| foreign_keys := true; mcp_servers := []; mcp_tools := [] |}.

Definition has_server (id : string) (d : Db) : bool :=
  bool_decide (id ∈ srv_id <$> mcp_servers d).

(** [ON DELETE CASCADE] of [mcp_tools.server_id], when enforced. *)
Definition cascade (id : string) (d : Db) : list ToolRow :=
  if foreign_keys d
  then filter (fun r => tl_server_id r ≠ id) (mcp_tools d)
  else mcp_tools d.

(** [INSERT OR REPLACE INTO mcp_servers]: a row with the same primary key
    is deleted first (which cascades to its tools when foreign keys are
    enforced), then the new row is added. *)
Definition insertServer (row : ServerRow) (d : Db) : Db :=
  {| foreign_keys := foreign_keys d;
     mcp_servers :=
       filter (fun r => srv_id r ≠ srv_id row) (mcp_servers d) ++ [row];
     mcp_tools :=
       if has_server (srv_id row) d then cascade (srv_id row) d
       else mcp_tools d |}.

(** [INSERT OR REPLACE INTO mcp_tools]: fails on a [server_id] without a
    parent row when foreign keys are enforced; otherwise replaces the row
    with the same primary key. *)
Definition insertTool (row : ToolRow) (d : Db) : Result Db :=
  if foreign_keys d && negb (has_server (tl_server_id row) d)
  then Throw (Error "FOREIGN KEY constraint failed")
  else Ok (with_tools d
             (filter (fun r => tl_id r ≠ tl_id row) (mcp_tools d) ++ [row])).

(** [SELECT * FROM mcp_servers WHERE id = ?], read with [.get]. *)
Definition getServer (id : string) (d : Db) : option ServerRow :=
  head (filter (fun r => srv_id r = id) (mcp_servers d)).

(** [SELECT * FROM mcp_tools WHERE server_id = ?], read with [.all]. *)
Definition getToolsByServer (serverId : string) (d : Db) : list ToolRow :=
  filter (fun r => tl_server_id r = serverId) (mcp_tools d).

(** [UPDATE mcp_servers SET status = ? WHERE id = ?] *)
Definition updateServerStatus (status id : string) (d : Db) : Db :=
  with_servers d
    (map (fun r => if bool_decide (srv_id r = id)
                   then {| srv_id := srv_id r; srv_name := srv_name r;
                           srv_config := srv_config r;
                           srv_enabled := srv_enabled r;
                           srv_status := status |}
                   else r)
         (mcp_servers d)).

(** [DELETE FROM mcp_servers WHERE id = ?] *)
Definition deleteServer (id : string) (d : Db) : Db :=
  {| foreign_keys := foreign_keys d;
     mcp_servers := filter (fun r => srv_id r ≠ id) (mcp_servers d);
     mcp_tools := if has_server id d then cascade id d else mcp_tools d |}.

(** [DELETE FROM mcp_tools WHERE server_id = ?] *)
Definition deleteToolsByServer (serverId : string) (d : Db) : Db :=
  with_tools d (filter (fun r => tl_server_id r ≠ serverId) (mcp_tools d)).

(** [db.transaction(body)(...)]: the body runs between BEGIN and COMMIT;
    if it throws, the transaction is rolled back and the exception is
    thrown again. The result is the state left behind and the exception,
    if any. *)
Definition transaction (body : Db -> Result Db) (d : Db) : Db * option Exn :=
  match body d with
  | Ok d' => (d', None)
  | Throw e => (d, Some e)
  end.

End Sql.

Module MCPDatabase.
Import Sql.

Section Operations.
Context `{!JsonCodec MCPServerConfig} `{!JsonCodec (gmap string Json)}.

Definition saveServer (server : MCPServer) (d : Db) : Db :=
  insertServer
    {| srv_id := server_id server;
       srv_name := server_name server;
       srv_config := JSON_stringify (server_config server);
       srv_enabled := if server_enabled server then 1%Z else 0%Z;
       srv_status := server_status server |}
    d.

(** [Boolean(row.enabled)] *)
Definition Boolean (n : Z) : bool := negb (n =? 0)%Z.

Definition server_of_row (row : ServerRow) : Result MCPServer :=
  match JSON_parse (srv_config row) with
  | Some config =>
      Ok {| server_id := srv_id row;
            server_name := srv_name row;
            server_config := config;
            server_enabled := Boolean (srv_enabled row);
            server_status := srv_status row;
            server_tools := Some [];
            server_lastChecked := None |}
  | None => Throw (Error "Unexpected token in JSON")
  end.

Definition getServer (id : string) (d : Db) : Result (option MCPServer) :=
  match Sql.getServer id d with
  | None => Ok None
  | Some row =>
      match server_of_row row with
      | Ok server => Ok (Some server)
      | Throw e => Throw e
      end
  end.

Definition updateServerStatus (id status : string) (d : Db) : Db :=
  Sql.updateServerStatus status id d.

Definition deleteServer (id : string) (d : Db) : Db :=
  Sql.deleteServer id (Sql.deleteToolsByServer id d).

Definition tool_row (serverId : string) (tool : MCPTool) : ToolRow :=
  {| tl_id := serverId +:+ "_" +:+ tool_name tool;
     tl_server_id := serverId;
     tl_name := tool_name tool;
     tl_description := Some (tool_description tool);
     tl_input_schema := JSON_stringify (tool_inputSchema tool) |}.

(** The body of [insertToolTransaction]: the [for] loop over [tools]. *)
Fixpoint insert_each (serverId : string) (tools : list MCPTool) (d : Db)
  : Result Db :=
  match tools with
  | [] => Ok d
  | tool :: rest =>
      match insertTool (tool_row serverId tool) d with
      | Ok d' => insert_each serverId rest d'
      | Throw e => Throw e
      end
  end.

Definition insertToolTransaction (serverId : string) (tools : list MCPTool)
  : Db -> Db * option Exn :=
  transaction (insert_each serverId tools).

(** The delete runs as a statement of its own, before the transaction
    that holds the inserts. *)
Definition saveTools (serverId : string) (tools : list MCPTool) (d : Db)
  : Db * option Exn :=
  insertToolTransaction serverId tools (Sql.deleteToolsByServer serverId d).

(** The states committed to the file by one [saveTools] call, oldest
    first: what another reader of the database can observe. *)
Definition saveTools_commits (serverId : string) (tools : list MCPTool)
    (d : Db) : list Db :=
  let d1 := Sql.deleteToolsByServer serverId d in
  match insertToolTransaction serverId tools d1 with
  | (d2, None) => [d1; d2]
  | (_, Some _) => [d1]
  end.

(** [row.description || ''] *)
Definition or_empty (description : option string) : string :=
  match description with
  | Some s => if bool_decide (s = "") then "" else s
  | None => ""
  end.

Definition tool_of_row (row : ToolRow) : Result MCPTool :=
  match JSON_parse (tl_input_schema row) with
  | Some schema =>
      Ok {| tool_name := tl_name row;
            tool_description := or_empty (tl_description row);
            tool_inputSchema := schema |}
  | None => Throw (Error "Unexpected token in JSON")
  end.

(** [rows.map(f)] for an [f] that can throw. *)
Fixpoint map_rows {A B} (f : A -> Result B) (rows : list A)
  : Result (list B) :=
  match rows with
  | [] => Ok []
  | row :: rest =>
      match f row with
      | Ok b =>
          match map_rows f rest with
          | Ok bs => Ok (b :: bs)
          | Throw e => Throw e
          end
      | Throw e => Throw e
      end
  end.

Definition getToolsByServer (serverId : string) (d : Db)
  : Result (list MCPTool) :=
  map_rows tool_of_row (Sql.getToolsByServer serverId d).

Definition getServerWithTools (id : string) (d : Db)
  : Result (option MCPServer) :=
  match getServer id d with
  | Ok (Some server) =>
      match getToolsByServer id d with
      | Ok tools =>
          Ok (Some {| server_id := server_id server;
                      server_name := server_name server;
                      server_config := server_config server;
                      server_enabled := server_enabled server;
                      server_status := server_status server;
                      server_tools := Some tools;
                      server_lastChecked := server_lastChecked server |})
      | Throw e => Throw e
      end
  | other => other
  end.

End Operations.
End MCPDatabase.

(** ** The run-time world of the API routes *)

(** Handles of protocol clients and of child processes. *)
Definition Client := nat.
Definition ChildProcess := nat.

Record Connection : Type := {
  client : Client;
  process : option ChildProcess;
}.

(** How a promise settles: after some milliseconds with a value or a
    rejection, or never. *)
Inductive Settles (A : Type) : Type :=
| After (ms : N) (r : Result A)
| Never.
Arguments After {A} ms r.
Arguments Never {A}.

(** A tool as the remote server lists it. *)
Record RemoteTool : Type := {
  remote_name : string;
  remote_description : option string;
  remote_inputSchema : option (gmap string Json);
}.

(** What [client.callTool] resolves to: the result object and its
    [content] property. *)
Record CallToolResult : Type := {
  content : option Json;
  whole : Json;
}.

(** Why a [callTool] promise rejects. The route sees only the message of
    the rejection; the cause is known to the environment alone. *)
Inductive CallFailure : Type :=
| RemoteToolFailure (remote_message : string)
| TransportFailure (message : string)
| OtherThrown (e : Exn).

Definition thrown (f : CallFailure) : Exn :=
  match f with
  | RemoteToolFailure remote_message => Error remote_message
  | TransportFailure message => Error message
  | OtherThrown e => e
  end.

(** Everything outside the program: the remote servers, the operating
    system and the scheduler. *)
Record Env : Type := {
  (* whether [new URL(text)] accepts the text *)
  url_valid : string -> bool;
  (* how [client.connect(transport)] settles for a configuration *)
  connect : MCPServerConfig -> Settles unit;
  (* whether the connect promise wins when it settles in the very
     millisecond the timer fires *)
  connect_wins_tie : bool;
  (* what reading the property [process] of a client's stdio transport
     gives: [None] is [undefined], which is what a transport gives that
     keeps its child process under another name *)
  transport_process : Client -> option ChildProcess;
  listTools : Client -> Settles (option (list RemoteTool));
  callTool : Client -> string -> option (gmap string Json)
             -> Settles (CallFailure + CallToolResult);
  (* an exception raised by the call [client.close()] itself *)
  close_throws : Client -> option Exn;
  (* the error with which the promise returned by [client.close()]
     rejects *)
  close_rejects : Client -> option Exn;
  (* an exception raised by [process.kill()] *)
  kill_throws : ChildProcess -> option Exn;
}.

(** The effects a request leaves behind. [Warned e] is [console.warn] with
    the caught [e]. [UnhandledRejection e] records, at the call that drops
    it, a promise that rejects with [e] while nothing awaits or handles it:
    no [catch] clause of the program ever receives [e]. *)
Inductive Event : Type :=
| Closed (c : Client)
| Killed (p : ChildProcess)
| Warned (e : Exn)
| UnhandledRejection (e : Exn).

(** The process-wide state: the connection table of the manager, the
    database, the clock in milliseconds, the next client handle, and the
    effects performed so far (latest first). *)
Record World : Type := {
  connections : gmap string Connection;
  database : Sql.Db;
  clock : N;
  next_client : Client;
  events : list Event;
}.

(** How a computation ends: with a value, with an exception, or not at all
    (it awaits a promise that never settles). *)
Inductive Outcome (A : Type) : Type :=
| Done (value : A)
| Raised (e : Exn)
| Hangs.
Arguments Done {A} value.
Arguments Raised {A} e.
Arguments Hangs {A}.

Module Js.

Definition t (A : Type) : Type := World -> World * Outcome A.

Definition ret {A} (a : A) : t A := fun w => (w, Done a).

Definition bind {A B} (m : t A) (k : A -> t B) : t B :=
  fun w =>
    match m w with
    | (w', Done a) => k a w'
    | (w', Raised e) => (w', Raised e)
    | (w', Hangs) => (w', Hangs)
    end.

Definition throw {A} (e : Exn) : t A := fun w => (w, Raised e).

(** [try { body } catch (error) { handler }] *)
Definition try_catch {A} (body : t A) (handler : Exn -> t A) : t A :=
  fun w =>
    match body w with
    | (w', Raised e) => handler e w'
    | other => other
    end.

Definition gets {A} (f : World -> A) : t A := fun w => (w, Done (f w)).

Definition modify (f : World -> World) : t unit := fun w => (f w, Done tt).

Definition of_result {A} (r : Result A) : t A :=
  match r with
  | Ok a => ret a
  | Throw e => throw e
  end.

Definition tick (ms : N) (w : World) : World :=
  {| connections := connections w; database := database w;
     clock := (clock w + ms)%N; next_client := next_client w;
     events := events w |}.

(** [await promise] *)
Definition await {A} (p : Settles A) : t A :=
  match p with
  | After ms r => bind (modify (tick ms)) (fun _ => of_result r)
  | Never => fun w => (w, Hangs)
  end.

Definition emit (ev : Event) : t unit :=
  modify (fun w =>
    {| connections := connections w; database := database w;
       clock := clock w; next_client := next_client w;
       events := ev :: events w |}).

Definition set_connections (f : gmap string Connection -> gmap string Connection)
  : t unit :=
  modify (fun w =>
    {| connections := f (connections w); database := database w;
       clock := clock w; next_client := next_client w;
       events := events w |}).

Definition set_database (d : Sql.Db) (w : World) : World :=
  {| connections := connections w; database := d;
     clock := clock w; next_client := next_client w;
     events := events w |}.

(** A database call that cannot fail. *)
Definition db_run (f : Sql.Db -> Sql.Db) : t unit :=
  modify (fun w => set_database (f (database w)) w).

(** A database call that leaves a state behind and may throw. *)
Definition db_try (f : Sql.Db -> Sql.Db * option Exn) : t unit :=
  fun w =>
    match f (database w) with
    | (d, None) => (set_database d w, Done tt)
    | (d, Some e) => (set_database d w, Raised e)
    end.

(** [new Client(...)] *)
Definition new_client : t Client :=
  fun w =>
    ({| connections := connections w; database := database w;
        clock := clock w; next_client := S (next_client w);
        events := events w |},
     Done (next_client w)).

End Js.

Notation "'let*' x ':=' m 'in' k" := (Js.bind m (fun x => k))
  (at level 10, x name, m at level 100, k at level 200, only parsing).
Notation "m ';;' k" := (Js.bind m (fun _ => k))
  (at level 100, k at level 200, right associativity, only parsing).

(** [Promise.race([promise, timeoutPromise])] where [timeoutPromise]
    rejects with [new Error(message)] after [ms] milliseconds. *)
Definition race_timeout {A} (wins_tie : bool) (promise : Settles A)
    (ms : N) (message : string) : Settles A :=
  match promise with
  | After t r =>
      if (t <? ms)%N || ((t =? ms)%N && wins_tie) then After t r
      else After ms (Throw (Error message))
  | Never => After ms (Throw (Error message))
  end.

(** [text.includes(part)] *)
Fixpoint includes (text part : string) : bool :=
  String.prefix part text ||
  match text with
  | EmptyString => false
  | String _ rest => includes rest part
  end.

(** Truthiness of a JSON value. *)
Definition truthy (v : Json) : bool :=
  match v with
  | JNull => false
  | JBool b => b
  | JNum n => negb (n =? 0)%Z
  | JStr s => negb (bool_decide (s = ""))
  | JArr _ | JObj _ => true
  end.

(** ** The connection manager ([src/lib/mcp-connections.ts]) *)

Module MCPConnectionManager.
Section WithEnv.
Variable env : Env.

(** [connection.client.close()]: the call is not awaited. An exception
    raised by the call itself reaches the [catch]. When the promise the
    call returns rejects, nothing awaits it and no handler is attached: the
    rejection is unhandled and the [catch] never sees it. *)
Definition close (c : Client) : Js.t unit :=
  match close_throws env c with
  | Some e => Js.throw e
  | None =>
      match close_rejects env c with
      | Some e => Js.emit (UnhandledRejection e)
      | None => Js.emit (Closed c)
      end
  end.

Definition kill (p : ChildProcess) : Js.t unit :=
  match kill_throws env p with
  | Some e => Js.throw e
  | None => Js.emit (Killed p)
  end.

Definition setConnection (serverId : string) (c : Client)
    (p : option ChildProcess) : Js.t unit :=
  Js.set_connections (insert serverId {| client := c; process := p |}).

Definition getConnection (serverId : string) : Js.t (option Connection) :=
  Js.gets (fun w => connections w !! serverId).

Definition deleteConnection (serverId : string) : Js.t unit :=
  let* connection := Js.gets (fun w => connections w !! serverId) in
  match connection with
  | Some connection =>
      Js.try_catch
        (close (client connection);;
         match process connection with
         | Some p => kill p
         | None => Js.ret tt
         end)
        (fun error => Js.emit (Warned error));;
      Js.set_connections (delete serverId)
  | None => Js.ret tt
  end.

Definition hasConnection (serverId : string) : Js.t bool :=
  Js.gets (fun w => bool_decide (is_Some (connections w !! serverId))).

End WithEnv.
End MCPConnectionManager.

(** ** The API routes *)

(** The bodies handed to [NextResponse.json]. *)
Inductive Body : Type :=
| BError (error : string)
| BErrorDetails (error details : string)
| BToolFailed (error : string) (details : Exn)
| BMessage (message : string)
| BTools (tools : list MCPTool) (serverInfo_name serverInfo_description : string)
| BToolResult (toolName : string) (result : Json) (timestamp : N).

Record Response : Type := {
  status : nat;
  body : Body;
}.

Definition respond (code : nat) (b : Body) : Js.t Response :=
  Js.ret {| status := code; body := b |}.

(** [!value] for a string that may be missing from the request. *)
Definition falsy (value : option string) : bool :=
  match value with
  | Some s => bool_decide (s = "")
  | None => true
  end.

Record MCPToolCall : Type := {
  toolName : option string;
  arguments : option (gmap string Json);
  serverId : option string;
}.

(** [{ type: 'object', properties: {}, required: [] }] *)
Definition default_inputSchema : gmap string Json :=
  <["type" := JStr "object"]>
    (<["properties" := JObj ∅]> (<["required" := JArr []]> ∅)).

Definition tool_of_remote (tool : RemoteTool) : MCPTool :=
  {| tool_name := remote_name tool;
     tool_description :=
       match remote_description tool with
       | Some s => if bool_decide (s = "") then "" else s
       | None => ""
       end;
     tool_inputSchema := default default_inputSchema (remote_inputSchema tool) |}.

(** [{ ...server, status: 'connected' }] *)
Definition with_status_connected (server : MCPServer) : MCPServer :=
  {| server_id := server_id server;
     server_name := server_name server;
     server_config := server_config server;
     server_enabled := server_enabled server;
     server_status := "connected";
     server_tools := server_tools server;
     server_lastChecked := server_lastChecked server |}.

Section Routes.
Context `{!JsonCodec MCPServerConfig} `{!JsonCodec (gmap string Json)}.
Variable env : Env.

(** [new URL(text)] *)
Definition new_URL (text : string) : Js.t unit :=
  if url_valid env text then Js.ret tt else Js.throw (Error "Invalid URL").

(** *** [delete-server]: POST

    [request_serverId] is the [serverId] property of the body, [None] when
    the body has none. *)
Definition delete_server_POST (request_serverId : option string)
  : Js.t Response :=
  Js.try_catch
    (match request_serverId with
     | Some id =>
         if bool_decide (id = "")
         then respond 400 (BError "Server ID is required")
         else
           MCPConnectionManager.deleteConnection env id;;
           Js.db_run (MCPDatabase.deleteServer id);;
           respond 200 (BMessage "Server deleted successfully")
     | None => respond 400 (BError "Server ID is required")
     end)
    (fun error =>
       respond 500 (BErrorDetails "Failed to delete server"
                                  (message_or_unknown error))).

(** *** [test-connection]: POST *)

(** What both branches do once the client is connected. *)
Definition discover_and_store (server : MCPServer) (c : Client)
    (p : option ChildProcess) (description : string) : Js.t Response :=
  let* toolsResult := Js.await (listTools env c) in
  MCPConnectionManager.setConnection (server_id server) c p;;
  let tools := map tool_of_remote (default [] toolsResult) in
  Js.db_run (MCPDatabase.saveServer (with_status_connected server));;
  Js.db_try (MCPDatabase.saveTools (server_id server) tools);;
  respond 200 (BTools tools (server_name server) description).

(** The body is read at its type [MCPServer], which has a config, so the
    guard [!server || !server.config] is passed. *)
Definition test_connection_POST (server : MCPServer) : Js.t Response :=
  let config := server_config server in
  Js.try_catch
    (if bool_decide (transport config = Some "sse") then
       Js.try_catch
         (if falsy (url config)
          then respond 400 (BError "URL is required for SSE transport")
          else
            MCPConnectionManager.deleteConnection env (server_id server);;
            new_URL (default "" (url config));;
            let* c := Js.new_client in
            Js.await (race_timeout (connect_wins_tie env) (connect env config)
                                   10000%N "SSE connection timeout");;
            discover_and_store server c None "MCP SSE Server")
         (fun error =>
            respond 400 (BError ("SSE connection failed: "
                                 +:+ message_or_unknown error)))
     else if bool_decide (transport config = Some "stdio")
             && negb (falsy (command config)) then
       Js.try_catch
         (MCPConnectionManager.deleteConnection env (server_id server);;
          let* c := Js.new_client in
          Js.await (race_timeout (connect_wins_tie env) (connect env config)
                                 10000%N "Connection timeout");;
          discover_and_store server c (transport_process env c)
                             "MCP Server")
         (fun error =>
            respond 400 (BError ("STDIO connection failed: "
                                 +:+ message_or_unknown error)))
     else respond 400 (BError "Invalid server configuration"))
    (fun error =>
       respond 500 (BErrorDetails "Failed to test MCP connection"
                                  (message_or_unknown error))).

(** *** On-demand execution: [createMCPConnection] *)
Definition createMCPConnection (server : MCPServer) : Js.t Client :=
  let config := server_config server in
  if bool_decide (transport config = Some "sse") then
    if falsy (url config)
    then Js.throw (Error "URL is required for SSE transport")
    else
      new_URL (default "" (url config));;
      let* c := Js.new_client in
      Js.await (race_timeout (connect_wins_tie env) (connect env config)
                             10000%N "SSE connection timeout");;
      Js.ret c
  else if bool_decide (transport config = Some "stdio")
          && negb (falsy (command config)) then
    let* c := Js.new_client in
    Js.await (race_timeout (connect_wins_tie env) (connect env config)
                           10000%N "STDIO connection timeout");;
    Js.ret c
  else Js.throw (Error "Invalid server configuration").

(** *** Pooled execution: POST *)

(** [result.content || result] *)
Definition content_or_whole (result : CallToolResult) : Json :=
  match content result with
  | Some c => if truthy c then c else whole result
  | None => whole result
  end.

(** The test of the [catch (toolError)] clause. *)
Definition looks_broken (toolError : Exn) : bool :=
  match toolError with
  | Error message =>
      includes message "connection" || includes message "closed"
      || includes message "disconnected"
  | NonError => false
  end.

(** [await connection.client.callTool(...)]: a rejection carries the
    value the failure throws. *)
Definition await_callTool (c : Client) (name : string)
    (arguments : option (gmap string Json)) : Js.t CallToolResult :=
  match callTool env c name arguments with
  | After ms (Ok (inr result)) => Js.await (After ms (Ok result))
  | After ms (Ok (inl failure)) => Js.await (After ms (Throw (thrown failure)))
  | After ms (Throw e) => Js.await (After ms (Throw e))
  | Never => Js.await Never
  end.

Definition execute_POST (call : MCPToolCall) : Js.t Response :=
  Js.try_catch
    (if falsy (toolName call) || falsy (serverId call)
     then respond 400 (BError "Tool name and server ID are required")
     else
       let name := default "" (toolName call) in
       let id := default "" (serverId call) in
       let* connection := MCPConnectionManager.getConnection id in
       match connection with
       | None =>
           respond 400 (BError
             "No active connection found for server. Please test connection first to establish a connection.")
       | Some connection =>
           Js.try_catch
             (let* result :=
                await_callTool (client connection) name (arguments call) in
              let* now := Js.gets clock in
              respond 200 (BToolResult name (content_or_whole result) now))
             (fun toolError =>
                (if looks_broken toolError
                 then MCPConnectionManager.deleteConnection env id
                 else Js.ret tt);;
                respond 400 (BToolFailed
                               ("Tool execution failed: "
                                +:+ message_or_unknown toolError)
                               toolError))
       end)
    (fun error =>
       respond 500 (BErrorDetails "Failed to execute MCP tool"
                                  (message_or_unknown error))).

End Routes.

(** ** Auxiliary notions used in the statements *)

(** A tool list with, for every name, only its last occurrence kept. *)
Fixpoint keep_last (tools : list MCPTool) : list MCPTool :=
  match tools with
  | [] => []
  | tool :: rest =>
      if bool_decide (tool_name tool ∈ tool_name <$> rest)
      then keep_last rest
      else tool :: keep_last rest
  end.

(** The primary keys [saveTools] writes for a server and a tool list. *)
Definition tool_ids (serverId : string) (tools : list MCPTool) : list string :=
  (fun tool => serverId +:+ "_" +:+ tool_name tool) <$> tools.

(** The rows left by the loop of [insertToolTransaction] when no insert
    fails: every tool replaces the row that has its key and goes last. *)
Definition replace_rows `{!JsonCodec (gmap string Json)} (serverId : string)
    (tools : list MCPTool) (rows : list Sql.ToolRow) : list Sql.ToolRow :=
  foldl (fun acc tool =>
           filter (fun r => Sql.tl_id r
                            ≠ Sql.tl_id (MCPDatabase.tool_row serverId tool)) acc
           ++ [MCPDatabase.tool_row serverId tool])
        rows tools.

(** A server as [getServer] hands it back: whatever its tools were, the
    list is empty, and [lastChecked] is not stored. *)
Definition read_back (server : MCPServer) (tools : list MCPTool) : MCPServer :=
  {| server_id := server_id server;
     server_name := server_name server;
     server_config := server_config server;
     server_enabled := server_enabled server;
     server_status := server_status server;
     server_tools := Some tools;
     server_lastChecked := None |}.

(** What the un-awaited [client.close()] leaves in the log when the call
    itself did not throw. *)
Definition close_event (env : Env) (c : Client) : Event :=
  match close_rejects env c with
  | Some e => UnhandledRejection e
  | None => Closed c
  end.

(** The effects of the clean-up in [deleteConnection], latest first: the
    client is closed and then the process, if any, killed; an exception
    raised by either call ends the clean-up with a warning. *)
Definition cleanup_events (env : Env) (connection : Connection) : list Event :=
  match close_throws env (client connection) with
  | Some e => [Warned e]
  | None =>
      match process connection with
      | None => [close_event env (client connection)]
      | Some p =>
          match kill_throws env p with
          | Some e => [Warned e; close_event env (client connection)]
          | None => [Killed p; close_event env (client connection)]
          end
      end
  end.

(** The timer of [ms] milliseconds fires before the promise settles. *)
Definition timer_fires_first {A} (promise : Settles A) (ms : N) : Prop :=
  match promise with
  | After t _ => (ms < t)%N
  | Never => True
  end.

(** ** Sample data for the examples *)

#[global] Instance MCPServerConfig_eq_dec : EqDecision MCPServerConfig.
Proof. solve_decision. Defined.

Definition sse_config : MCPServerConfig :=
  {| command := None; args := None; env := None;
     url := Some "http://localhost:3001/sse"; headers := None;
     transport := Some "sse" |}.

Definition stdio_config : MCPServerConfig :=
  {| command := Some "npx"; args := Some ["-y"; "some-mcp-server"];
     env := None; url := None; headers := None;
     transport := Some "stdio" |}.

(** Codecs that are enough for the examples: they know the two sample
    configurations and the empty object, and give up on any other text. *)
Definition sample_config_codec : JsonCodec MCPServerConfig :=
  {| JSON_stringify c :=
       if bool_decide (c = sse_config) then "sse_config"
       else if bool_decide (c = stdio_config) then "stdio_config"
       else "config";
     JSON_parse text :=
       if bool_decide (text = "sse_config") then Some sse_config
       else if bool_decide (text = "stdio_config") then Some stdio_config
       else None |}.

Definition sample_schema_codec : JsonCodec (gmap string Json) :=
  {| JSON_stringify m := if bool_decide (size m = 0) then "{}" else "{...}";
     JSON_parse text := if bool_decide (text = "{}") then Some ∅ else None |}.

Definition sample_tool (name description : string) : MCPTool :=
  {| tool_name := name; tool_description := description;
     tool_inputSchema := ∅ |}.

Definition sample_server (id : string) (config : MCPServerConfig) : MCPServer :=
  {| server_id := id; server_name := "Sample"; server_config := config;
     server_enabled := true; server_status := "connected";
     server_tools := None; server_lastChecked := None |}.

(** An environment in which nothing ever answers and nothing throws. *)
Definition silent_env : Env :=
  {| url_valid := fun _ => true;
     connect := fun _ => Never;
     connect_wins_tie := false;
     transport_process := fun _ => None;
     listTools := fun _ => Never;
     callTool := fun _ _ _ => Never;
     close_throws := fun _ => None;
     close_rejects := fun _ => None;
     kill_throws := fun _ => None |}.

(** An environment in which every tool call fails after 5 ms. *)
Definition failing_env (failure : CallFailure) : Env :=
  {| url_valid := fun _ => true;
     connect := fun _ => Never;
     connect_wins_tie := false;
     transport_process := fun _ => None;
     listTools := fun _ => Never;
     callTool := fun _ _ _ => After 5 (Ok (inl failure));
     close_throws := fun _ => None;
     close_rejects := fun _ => None;
     kill_throws := fun _ => None |}.

(** An environment in which closing a client throws. *)
Definition stubborn_env : Env :=
  {| url_valid := fun _ => true;
     connect := fun _ => Never;
     connect_wins_tie := false;
     transport_process := fun _ => None;
     listTools := fun _ => Never;
     callTool := fun _ _ _ => Never;
     close_throws := fun _ => Some (Error "Not connected");
     close_rejects := fun _ => None;
     kill_throws := fun _ => None |}.

Definition world_of (table : gmap string Connection) (d : Sql.Db) : World :=
  {| connections := table; database := d; clock := 0; next_client := 1;
     events := [] |}.

Module Samples.
#[export] Existing Instance sample_config_codec.
#[export] Existing Instance sample_schema_codec.

(** A registry with the servers [s] and [t] and no tools. *)
Definition two_servers : Sql.Db :=
  MCPDatabase.saveServer (sample_server "t" stdio_config)
    (MCPDatabase.saveServer (sample_server "s" sse_config) Sql.empty).

(** The same with the tools [A] and [B] stored for [s]. *)
Definition with_A_B : Sql.Db :=
  (MCPDatabase.saveTools "s" [sample_tool "A" "first"; sample_tool "B" "second"]
     two_servers).1.

(** Two servers whose ids and tool names run into each other: the tool
    [b_c] of the server [a] and the tool [c] of the server [a_b] get the
    same primary key [a_b_c]. *)
Definition clashing : Sql.Db :=
  (MCPDatabase.saveTools "a" [sample_tool "b_c" "of a"]
     (MCPDatabase.saveServer (sample_server "a_b" sse_config)
        (MCPDatabase.saveServer (sample_server "a" sse_config) Sql.empty))).1.

(** A world in which the server [s] is connected through client 0 and
    process 7. *)
Definition connected_world : World :=
  world_of {[ "s" := {| client := 0; process := Some 7 |} ]} with_A_B.

(** The same with a connection that owns no process, as the test of an sse
    server registers it. *)
Definition sse_connected_world : World :=
  world_of {[ "s" := {| client := 0; process := None |} ]} with_A_B.

(** A registry holding a server whose id is the empty string. *)
Definition nameless : Sql.Db :=
  MCPDatabase.saveServer (sample_server "" sse_config) Sql.empty.

Definition call_A : MCPToolCall :=
  {| toolName := Some "A"; arguments := Some ∅; serverId := Some "s" |}.

End Samples.

(** ** Integrity of the registry *)

(** The primary keys of both tables are pairwise different. *)
Definition unique_keys (d : Sql.Db) : Prop :=
  NoDup (Sql.srv_id <$> Sql.mcp_servers d)
  /\ NoDup (Sql.tl_id <$> Sql.mcp_tools d).

(** Under enforced foreign keys every tool belongs to a stored server. *)
Definition references_kept (d : Sql.Db) : Prop :=
  Sql.foreign_keys d = true ->
  forall r, r ∈ Sql.mcp_tools d -> Sql.has_server (Sql.tl_server_id r) d = true.

(** [{ ...server, status }] *)
Definition with_status (server : MCPServer) (status : string) : MCPServer :=
  {| server_id := server_id server;
     server_name := server_name server;
     server_config := server_config server;
     server_enabled := server_enabled server;
     server_status := status;
     server_tools := server_tools server;
     server_lastChecked := server_lastChecked server |}.

(** The row [UPDATE ... SET status = ? WHERE id = ?] leaves for a row. *)
Definition restatus (status id : string) (r : Sql.ServerRow) : Sql.ServerRow :=
  if bool_decide (Sql.srv_id r = id)
  then {| Sql.srv_id := Sql.srv_id r; Sql.srv_name := Sql.srv_name r;
          Sql.srv_config := Sql.srv_config r;
          Sql.srv_enabled := Sql.srv_enabled r;
          Sql.srv_status := status |}
  else r.

(** What [getAllAvailableTools] returns for a tool: the tool with the id
    and the name of its server. *)
Record AvailableTool : Type := {
  available_tool : MCPTool;
  available_serverId : string;
  available_serverName : string;
}.

(** ** The listing queries of the registry

    [ORDER BY created_at DESC] sorts on a column that is not modelled; the
    clause is taken as a parameter that rearranges the selected rows. *)

Module Listing.
Import Sql.

Section Queries.
Context `{!JsonCodec MCPServerConfig} `{!JsonCodec (gmap string Json)}.
Variable order_by_created_at : list ServerRow -> list ServerRow.
Variable order_by_names :
  list (ToolRow * ServerRow) -> list (ToolRow * ServerRow).

(** [SELECT t.*, s.name, s.status FROM mcp_tools t JOIN mcp_servers s ON
    t.server_id = s.id WHERE s.enabled = 1 AND s.status = 'connected' ORDER
    BY s.name, t.name]; ties of the sort are not ordered by the query, so
    this clause is a parameter as well. *)
Definition getAllTools (d : Db) : list (ToolRow * ServerRow) :=
  order_by_names
    (flat_map
       (fun t =>
          map (pair t)
              (filter (fun s => srv_id s = tl_server_id t
                                /\ srv_enabled s = 1%Z
                                /\ srv_status s = "connected")
                      (mcp_servers d)))
       (mcp_tools d)).

Definition available_of_row (row : ToolRow * ServerRow) : Result AvailableTool :=
  match MCPDatabase.tool_of_row row.1 with
  | Ok tool =>
      Ok {| available_tool := tool;
            available_serverId := tl_server_id row.1;
            available_serverName := srv_name row.2 |}
  | Throw e => Throw e
  end.

Definition getAllAvailableTools (d : Db) : Result (list AvailableTool) :=
  MCPDatabase.map_rows available_of_row (getAllTools d).

(** [SELECT * FROM mcp_servers ORDER BY created_at DESC] *)
Definition getServers (d : Db) : list ServerRow :=
  order_by_created_at (mcp_servers d).

(** [SELECT * FROM mcp_servers WHERE enabled = 1 ORDER BY created_at DESC] *)
Definition getEnabledServers_rows (d : Db) : list ServerRow :=
  order_by_created_at (filter (fun r => srv_enabled r = 1%Z) (mcp_servers d)).

Definition getAllServers (d : Db) : Result (list MCPServer) :=
  MCPDatabase.map_rows MCPDatabase.server_of_row (getServers d).

Definition getEnabledServers (d : Db) : Result (list MCPServer) :=
  MCPDatabase.map_rows MCPDatabase.server_of_row (getEnabledServers_rows d).

(** [server.tools = this.getToolsByServer(server.id); return server] *)
Definition load_tools (d : Db) (server : MCPServer) : Result MCPServer :=
  match MCPDatabase.getToolsByServer (server_id server) d with
  | Ok tools =>
      Ok {| server_id := server_id server;
            server_name := server_name server;
            server_config := server_config server;
            server_enabled := server_enabled server;
            server_status := server_status server;
            server_tools := Some tools;
            server_lastChecked := server_lastChecked server |}
  | Throw e => Throw e
  end.

Definition getAllServersWithTools (d : Db) : Result (list MCPServer) :=
  match getAllServers d with
  | Ok servers => MCPDatabase.map_rows (load_tools d) servers
  | Throw e => Throw e
  end.

Definition getEnabledServersWithTools (d : Db) : Result (list MCPServer) :=
  match getEnabledServers d with
  | Ok servers => MCPDatabase.map_rows (load_tools d) servers
  | Throw e => Throw e
  end.

End Queries.
End Listing.

(** ** More of the API routes *)

(** [try { block } finally { cleanup }]: the clean-up runs however the
    block ends; an exception of the clean-up replaces the block's result. *)
Definition Js_finally {A} (block : Js.t A) (cleanup : Js.t unit) : Js.t A :=
  fun w =>
    match block w with
    | (w', Hangs) => (w', Hangs)
    | (w', result) =>
        match cleanup w' with
        | (w'', Done _) => (w'', result)
        | (w'', Raised e) => (w'', Raised e)
        | (w'', Hangs) => (w'', Hangs)
        end
    end.

(** [let client = null; try { client = await create; body } catch (e)
    { handler } finally { if (client) cleanup }]: when [create] fails the
    handler runs and there is nothing to clean up. *)
Definition try_with_client {A} (create : Js.t Client)
    (body : Client -> Js.t A) (handler : Exn -> Js.t A)
    (cleanup : Client -> Js.t unit) : Js.t A :=
  fun w =>
    match create w with
    | (w', Done c) =>
        Js_finally (Js.try_catch (body c) handler) (cleanup c) w'
    | (w', Raised e) => handler e w'
    | (w', Hangs) => (w', Hangs)
    end.

Section MoreRoutes.
Context `{!JsonCodec MCPServerConfig} `{!JsonCodec (gmap string Json)}.
Variable env : Env.
(* how the promise of an awaited [client.close()] settles *)
Variable close_settles : Client -> Settles unit.

(** *** [save-server]: POST *)
Definition save_server_POST (server : MCPServer) : Js.t Response :=
  Js.try_catch
    (if bool_decide (server_id server = "")
        || bool_decide (server_name server = "")
     then respond 400 (BError "Server ID, name, and config are required")
     else
       Js.db_run (MCPDatabase.saveServer server);;
       respond 200 (BMessage "Server configuration saved successfully"))
    (fun error =>
       respond 500 (BErrorDetails "Failed to save server configuration"
                                  (message_or_unknown error))).

(** *** On-demand execution: POST *)

(** The [finally] block: [await client.close()], with a failure logged. *)
Definition close_quietly (c : Client) : Js.t unit :=
  Js.try_catch
    (Js.await (close_settles c);; Js.emit (Closed c))
    (fun closeError => Js.emit (Warned closeError)).

(** [MCPDatabase.getServer(serverId)] inside the route. *)
Definition lookup_server (id : string) : Js.t (option MCPServer) :=
  let* d := Js.gets database in
  Js.of_result (MCPDatabase.getServer id d).

Definition on_demand_execute_POST (call : MCPToolCall) : Js.t Response :=
  Js.try_catch
    (if falsy (toolName call) || falsy (serverId call)
     then respond 400 (BError "Tool name and server ID are required")
     else
       let name := default "" (toolName call) in
       let id := default "" (serverId call) in
       let* found := lookup_server id in
       match found with
       | None =>
           respond 404 (BError ("Server with ID " +:+ id +:+ " not found"))
       | Some server =>
           try_with_client
             (createMCPConnection env server)
             (fun c =>
                let* result := await_callTool env c name (arguments call) in
                let* now := Js.gets clock in
                respond 200 (BToolResult name (content_or_whole result) now))
             (fun toolError =>
                respond 400 (BToolFailed
                               ("Tool execution failed: "
                                +:+ message_or_unknown toolError)
                               toolError))
             close_quietly
       end)
    (fun error =>
       respond 500 (BErrorDetails "Failed to execute MCP tool"
                                  (message_or_unknown error))).

(** *** Execution over the route's own table: POST

    This route keeps its connections in a [Map] of its own module,
    [activeConnections], passed here explicitly; nothing in the module
    adds to it. *)
Definition own_table_execute_POST (activeConnections : gmap string Connection)
    (call : MCPToolCall) : World -> gmap string Connection * (World * Outcome Response) :=
  fun w =>
    if falsy (toolName call) || falsy (serverId call)
    then (activeConnections,
          respond 400 (BError "Tool name and server ID are required") w)
    else
      let name := default "" (toolName call) in
      let id := default "" (serverId call) in
      match activeConnections !! id with
      | None =>
          (activeConnections,
           respond 400 (BError
             "No active connection found for server. Please test connection first to establish a connection.") w)
      | Some connection =>
          match await_callTool env (client connection) name (arguments call) w with
          | (w', Done result) =>
              (activeConnections,
               respond 200 (BToolResult name (content_or_whole result) (clock w')) w')
          | (w', Raised toolError) =>
              (if looks_broken toolError
               then delete id activeConnections
               else activeConnections,
               respond 400 (BToolFailed
                              ("Tool execution failed: "
                               +:+ message_or_unknown toolError)
                              toolError) w')
          | (w', Hangs) => (activeConnections, (w', Hangs))
          end
      end.

(** The requests of a process, served one after the other from the table
    the module starts with. *)
Fixpoint own_table_serve (activeConnections : gmap string Connection)
    (calls : list MCPToolCall) (w : World) : list (Outcome Response) :=
  match calls with
  | [] => []
  | call :: rest =>
      match own_table_execute_POST activeConnections call w with
      | (table, (w', Hangs)) => [Hangs]
      | (table, (w', result)) => result :: own_table_serve table rest w'
      end
  end.

End MoreRoutes.

(** *** The chat route: the tools offered to the model *)

(** The test of [servers.filter(server => server.enabled && server.status
    === 'connected' && server.tools && server.tools.length > 0)]. *)
Definition offers_tools (server : MCPServer) : bool :=
  server_enabled server
  && bool_decide (server_status server = "connected")
  && match server_tools server with
     | Some (_ :: _) => true
     | _ => false
     end.

Definition connectedServers (servers : list MCPServer) : list MCPServer :=
  filter (fun server => offers_tools server = true) servers.

(** An entry of the tools object: its description and input schema are
    those of the tool, and its [execute] posts the tool's name and the id of
    the server it was built from, so the entry is given by that pair. *)
Record ChatTool : Type := {
  bound_server : MCPServer;
  bound_tool : MCPTool;
}.

(** [connectedServers.flatMap(server => server.tools.map(mcpTool =>
    ({ [mcpTool.name]: tool({...}) })))], each one-key object as a pair. *)
Definition dynamicTools (servers : list MCPServer)
  : list (string * ChatTool) :=
  flat_map
    (fun server =>
       map (fun mcpTool =>
              (tool_name mcpTool,
               {| bound_server := server; bound_tool := mcpTool |}))
           (default [] (server_tools server)))
    (connectedServers servers).

(** [{ ...systemTools, ...dynamicTools.reduce((acc, toolObj) => ({ ...acc,
    ...toolObj }), {}) }] with the empty [systemTools]. *)
Definition toolsObject (servers : list MCPServer) : gmap string ChatTool :=
  foldl (fun (acc : gmap string ChatTool) toolObj =>
           <[toolObj.1 := toolObj.2]> acc)
        ∅ (dynamicTools servers).

(** *** The OpenAI route: the tools offered and the server called *)

Record OpenAITool : Type := {
  function_name : string;
  function_description : string;
  function_parameters : gmap string Json;
}.

(** [servers.forEach(server => { if (server.tools) server.tools.forEach(tool
    => tools.push({...})) })] *)
Definition openai_tools (servers : list MCPServer) : list OpenAITool :=
  flat_map
    (fun server =>
       map (fun tool =>
              {| function_name := tool_name tool;
                 function_description :=
                   if bool_decide (tool_description tool = "")
                   then tool_name tool +:+ " from " +:+ server_name server
                   else tool_description tool;
                 function_parameters := tool_inputSchema tool |})
           (default [] (server_tools server)))
    servers.

(** [s.tools?.some(t => t.name === name)] *)
Definition has_tool (name : string) (server : MCPServer) : bool :=
  match server_tools server with
  | Some tools => existsb (fun t => bool_decide (tool_name t = name)) tools
  | None => false
  end.

(** [servers.find(s => s.tools?.some(t => t.name === name))] *)
Definition foundServer (servers : list MCPServer) (name : string)
  : option MCPServer :=
  List.find (has_tool name) servers.

(** An environment in which servers connect after 120 ms and list, after
    another 30 ms, a tool [A] and two tools named [B]. *)
Definition helpful_env : Env :=
  {| url_valid := fun _ => true;
     connect := fun _ => After 120 (Ok tt);
     connect_wins_tie := false;
     transport_process := fun _ => None;
     listTools := fun _ =>
       After 30 (Ok (Some
         [ {| remote_name := "A"; remote_description := Some "first";
              remote_inputSchema := Some ∅ |};
           {| remote_name := "B"; remote_description := None;
              remote_inputSchema := Some ∅ |};
           {| remote_name := "B"; remote_description := Some "again";
              remote_inputSchema := Some ∅ |} ]));
     callTool := fun _ _ _ =>
       After 5 (Ok (inr {| content := Some (JStr "done");
                           whole := JObj ∅ |}));
     close_throws := fun _ => None;
     close_rejects := fun _ => None;
     kill_throws := fun _ => None |}.

(** A computation that leaves the connection table and the database as it
    found them, however it ends. *)
Definition keeps_stores {A} (m : Js.t A) : Prop :=
  forall w, connections (m w).1 = connections w
            /\ database (m w).1 = database w.

(** The answer of the execute routes to what [callTool] did. *)
Definition execute_answer (name : string) (now : N)
    (outcome : Result (CallFailure + CallToolResult)) : Response :=
  match outcome with
  | Ok (inr result) =>
      {| status := 200;
         body := BToolResult name (content_or_whole result) now |}
  | Ok (inl failure) =>
      {| status := 400;
         body := BToolFailed ("Tool execution failed: "
                              +:+ message_or_unknown (thrown failure))
                             (thrown failure) |}
  | Throw e =>
      {| status := 400;
         body := BToolFailed ("Tool execution failed: "
                              +:+ message_or_unknown e) e |}
  end.

(** Two connected servers with a tool named [search]. *)
Definition docs_server : MCPServer :=
  {| server_id := "docs"; server_name := "Docs";
     server_config := sse_config; server_enabled := true;
     server_status := "connected";
     server_tools := Some [sample_tool "search" "search the docs"];
     server_lastChecked := None |}.

Definition web_server : MCPServer :=
  {| server_id := "web"; server_name := "Web";
     server_config := sse_config; server_enabled := true;
     server_status := "connected";
     server_tools := Some [sample_tool "search" "search the web"];
     server_lastChecked := None |}.


(** An environment in which the promise of every [client.close()] rejects,
    as it does when the transport has gone away. *)
Definition rejecting_env : Env :=
  {| url_valid := fun _ => true;
     connect := fun _ => Never;
     connect_wins_tie := false;
     transport_process := fun _ => None;
     listTools := fun _ => Never;
     callTool := fun _ _ _ => Never;
     close_throws := fun _ => None;
     close_rejects := fun _ => Some (Error "Connection closed");
     kill_throws := fun _ => None |}.

(** [result.isError]: the flag with which a tool reports its own failure
    inside a result. *)
Definition isError (result : CallToolResult) : bool :=
  match whole result with
  | JObj fields =>
      match fields !! "isError" with
      | Some (JBool b) => b
      | _ => false
      end
  | _ => false
  end.

(** The result of a tool that reports a failure of its own. *)
Definition failed_content : Json :=
  JArr [JObj (<["type" := JStr "text"]>
                (<["text" := JStr "Unknown symbol: XYZ"]> ∅))].

Definition failed_result : CallToolResult :=
  {| content := Some failed_content;
     whole := JObj (<["content" := failed_content]>
                      (<["isError" := JBool true]> ∅)) |}.

(** An environment in which every tool call resolves with that result. *)
Definition reporting_env : Env :=
  {| url_valid := fun _ => true;
     connect := fun _ => Never;
     connect_wins_tie := false;
     transport_process := fun _ => None;
     listTools := fun _ => Never;
     callTool := fun _ _ _ => After 5 (Ok (inr failed_result));
     close_throws := fun _ => None;
     close_rejects := fun _ => None;
     kill_throws := fun _ => None |}.

(** * Properties *)

(** ** The schema translator *)

Section TranslatorFacts.
Import Zod.

Lemma omap_nil_Forall {A B} (f : A -> option B) (l : list A) :
  Forall (fun x => f x = None) l -> omap f l = [].
Proof.
  induction 1 as [|x l Hx _ IH]; [done|].
  cbn. by rewrite Hx.
Qed.

Lemma existsb_false_Forall {A} (f : A -> bool) (l : list A) :
  Forall (fun x => f x = false) l -> existsb f l = false.
Proof.
  induction 1 as [|x l Hx _ IH]; [done|].
  cbn. by rewrite Hx.
Qed.

Lemma Object_fromEntries_acc {V} (entries : list (string * V))
    (acc : gmap string V) key :
  key ∉ entries.*1 ->
  foldl (fun (acc : gmap string V) kv => <[kv.1 := kv.2]> acc) acc entries !! key
  = acc !! key.
Proof.
  revert acc. induction entries as [|[k v] entries IH]; intros acc Hkey; [done|].
  cbn in *. apply not_elem_of_cons in Hkey as [Hne Hrest].
  rewrite IH; [|done]. by rewrite lookup_insert_ne.
Qed.

Lemma Object_fromEntries_absent {V} (entries : list (string * V)) key :
  key ∉ entries.*1 -> Object_fromEntries entries !! key = None.
Proof.
  intros Hkey. unfold Object_fromEntries.
  by rewrite Object_fromEntries_acc.
Qed.

Lemma partial_lookup (props : gmap string ZodType) key :
  partial (Some <$> props) !! key = (fun t => Some (ZOptional t)) <$> props !! key.
Proof.
  unfold partial. rewrite !lookup_fmap. by destruct (props !! key).
Qed.

(** When every required name is a declared property, merging the required
    schema under the optional one leaves the optional one. *)
Lemma merge_required_declared (props : gmap string ZodType) (required : list string) :
  (forall key, key ∈ required -> is_Some (props !! key)) ->
  merge (Object_fromEntries (map (fun key => (key, props !! key)) required))
        (partial (Some <$> props))
  = partial (Some <$> props).
Proof.
  intros Hdecl. unfold merge. apply map_eq. intros key.
  destruct (partial (Some <$> props) !! key) as [t|] eqn:Hk.
  - by erewrite lookup_union_Some_l.
  - rewrite lookup_union_r; [|done].
    apply Object_fromEntries_absent.
    rewrite <- list_fmap_compose. cbn. rewrite list_fmap_id.
    intros Hin. apply Hdecl in Hin as [t Ht].
    rewrite partial_lookup, Ht in Hk. done.
Qed.

Lemma safeParse_partial_success (props : gmap string ZodType)
    (data : gmap string Json) :
  (forall key t v, props !! key = Some t -> data !! key = Some v ->
                   accepts t (Some v) = true) ->
  safeParse (ZObject (partial (Some <$> props))) (JObj data)
  = Success (filter (fun kv => is_Some (props !! kv.1)) data).
Proof.
  intros Hok. unfold safeParse, has_undefined.
  rewrite existsb_false_Forall; cycle 1.
  { apply Forall_forall. intros [key t] Hin.
    apply elem_of_map_to_list in Hin. rewrite partial_lookup in Hin.
    destruct (props !! key); simplify_eq/=; done. }
  unfold invalid_paths. rewrite omap_nil_Forall; cycle 1.
  { apply Forall_forall. intros [key t] Hin.
    apply elem_of_map_to_list in Hin. rewrite partial_lookup in Hin.
    destruct (props !! key) as [t'|] eqn:Ht; simplify_eq/=.
    destruct (data !! key) as [v|] eqn:Hv; [|done].
    by rewrite (Hok key t' v). }
  f_equal. unfold strip. apply map_filter_ext. intros key v _. cbn.
  rewrite partial_lookup. destruct (props !! key); cbn; split; intros [? ?]; eauto; done.
Qed.

End TranslatorFacts.

(** Without declared properties the translator falls back to a record of
    unknown values, which takes every object as it is. *)
Lemma safeParse_record_unknown (data : gmap string Json) :
  Zod.safeParse (Zod.ZRecord Zod.ZUnknown) (JObj data) = Zod.Success data.
Proof.
  unfold Zod.safeParse. rewrite omap_nil_Forall; [done|].
  apply Forall_forall. by intros [key v] _.
Qed.

(** C1, as amended. For the schema [{type: 'object', properties: {a: {type:
    'string'}}, required: ['a']}] (see the witness) and for every object
    schema whose required names are all declared properties, the validator
    built by [mcpSchemaToZod] accepts every argument object that contains
    all required fields and whose values at declared properties have the
    declared types; fields that are not declared are never a reason to
    reject (they are dropped from the parsed output). An object schema
    without declared properties accepts every argument object, whatever it
    requires. *)
Theorem mcpSchemaToZod_accepts_well_typed
    (s : McpSchema) (args : gmap string Json) :
  schema_type s = Some (JStr "object") ->
  (forall properties : gmap string (gmap string Json),
     schema_properties s = Some properties ->
     (forall key, key ∈ default [] (schema_required s) ->
                  is_Some (properties !! key)) ->
     (forall key, key ∈ default [] (schema_required s) ->
                  is_Some (args !! key)) ->
     (forall key prop v, properties !! key = Some prop -> args !! key = Some v ->
                         Zod.accepts (zod_of_prop prop) (Some v) = true) ->
     Zod.safeParse (mcpSchemaToZod s) (JObj args)
     = Zod.Success (filter (fun kv => is_Some (properties !! kv.1)) args))
  /\ (schema_properties s = None ->
      Zod.safeParse (mcpSchemaToZod s) (JObj args) = Zod.Success args).
Proof.
  intros Htype. split.
  - intros properties Hprops Hdecl _ Htyped.
    unfold mcpSchemaToZod. rewrite Htype, Hprops. cbn [strict_eq_str].
    rewrite bool_decide_eq_true_2 by done.
    rewrite merge_required_declared; cycle 1.
    { intros key Hin. rewrite lookup_fmap.
      apply Hdecl in Hin as [p ->]. by eexists. }
    rewrite safeParse_partial_success; cycle 1.
    { intros key t v Ht Hv. rewrite lookup_fmap in Ht.
      destruct (properties !! key) as [prop|] eqn:Hp; simplify_eq/=. eauto. }
    f_equal. apply map_filter_ext. intros key v _. cbn.
    rewrite lookup_fmap.
    destruct (properties !! key); cbn; split; intros [? ?]; eauto; done.
  - intros Hnone. unfold mcpSchemaToZod. rewrite Htype, Hnone.
    cbn [strict_eq_str]. rewrite bool_decide_eq_true_2 by done.
    apply safeParse_record_unknown.
Qed.

(** The example of the specification: with [{type: 'object', properties:
    {a: {type: 'string'}}, required: ['a']}], validating
    [{a: "x", b: "extra"}] succeeds. *)
Lemma mcpSchemaToZod_accepts_well_typed_witness :
  Zod.safeParse (mcpSchemaToZod schema_a)
                (JObj (<["a" := JStr "x"]> (<["b" := JStr "extra"]> ∅)))
  = Zod.Success
      (filter (fun kv => is_Some (({[ "a" := {[ "type" := JStr "string" ]} ]}
                                   : gmap string (gmap string Json)) !! kv.1))
              (<["a" := JStr "x"]> (<["b" := JStr "extra"]> ∅))).
Proof.
  refine (proj1 (mcpSchemaToZod_accepts_well_typed schema_a
                   (<["a" := JStr "x"]> (<["b" := JStr "extra"]> ∅)) _)
                {[ "a" := {[ "type" := JStr "string" ]} ]} _ _ _ _).
  - reflexivity.
  - reflexivity.
  - intros key Hin. apply list_elem_of_singleton in Hin as ->. by eexists.
  - intros key Hin. apply list_elem_of_singleton in Hin as ->. by eexists.
  - intros key prop v Hp Hv.
    apply lookup_singleton_Some in Hp as [<- <-].
    vm_compute in Hv. injection Hv as <-. reflexivity.
Defined.

(** What the parsed output of the example is. *)
Example schema_a_strips_extra :
  Zod.safeParse (mcpSchemaToZod schema_a)
                (JObj (<["a" := JStr "x"]> (<["b" := JStr "extra"]> ∅)))
  = Zod.Success {[ "a" := JStr "x" ]}.
Proof. vm_compute. reflexivity. Qed.

(** C1 as stated fails. The empty argument object is accepted although
    the required field [a] is absent: the merge lets the optional schema of
    [a] replace the required one. An argument object that holds the
    required field is rejected when the value is not of the declared type.
    And an object schema that declares no properties accepts the empty
    object whatever it requires. *)
Lemma mcpSchemaToZod_counterexample :
  Zod.safeParse (mcpSchemaToZod schema_a) (JObj ∅) = Zod.Success ∅
  /\ Zod.safeParse (mcpSchemaToZod schema_a) (JObj {[ "a" := JNum 5 ]})
     = Zod.ZodError [["a"]]
  /\ Zod.safeParse
       (mcpSchemaToZod {| schema_type := Some (JStr "object");
                          schema_properties := None;
                          schema_required := Some ["a"] |})
       (JObj ∅)
     = Zod.Success ∅.
Proof. repeat split; vm_compute; reflexivity. Qed.

(** ** Lists *)

Section ListFacts.
Context {A : Type} (P : A -> Prop) `{!forall x, Decision (P x)}.

Lemma filter_all (l : list A) : (forall x, x ∈ l -> P x) -> filter P l = l.
Proof.
  induction l as [|x l IH]; intros Hall; [done|].
  rewrite filter_cons_True by (apply Hall; left).
  f_equal. apply IH. intros y Hy. apply Hall. by right.
Qed.

Lemma filter_none (l : list A) : (forall x, x ∈ l -> ¬ P x) -> filter P l = [].
Proof.
  induction l as [|x l IH]; intros Hnone; [done|].
  rewrite filter_cons_False by (apply Hnone; left).
  apply IH. intros y Hy. apply Hnone. by right.
Qed.

End ListFacts.

(** ** The registry *)

Section RegistryFacts.
Import Sql.
Context `{!JsonCodec MCPServerConfig} `{!JsonCodec (gmap string Json)}.

Lemma with_tools_same (d : Db) : with_tools d (mcp_tools d) = d.
Proof. by destruct d. Qed.

Lemma insert_each_ok serverId tools d :
  foreign_keys d && negb (has_server serverId d) = false ->
  MCPDatabase.insert_each serverId tools d
  = Ok (with_tools d (replace_rows serverId tools (mcp_tools d))).
Proof.
  revert d. induction tools as [|tool rest IH]; intros d Hfk.
  - cbn. by rewrite with_tools_same.
  - cbn [MCPDatabase.insert_each]. unfold insertTool.
    cbn [MCPDatabase.tool_row tl_server_id]. rewrite Hfk.
    rewrite IH by done. done.
Qed.

Lemma insert_each_blocked serverId tool rest d :
  foreign_keys d && negb (has_server serverId d) = true ->
  MCPDatabase.insert_each serverId (tool :: rest) d
  = Throw (Error "FOREIGN KEY constraint failed").
Proof.
  intros Hfk. cbn [MCPDatabase.insert_each]. unfold insertTool.
  cbn [MCPDatabase.tool_row tl_server_id]. by rewrite Hfk.
Qed.

Lemma tool_row_id_inj serverId t1 t2 :
  tl_id (MCPDatabase.tool_row serverId t1) = tl_id (MCPDatabase.tool_row serverId t2)
  <-> tool_name t1 = tool_name t2.
Proof.
  cbn. split; [|by intros ->].
  intros Heq. apply (inj (String.app serverId)) in Heq.
  by apply (inj (String.app "_")) in Heq.
Qed.

Lemma tool_row_id_in serverId tool tools :
  tl_id (MCPDatabase.tool_row serverId tool) ∈ tool_ids serverId tools
  <-> tool_name tool ∈ tool_name <$> tools.
Proof.
  unfold tool_ids. rewrite !list_elem_of_fmap. split.
  - intros (t & Heq & Hin). exists t. split; [|done].
    by apply (tool_row_id_inj serverId).
  - intros (t & Heq & Hin). exists t. split; [|done].
    by apply (tool_row_id_inj serverId).
Qed.

(** Replacing row after row keeps the rows whose key is not written, then
    the last row written under each key. *)
Lemma replace_rows_spec serverId tools rows :
  replace_rows serverId tools rows
  = filter (fun r => tl_id r ∉ tool_ids serverId tools) rows
    ++ (MCPDatabase.tool_row serverId <$> keep_last tools).
Proof.
  unfold replace_rows. revert rows.
  induction tools as [|tool rest IH]; intros rows.
  - cbn. rewrite app_nil_r. symmetry. apply filter_all.
    intros r _. apply not_elem_of_nil.
  - cbn [foldl]. rewrite IH, filter_app, list_filter_filter.
    cbn [keep_last]. rewrite <- app_assoc. f_equal.
    + apply list_filter_iff. intros r. unfold tool_ids. cbn.
      rewrite not_elem_of_cons. tauto.
    + rewrite filter_cons, filter_nil.
      pose proof (tool_row_id_in serverId tool rest) as Hiff.
      case_bool_decide as Hin; case_decide as Hin'; try done.
      all: exfalso; tauto.
Qed.

Lemma filter_server_tool_rows serverId (tools : list MCPTool) :
  filter (fun r => tl_server_id r = serverId)
         (MCPDatabase.tool_row serverId <$> tools)
  = MCPDatabase.tool_row serverId <$> tools.
Proof.
  apply filter_all. intros r Hin.
  apply list_elem_of_fmap in Hin as (t & -> & _). done.
Qed.

Lemma filter_other_tool_rows serverId other (tools : list MCPTool) :
  other ≠ serverId ->
  filter (fun r => tl_server_id r = other)
         (MCPDatabase.tool_row serverId <$> tools) = [].
Proof.
  intros Hne. apply filter_none. intros r Hin.
  apply list_elem_of_fmap in Hin as (t & -> & _). cbn. congruence.
Qed.

Lemma getToolsByServer_after_delete serverId d :
  Sql.getToolsByServer serverId (deleteToolsByServer serverId d) = [].
Proof.
  unfold Sql.getToolsByServer, deleteToolsByServer. cbn.
  rewrite list_filter_filter. apply filter_none.
  intros r _ [? ?]. done.
Qed.

Lemma getToolsByServer_delete_other serverId other d :
  other ≠ serverId ->
  Sql.getToolsByServer other (deleteToolsByServer serverId d)
  = Sql.getToolsByServer other d.
Proof.
  intros Hne. unfold Sql.getToolsByServer, deleteToolsByServer. cbn.
  rewrite list_filter_filter. apply list_filter_iff.
  intros r. split; [tauto|]. intros Hr. split; congruence.
Qed.

(** What [saveTools] leaves behind, by whether the inserts can go through. *)
Lemma saveTools_ok serverId tools d :
  foreign_keys d && negb (has_server serverId d) = false ->
  MCPDatabase.saveTools serverId tools d
  = (with_tools d
       (replace_rows serverId tools
          (filter (fun r => tl_server_id r ≠ serverId) (mcp_tools d))),
     None).
Proof.
  intros Hfk. unfold MCPDatabase.saveTools, MCPDatabase.insertToolTransaction,
    transaction.
  rewrite insert_each_ok by done. done.
Qed.

Lemma saveTools_blocked serverId tool rest d :
  foreign_keys d && negb (has_server serverId d) = true ->
  MCPDatabase.saveTools serverId (tool :: rest) d
  = (deleteToolsByServer serverId d,
     Some (Error "FOREIGN KEY constraint failed")).
Proof.
  intros Hfk. unfold MCPDatabase.saveTools, MCPDatabase.insertToolTransaction,
    transaction.
  rewrite insert_each_blocked by done. done.
Qed.

Lemma saveTools_nil serverId d :
  MCPDatabase.saveTools serverId [] d = (deleteToolsByServer serverId d, None).
Proof. done. Qed.

(** The rows of the server itself after the inserts went through. *)
Lemma replace_rows_own serverId (tools : list MCPTool) (rows : list ToolRow) :
  filter (fun r => tl_server_id r = serverId)
    (replace_rows serverId tools
       (filter (fun r => tl_server_id r ≠ serverId) rows))
  = MCPDatabase.tool_row serverId <$> keep_last tools.
Proof.
  rewrite replace_rows_spec, filter_app, filter_server_tool_rows.
  rewrite !list_filter_filter, filter_none; [done|].
  intros r _ [[? _] ?]. done.
Qed.

(** The rows of another server after the inserts went through. *)
Lemma replace_rows_other serverId other (tools : list MCPTool)
    (rows : list ToolRow) :
  other ≠ serverId ->
  filter (fun r => tl_server_id r = other)
    (replace_rows serverId tools
       (filter (fun r => tl_server_id r ≠ serverId) rows))
  = filter (fun r => tl_server_id r = other
                     /\ tl_id r ∉ tool_ids serverId tools) rows.
Proof.
  intros Hne.
  rewrite replace_rows_spec, filter_app, filter_other_tool_rows by done.
  rewrite app_nil_r, !list_filter_filter. apply list_filter_iff.
  intros r. split; [tauto|]. intros [Hr ?]. repeat split; congruence.
Qed.

Lemma keep_last_NoDup (tools : list MCPTool) :
  NoDup (tool_name <$> keep_last tools).
Proof.
  assert (Hsub : forall ts : list MCPTool, forall x,
             x ∈ tool_name <$> keep_last ts -> x ∈ tool_name <$> ts).
  { induction ts as [|t ts IH]; intros x Hx; [done|]. cbn in Hx |- *.
    case_bool_decide.
    - right. by apply IH.
    - cbn in Hx. apply elem_of_cons in Hx as [->|Hx]; [left|].
      right. by apply IH. }
  induction tools as [|tool rest IH]; [constructor|]. cbn.
  case_bool_decide as Hin; [done|]. cbn. apply NoDup_cons. split; [|done].
  intros Hk. apply Hin. by apply Hsub.
Qed.

Lemma keep_last_id (tools : list MCPTool) :
  NoDup (tool_name <$> tools) -> keep_last tools = tools.
Proof.
  induction tools as [|tool rest IH]; [done|]. cbn.
  intros [Hnot Hrest]%NoDup_cons.
  rewrite bool_decide_eq_false_2 by done. by rewrite IH.
Qed.

(** Reading back rows that [saveTools] wrote. *)
Lemma tool_of_row_tool_row serverId tool :
  survives_JSON (tool_inputSchema tool) ->
  MCPDatabase.tool_of_row (MCPDatabase.tool_row serverId tool) = Ok tool.
Proof.
  intros Hs. unfold MCPDatabase.tool_of_row. cbn. rewrite Hs.
  destruct tool as [name description schema]. cbn. f_equal. f_equal.
  by case_bool_decide.
Qed.

Lemma map_rows_tool_rows serverId (tools : list MCPTool) :
  Forall (fun tool => survives_JSON (tool_inputSchema tool)) tools ->
  MCPDatabase.map_rows MCPDatabase.tool_of_row
    (MCPDatabase.tool_row serverId <$> tools) = Ok tools.
Proof.
  induction 1 as [|tool rest Hs _ IH]; [done|].
  cbn [fmap list_fmap MCPDatabase.map_rows].
  rewrite tool_of_row_tool_row by done.
  fold (fmap (M:=list) (MCPDatabase.tool_row serverId) rest). by rewrite IH.
Qed.

Lemma map_rows_names (rows : list ToolRow) (tools : list MCPTool) :
  MCPDatabase.map_rows MCPDatabase.tool_of_row rows = Ok tools ->
  tool_name <$> tools = tl_name <$> rows.
Proof.
  revert tools. induction rows as [|row rest IH]; intros tools.
  - cbn. by intros [= <-].
  - cbn. unfold MCPDatabase.tool_of_row at 1.
    destruct (JSON_parse (tl_input_schema row)); [|done].
    destruct (MCPDatabase.map_rows _ rest) as [ts|]; [|done].
    intros [= <-]. cbn. f_equal. by apply IH.
Qed.

Lemma keep_last_sub (tools : list MCPTool) :
  Forall (fun tool => survives_JSON (tool_inputSchema tool)) tools ->
  Forall (fun tool => survives_JSON (tool_inputSchema tool)) (keep_last tools).
Proof.
  induction 1 as [|tool rest Hs _ IH]; [constructor|]. cbn.
  case_bool_decide; [done|]. by constructor.
Qed.

End RegistryFacts.

Section RegistryClaims.
Import Sql.
Context `{!JsonCodec MCPServerConfig} `{!JsonCodec (gmap string Json)}.

Lemma filter_iff_in {A} (P Q : A -> Prop) `{!forall x, Decision (P x)}
    `{!forall x, Decision (Q x)} (l : list A) :
  (forall x, x ∈ l -> P x <-> Q x) -> filter P l = filter Q l.
Proof.
  induction l as [|x l IH]; intros Hiff; [done|].
  rewrite !filter_cons.
  rewrite IH by (intros y Hy; apply Hiff; by right).
  apply decide_ext, Hiff. left.
Qed.

Lemma has_server_saveTools serverId other (tools : list MCPTool) d :
  has_server other (MCPDatabase.saveTools serverId tools d).1
  = has_server other d.
Proof.
  unfold MCPDatabase.saveTools, MCPDatabase.insertToolTransaction, transaction.
  destruct (foreign_keys (deleteToolsByServer serverId d)
            && negb (has_server serverId (deleteToolsByServer serverId d)))
    eqn:Hfk.
  - destruct tools as [|tool rest]; [done|].
    by rewrite insert_each_blocked.
  - by rewrite insert_each_ok.
Qed.

Lemma foreign_keys_saveTools serverId (tools : list MCPTool) d :
  foreign_keys (MCPDatabase.saveTools serverId tools d).1 = foreign_keys d.
Proof.
  unfold MCPDatabase.saveTools, MCPDatabase.insertToolTransaction, transaction.
  destruct (foreign_keys (deleteToolsByServer serverId d)
            && negb (has_server serverId (deleteToolsByServer serverId d)))
    eqn:Hfk.
  - destruct tools as [|tool rest]; [done|].
    by rewrite insert_each_blocked.
  - by rewrite insert_each_ok.
Qed.

(** The rows of the server itself after a [saveTools] that returned. *)
Lemma saveTools_own serverId (tools : list MCPTool) d :
  (MCPDatabase.saveTools serverId tools d).2 = None ->
  Sql.getToolsByServer serverId (MCPDatabase.saveTools serverId tools d).1
  = MCPDatabase.tool_row serverId <$> keep_last tools.
Proof.
  destruct (foreign_keys d && negb (has_server serverId d)) eqn:Hfk.
  - destruct tools as [|tool rest].
    + intros _. rewrite saveTools_nil. cbn [fst].
      by rewrite getToolsByServer_after_delete.
    + by rewrite saveTools_blocked.
  - intros _. rewrite saveTools_ok by done. cbn [fst].
    unfold Sql.getToolsByServer. cbn [mcp_tools with_tools].
    apply replace_rows_own.
Qed.

(** The rows of the server itself after a [saveTools] that threw. *)
Lemma saveTools_own_thrown serverId (tools : list MCPTool) d e :
  (MCPDatabase.saveTools serverId tools d).2 = Some e ->
  Sql.getToolsByServer serverId (MCPDatabase.saveTools serverId tools d).1 = [].
Proof.
  destruct (foreign_keys d && negb (has_server serverId d)) eqn:Hfk.
  - destruct tools as [|tool rest]; [done|].
    intros _. rewrite saveTools_blocked by done. cbn [fst].
    apply getToolsByServer_after_delete.
  - by rewrite saveTools_ok.
Qed.

Lemma saveTools_returns serverId (tools : list MCPTool) d :
  has_server serverId d = true ->
  (MCPDatabase.saveTools serverId tools d).2 = None.
Proof.
  intros Hs. rewrite saveTools_ok; [done|].
  rewrite Hs. apply andb_false_r.
Qed.

(** The rows of another server, when none of them has a key that the call
    writes. *)
Lemma saveTools_other serverId other (tools : list MCPTool) d :
  other ≠ serverId ->
  (forall r, r ∈ Sql.getToolsByServer other d ->
             tl_id r ∉ tool_ids serverId tools) ->
  Sql.getToolsByServer other (MCPDatabase.saveTools serverId tools d).1
  = Sql.getToolsByServer other d.
Proof.
  intros Hne Hfree.
  destruct (foreign_keys d && negb (has_server serverId d)) eqn:Hfk.
  - destruct tools as [|tool rest].
    + rewrite saveTools_nil. by apply getToolsByServer_delete_other.
    + rewrite saveTools_blocked by done.
      by apply getToolsByServer_delete_other.
  - rewrite saveTools_ok by done. cbn [fst].
    unfold Sql.getToolsByServer in *. cbn [mcp_tools with_tools].
    rewrite replace_rows_other by done.
    apply filter_iff_in. intros r Hr. split; [tauto|].
    intros Hs. split; [done|]. apply Hfree.
    by apply list_elem_of_filter.
Qed.

(** C10. After every [saveTools(serverId, tools)] the rows stored for
    [serverId] carry pairwise different names, so [getToolsByServer] never
    returns two tools with one name; when the call returns, the rows are
    those of the tool list with only the last occurrence of every name kept,
    and they read back as these tools; and the call returns for every
    registered server. *)
Theorem saveTools_one_tool_per_name serverId (tools : list MCPTool) (d : Db) :
  let d' := (MCPDatabase.saveTools serverId tools d).1 in
  NoDup (tl_name <$> Sql.getToolsByServer serverId d')
  /\ (forall ts, MCPDatabase.getToolsByServer serverId d' = Ok ts ->
                 NoDup (tool_name <$> ts))
  /\ ((MCPDatabase.saveTools serverId tools d).2 = None ->
      Sql.getToolsByServer serverId d'
      = MCPDatabase.tool_row serverId <$> keep_last tools
      /\ (Forall (fun tool => survives_JSON (tool_inputSchema tool)) tools ->
          MCPDatabase.getToolsByServer serverId d' = Ok (keep_last tools)))
  /\ (has_server serverId d = true ->
      (MCPDatabase.saveTools serverId tools d).2 = None).
Proof.
  cbn zeta.
  assert (Hrows : NoDup (tl_name <$> Sql.getToolsByServer serverId
                           (MCPDatabase.saveTools serverId tools d).1)).
  { destruct (MCPDatabase.saveTools serverId tools d).2 as [e|] eqn:Hres.
    - rewrite (saveTools_own_thrown _ _ _ e) by done. constructor.
    - rewrite saveTools_own by done.
      rewrite <- list_fmap_compose. apply keep_last_NoDup. }
  split; [done|]. split; [|split].
  - intros ts Hts. unfold MCPDatabase.getToolsByServer in Hts.
    by rewrite (map_rows_names _ _ Hts).
  - intros Hres. split; [by apply saveTools_own|].
    intros Hs. unfold MCPDatabase.getToolsByServer.
    rewrite saveTools_own by done.
    by apply map_rows_tool_rows, keep_last_sub.
  - apply saveTools_returns.
Qed.

(** C2, as amended. For a registered server [S], saving [T1] and then a
    list [T2] of tools with pairwise different names makes
    [getToolsByServer(S)] return exactly [T2], in order; and the tools of
    every other server are unchanged, provided none of its rows has a
    primary key [S_name] that one of the two calls writes. *)
Theorem saveTools_replaces S (T1 T2 : list MCPTool) (d : Db) :
  has_server S d = true ->
  NoDup (tool_name <$> T2) ->
  Forall (fun tool => survives_JSON (tool_inputSchema tool)) T2 ->
  let r1 := MCPDatabase.saveTools S T1 d in
  let r2 := MCPDatabase.saveTools S T2 r1.1 in
  r1.2 = None /\ r2.2 = None
  /\ MCPDatabase.getToolsByServer S r2.1 = Ok T2
  /\ forall other, other ≠ S ->
       (forall r, r ∈ Sql.getToolsByServer other d ->
                  tl_id r ∉ tool_ids S (T1 ++ T2)) ->
       MCPDatabase.getToolsByServer other r2.1
       = MCPDatabase.getToolsByServer other d.
Proof.
  intros Hs Hnodup Hsurv. cbn zeta.
  assert (H1 : (MCPDatabase.saveTools S T1 d).2 = None)
    by by apply saveTools_returns.
  assert (H2 : (MCPDatabase.saveTools S T2 (MCPDatabase.saveTools S T1 d).1).2
               = None).
  { apply saveTools_returns. by rewrite has_server_saveTools. }
  split; [done|]. split; [done|]. split.
  - unfold MCPDatabase.getToolsByServer. rewrite saveTools_own by done.
    rewrite keep_last_id by done. by apply map_rows_tool_rows.
  - intros other Hne Hfree. unfold MCPDatabase.getToolsByServer. f_equal.
    assert (Hstep : Sql.getToolsByServer other (MCPDatabase.saveTools S T1 d).1
                    = Sql.getToolsByServer other d).
    { apply saveTools_other; [done|]. intros r Hr Hid.
      apply (Hfree r Hr). unfold tool_ids in *. rewrite fmap_app.
      apply elem_of_app. by left. }
    rewrite saveTools_other; [done|done|].
    rewrite Hstep. intros r Hr Hid.
    apply (Hfree r Hr). unfold tool_ids in *. rewrite fmap_app.
    apply elem_of_app. by right.
Qed.

(** C3, as amended. [saveTools] commits twice: first the delete, which
    leaves the server without tools, then the transaction with the inserts.
    The inserts are atomic (a committed state shows either no tool of the
    server or the complete new set), the delete is not part of that
    transaction, and the last commit is the state the call leaves. *)
Theorem saveTools_commits_spec S (T : list MCPTool) (d : Db) :
  let commits := MCPDatabase.saveTools_commits S T d in
  head commits = Some (deleteToolsByServer S d)
  /\ MCPDatabase.getToolsByServer S (deleteToolsByServer S d) = Ok []
  /\ last commits = Some (MCPDatabase.saveTools S T d).1
  /\ forall c, c ∈ commits ->
       Sql.getToolsByServer S c = []
       \/ Sql.getToolsByServer S c = MCPDatabase.tool_row S <$> keep_last T.
Proof.
  cbn zeta. unfold MCPDatabase.saveTools_commits.
  pose proof (saveTools_own S T d) as Hown.
  unfold MCPDatabase.saveTools in *.
  destruct (MCPDatabase.insertToolTransaction S T (deleteToolsByServer S d))
    as [d2 [e|]] eqn:Htx.
  - split; [done|]. split.
    { unfold MCPDatabase.getToolsByServer.
      by rewrite getToolsByServer_after_delete. }
    split.
    { cbn. unfold MCPDatabase.insertToolTransaction, transaction in Htx.
      destruct (MCPDatabase.insert_each S T (deleteToolsByServer S d));
        by simplify_eq. }
    intros c Hc. apply list_elem_of_singleton in Hc as ->. left.
    apply getToolsByServer_after_delete.
  - split; [done|]. split.
    { unfold MCPDatabase.getToolsByServer.
      by rewrite getToolsByServer_after_delete. }
    split; [done|].
    intros c Hc. apply elem_of_cons in Hc as [->|Hc].
    + left. apply getToolsByServer_after_delete.
    + apply list_elem_of_singleton in Hc as ->. right. by apply Hown.
Qed.

End RegistryClaims.

Section RegistryRoundTrip.
Import Sql.
Context `{!JsonCodec MCPServerConfig} `{!JsonCodec (gmap string Json)}.

Lemma getServer_insertServer row d :
  Sql.getServer (srv_id row) (insertServer row d) = Some row.
Proof.
  unfold Sql.getServer, insertServer. cbn [mcp_servers].
  rewrite filter_app, list_filter_filter, filter_none.
  - by rewrite filter_cons_True.
  - intros r _ [? ?]. done.
Qed.

Lemma has_server_insertServer row d :
  has_server (srv_id row) (insertServer row d) = true.
Proof.
  unfold has_server, insertServer. cbn [mcp_servers].
  apply bool_decide_eq_true_2. rewrite fmap_app. apply elem_of_app.
  right. cbn. left.
Qed.

Lemma mcp_servers_saveTools serverId (tools : list MCPTool) d :
  mcp_servers (MCPDatabase.saveTools serverId tools d).1 = mcp_servers d.
Proof.
  unfold MCPDatabase.saveTools, MCPDatabase.insertToolTransaction, transaction.
  destruct (foreign_keys (deleteToolsByServer serverId d)
            && negb (has_server serverId (deleteToolsByServer serverId d)))
    eqn:Hfk.
  - destruct tools as [|tool rest]; [done|].
    by rewrite insert_each_blocked.
  - by rewrite insert_each_ok.
Qed.

Lemma server_of_row_saved server :
  survives_JSON (server_config server) ->
  MCPDatabase.server_of_row
    {| srv_id := server_id server; srv_name := server_name server;
       srv_config := JSON_stringify (server_config server);
       srv_enabled := if server_enabled server then 1%Z else 0%Z;
       srv_status := server_status server |}
  = Ok (read_back server []).
Proof.
  intros Hs. unfold MCPDatabase.server_of_row. cbn. rewrite Hs.
  unfold read_back. do 2 f_equal. by destruct (server_enabled server).
Qed.

Lemma getServer_tools_empty id d server :
  MCPDatabase.getServer id d = Ok (Some server) -> server_tools server = Some [].
Proof.
  unfold MCPDatabase.getServer, MCPDatabase.server_of_row.
  destruct (Sql.getServer id d) as [row|]; [|done].
  destruct (JSON_parse (srv_config row)); [|done].
  by intros [= <-].
Qed.

(** C9. For a server [s] whose config survives JSON serialization,
    [getServer(s.id)] after [saveServer(s)] returns [s] in id, name, config,
    enabled and status, with an empty tool list; that stays so once tools
    are stored for [s.id], and only [getServerWithTools] joins them in.
    Whatever the database, a server returned by [getServer] has an empty
    tool list. *)
Theorem saveServer_getServer (s : MCPServer) (d : Db) :
  survives_JSON (server_config s) ->
  MCPDatabase.getServer (server_id s) (MCPDatabase.saveServer s d)
  = Ok (Some (read_back s []))
  /\ (forall tools : list MCPTool,
        let d' := (MCPDatabase.saveTools (server_id s) tools
                     (MCPDatabase.saveServer s d)).1 in
        MCPDatabase.getServer (server_id s) d' = Ok (Some (read_back s []))
        /\ (Forall (fun tool => survives_JSON (tool_inputSchema tool)) tools ->
            MCPDatabase.getToolsByServer (server_id s) d' = Ok (keep_last tools)
            /\ MCPDatabase.getServerWithTools (server_id s) d'
               = Ok (Some (read_back s (keep_last tools)))))
  /\ (forall id d0 server,
        MCPDatabase.getServer id d0 = Ok (Some server) ->
        server_tools server = Some []).
Proof.
  intros Hs.
  assert (Hget : MCPDatabase.getServer (server_id s) (MCPDatabase.saveServer s d)
                 = Ok (Some (read_back s []))).
  { unfold MCPDatabase.getServer, MCPDatabase.saveServer.
    rewrite (getServer_insertServer
               {| srv_id := server_id s; srv_name := server_name s;
                  srv_config := JSON_stringify (server_config s);
                  srv_enabled := if server_enabled s then 1%Z else 0%Z;
                  srv_status := server_status s |}).
    by rewrite server_of_row_saved. }
  split; [done|]. split; [|apply getServer_tools_empty].
  intros tools. cbn zeta.
  assert (Hget' : MCPDatabase.getServer (server_id s)
                    (MCPDatabase.saveTools (server_id s) tools
                       (MCPDatabase.saveServer s d)).1
                  = Ok (Some (read_back s []))).
  { unfold MCPDatabase.getServer, Sql.getServer in *.
    by rewrite mcp_servers_saveTools. }
  split; [done|]. intros Htools.
  assert (Hreg : has_server (server_id s) (MCPDatabase.saveServer s d) = true).
  { unfold MCPDatabase.saveServer.
    apply (has_server_insertServer
             {| srv_id := server_id s; srv_name := server_name s;
                srv_config := JSON_stringify (server_config s);
                srv_enabled := if server_enabled s then 1%Z else 0%Z;
                srv_status := server_status s |}). }
  assert (Hread : MCPDatabase.getToolsByServer (server_id s)
                    (MCPDatabase.saveTools (server_id s) tools
                       (MCPDatabase.saveServer s d)).1
                  = Ok (keep_last tools)).
  { unfold MCPDatabase.getToolsByServer.
    rewrite saveTools_own by by apply saveTools_returns.
    by apply map_rows_tool_rows, keep_last_sub. }
  split; [done|].
  unfold MCPDatabase.getServerWithTools. by rewrite Hget', Hread.
Qed.

End RegistryRoundTrip.

(** ** The registry on sample data *)

Section RegistryExamples.
Import Sql Samples.

Lemma survives_empty_schema : survives_JSON (∅ : gmap string Json).
Proof. reflexivity. Qed.

(** The example of the specification: saving [A, B] and then [C] for a
    server leaves exactly [C]. *)
Lemma saveTools_replaces_witness :
  MCPDatabase.getToolsByServer "s"
    (MCPDatabase.saveTools "s" [sample_tool "C" "third"]
       (MCPDatabase.saveTools "s"
          [sample_tool "A" "first"; sample_tool "B" "second"] two_servers).1).1
  = Ok [sample_tool "C" "third"].
Proof.
  refine (proj1 (proj2 (proj2
    (saveTools_replaces "s"
       [sample_tool "A" "first"; sample_tool "B" "second"]
       [sample_tool "C" "third"] two_servers _ _ _)))).
  - reflexivity.
  - apply NoDup_singleton.
  - repeat constructor.
Defined.

(** C2 as stated fails in three ways: a second list with a repeated name is
    not returned as it is; a server whose id and tool name spell the
    primary key of another server's tool takes that tool away; and for an
    id that is not registered the inserts are refused. *)
Lemma saveTools_replaces_counterexample :
  MCPDatabase.getToolsByServer "s"
    (MCPDatabase.saveTools "s" [sample_tool "C" "old"; sample_tool "C" "new"]
       with_A_B).1
  = Ok [sample_tool "C" "new"]
  /\ (MCPDatabase.getToolsByServer "a" clashing = Ok [sample_tool "b_c" "of a"]
      /\ MCPDatabase.getToolsByServer "a"
           (MCPDatabase.saveTools "a_b" [sample_tool "c" "of a_b"]
              (MCPDatabase.saveTools "a_b" [] clashing).1).1
         = Ok [])
  /\ MCPDatabase.saveTools "u" [sample_tool "C" "third"] two_servers
     = (two_servers, Some (Error "FOREIGN KEY constraint failed")).
Proof. repeat split; vm_compute; reflexivity. Qed.

Lemma saveTools_commits_spec_witness :
  last (MCPDatabase.saveTools_commits "s" [sample_tool "C" "third"] with_A_B)
  = Some (MCPDatabase.saveTools "s" [sample_tool "C" "third"] with_A_B).1.
Proof.
  exact (proj1 (proj2 (proj2
    (saveTools_commits_spec "s" [sample_tool "C" "third"] with_A_B)))).
Defined.

(** C3 as stated fails: while [saveTools] replaces [A, B] by [C], the state
    committed first shows the server without any tool. *)
Lemma saveTools_commits_counterexample :
  MCPDatabase.getToolsByServer "s" with_A_B
  = Ok [sample_tool "A" "first"; sample_tool "B" "second"]
  /\ MCPDatabase.getToolsByServer "s"
       <$> MCPDatabase.saveTools_commits "s" [sample_tool "C" "third"] with_A_B
     = [Ok []; Ok [sample_tool "C" "third"]].
Proof. split; vm_compute; reflexivity. Qed.

Lemma saveServer_getServer_witness :
  MCPDatabase.getServer "s"
    (MCPDatabase.saveServer (sample_server "s" sse_config) with_A_B)
  = Ok (Some (read_back (sample_server "s" sse_config) [])).
Proof.
  refine (proj1 (saveServer_getServer (sample_server "s" sse_config)
                   with_A_B _)).
  reflexivity.
Defined.

Lemma saveTools_one_tool_per_name_witness :
  MCPDatabase.getToolsByServer "s"
    (MCPDatabase.saveTools "s"
       [sample_tool "C" "old"; sample_tool "D" "other"; sample_tool "C" "new"]
       two_servers).1
  = Ok [sample_tool "D" "other"; sample_tool "C" "new"].
Proof.
  pose proof (saveTools_one_tool_per_name "s"
    [sample_tool "C" "old"; sample_tool "D" "other"; sample_tool "C" "new"]
    two_servers) as (_ & _ & Hkeep & Hret).
  refine (proj2 (Hkeep (Hret _)) _).
  - reflexivity.
  - repeat constructor.
Defined.

End RegistryExamples.

(** ** The connection manager *)

Section ManagerFacts.
Variable env : Env.

Lemma deleteConnection_absent id w :
  connections w !! id = None ->
  MCPConnectionManager.deleteConnection env id w = (w, Done tt).
Proof.
  intros Hid. unfold MCPConnectionManager.deleteConnection, Js.bind, Js.gets.
  by rewrite Hid.
Qed.

Lemma deleteConnection_present id w connection :
  connections w !! id = Some connection ->
  MCPConnectionManager.deleteConnection env id w
  = ({| connections := delete id (connections w);
        database := database w; clock := clock w;
        next_client := next_client w;
        events := cleanup_events env connection ++ events w |},
     Done tt).
Proof.
  intros Hid.
  unfold MCPConnectionManager.deleteConnection, Js.bind, Js.gets.
  rewrite Hid. unfold Js.try_catch, MCPConnectionManager.close,
    MCPConnectionManager.kill, cleanup_events, Js.bind.
  destruct (close_throws env (client connection)) as [e|]; [done|].
  unfold close_event.
  destruct (close_rejects env (client connection)) as [e|];
    (destruct (process connection) as [p|]; [|done]);
    by destruct (kill_throws env p).
Qed.

(** The warnings of the clean-up: the exception thrown by the call of
    [close] or of [kill], never a rejection of the promise of [close]. *)
Lemma cleanup_events_warned connection e :
  Warned e ∈ cleanup_events env connection ->
  close_throws env (client connection) = Some e
  \/ (close_throws env (client connection) = None
      /\ exists p, process connection = Some p /\ kill_throws env p = Some e).
Proof.
  unfold cleanup_events, close_event.
  destruct (close_throws env (client connection)) as [e1|].
  { intros Hin. apply list_elem_of_singleton in Hin. left. congruence. }
  intros Hin. right. split; [done|].
  destruct (process connection) as [p|].
  - exists p. split; [done|].
    destruct (kill_throws env p) as [e2|];
      destruct (close_rejects env (client connection));
      repeat (apply elem_of_cons in Hin as [Hin|Hin]; [congruence|]);
      by apply elem_of_nil in Hin.
  - destruct (close_rejects env (client connection));
      repeat (apply elem_of_cons in Hin as [Hin|Hin]; [congruence|]);
      by apply elem_of_nil in Hin.
Qed.

(** A rejection of the promise of [close] ends in the log as unhandled. *)
Lemma cleanup_events_rejected connection e :
  close_throws env (client connection) = None ->
  close_rejects env (client connection) = Some e ->
  UnhandledRejection e ∈ cleanup_events env connection.
Proof.
  intros Hthrows Hrejects. unfold cleanup_events, close_event.
  rewrite Hthrows, Hrejects.
  destruct (process connection) as [p|]; [|by left].
  destruct (kill_throws env p); right; left.
Qed.

(** The table and the rest of the world after [deleteConnection]. *)
Lemma deleteConnection_world id w :
  exists log,
    MCPConnectionManager.deleteConnection env id w
    = ({| connections := delete id (connections w);
          database := database w; clock := clock w;
          next_client := next_client w;
          events := log ++ events w |},
       Done tt)
    /\ (connections w !! id = None -> log = []).
Proof.
  destruct (connections w !! id) as [connection|] eqn:Hid.
  - exists (cleanup_events env connection).
    split; [by apply deleteConnection_present|done].
  - exists []. split; [|done].
    rewrite deleteConnection_absent by done.
    rewrite delete_id by done. by destruct w.
Qed.

End ManagerFacts.

(** C5. The code misses what the claim asks for an error raised while
    closing the client: [deleteConnection] calls [client.close()] without
    awaiting the promise it returns (the on-demand route awaits it inside
    try/catch), so when closing fails by a rejection of that promise the
    call still returns and removes the entry, but the error is neither caught
    nor logged: it ends as an unhandled rejection, and every warning the call
    logs is the exception thrown by killing the process. *)
Theorem deleteConnection_unawaited_close
    (env : Env) (id : string) (w : World) (connection : Connection) (e : Exn) :
  connections w !! id = Some connection ->
  close_throws env (client connection) = None ->
  close_rejects env (client connection) = Some e ->
  let r := MCPConnectionManager.deleteConnection env id w in
  r.2 = Done tt
  /\ connections r.1 !! id = None
  /\ UnhandledRejection e ∈ events r.1
  /\ (forall e', Warned e' ∈ events r.1 ->
        Warned e' ∈ events w
        \/ exists p, process connection = Some p /\ kill_throws env p = Some e').
Proof.
  intros Hid Hthrows Hrejects. cbn zeta.
  rewrite (deleteConnection_present env id w connection Hid).
  cbn [fst snd connections events].
  split; [done|]. split; [apply lookup_delete_eq|]. split.
  { apply elem_of_app. left. by apply cleanup_events_rejected. }
  intros e' Hin. apply elem_of_app in Hin as [Hin|Hin]; [|by left].
  apply cleanup_events_warned in Hin as [Hin|(_ & p & Hp & Hkill)].
  - congruence.
  - right. by exists p.
Qed.

(** The failing input: the connection of server "s" (client 0, no process,
    as for an sse server) whose [close()] rejects with "Connection closed",
    on an empty log: the entry is removed, no warning is logged, and the
    rejection is unhandled. *)
Lemma deleteConnection_unawaited_close_witness :
  let r := MCPConnectionManager.deleteConnection rejecting_env "s"
             Samples.sse_connected_world in
  r.2 = Done tt
  /\ connections r.1 !! "s" = None
  /\ UnhandledRejection (Error "Connection closed") ∈ events r.1
  /\ (forall e', Warned e' ∈ events r.1 ->
        Warned e' ∈ events Samples.sse_connected_world
        \/ exists p, process {| client := 0; process := None |} = Some p
                     /\ kill_throws rejecting_env p = Some e').
Proof.
  apply (deleteConnection_unawaited_close rejecting_env "s"
           Samples.sse_connected_world {| client := 0; process := None |}
           (Error "Connection closed")).
  - reflexivity.
  - reflexivity.
  - reflexivity.
Defined.

(** X22. [deleteConnection(serverId)] never throws and always returns; the
    entry is gone afterwards, so [hasConnection(serverId)] is false; the
    other entries and the database are untouched; without an entry the call
    changes nothing, hence a second call is a no-op; and an exception thrown
    by the call of [close()] or of [kill()] itself is logged as a warning
    instead of being propagated. *)
Theorem deleteConnection_idempotent (env : Env) (id : string) (w : World) :
  let r := MCPConnectionManager.deleteConnection env id w in
  r.2 = Done tt
  /\ connections r.1 !! id = None
  /\ MCPConnectionManager.hasConnection id r.1 = (r.1, Done false)
  /\ (forall other, other ≠ id ->
        connections r.1 !! other = connections w !! other)
  /\ database r.1 = database w
  /\ (connections w !! id = None -> r.1 = w)
  /\ MCPConnectionManager.deleteConnection env id r.1 = (r.1, Done tt)
  /\ (forall connection e,
        connections w !! id = Some connection ->
        close_throws env (client connection) = Some e
        \/ (close_throws env (client connection) = None
            /\ exists p, process connection = Some p
                         /\ kill_throws env p = Some e) ->
        Warned e ∈ events r.1).
Proof.
  cbn zeta. destruct (deleteConnection_world env id w) as (log & Hrun & Hlog).
  rewrite Hrun. cbn [fst snd connections database events].
  assert (Hgone : delete id (connections w) !! id = None)
    by apply lookup_delete_eq.
  split; [done|]. split; [done|]. split.
  { unfold MCPConnectionManager.hasConnection, Js.gets. cbn [connections].
    rewrite bool_decide_eq_false_2; [done|].
    rewrite Hgone. by intros [? ?]. }
  split. { intros other Hne. by apply lookup_delete_ne. }
  split; [done|]. split.
  { intros Hid. rewrite Hlog by done. rewrite delete_id by done.
    by destruct w. }
  split. { by apply deleteConnection_absent. }
  intros connection e Hid Hthrows.
  rewrite (deleteConnection_present env id w connection Hid) in Hrun.
  injection Hrun as <-. apply elem_of_app. left. unfold cleanup_events.
  destruct Hthrows as [->|(-> & p & -> & ->)]; left.
Qed.

Lemma deleteConnection_idempotent_witness :
  Warned (Error "Not connected")
  ∈ events (MCPConnectionManager.deleteConnection stubborn_env "s"
              Samples.connected_world).1.
Proof.
  refine (proj2 (proj2 (proj2 (proj2 (proj2 (proj2 (proj2
    (deleteConnection_idempotent stubborn_env "s" Samples.connected_world)))))))
    {| client := 0; process := Some 7 |} (Error "Not connected") _ _).
  - reflexivity.
  - left. reflexivity.
Defined.

(** ** Deleting a server *)

Section DeleteFacts.
Import Sql.

Lemma deleteServer_tools id d :
  mcp_tools (MCPDatabase.deleteServer id d)
  = filter (fun r => tl_server_id r ≠ id) (mcp_tools d).
Proof.
  unfold MCPDatabase.deleteServer, Sql.deleteServer, cascade. cbn.
  destruct (has_server id _); [|done].
  destruct (foreign_keys d); [|done].
  rewrite list_filter_filter. apply list_filter_iff. tauto.
Qed.

Lemma deleteServer_servers id d :
  mcp_servers (MCPDatabase.deleteServer id d)
  = filter (fun r => srv_id r ≠ id) (mcp_servers d).
Proof. done. Qed.

Lemma deleteServer_getServer id d :
  Sql.getServer id (MCPDatabase.deleteServer id d) = None.
Proof.
  unfold Sql.getServer. rewrite deleteServer_servers, list_filter_filter.
  rewrite filter_none; [done|]. intros r _ [? ?]. done.
Qed.

Lemma deleteServer_getServer_other id other d :
  other ≠ id ->
  Sql.getServer other (MCPDatabase.deleteServer id d) = Sql.getServer other d.
Proof.
  intros Hne. unfold Sql.getServer.
  rewrite deleteServer_servers, list_filter_filter. f_equal.
  apply list_filter_iff. intros r. split; [tauto|].
  intros Hr. split; congruence.
Qed.

Lemma deleteServer_getTools id d :
  Sql.getToolsByServer id (MCPDatabase.deleteServer id d) = [].
Proof.
  unfold Sql.getToolsByServer. rewrite deleteServer_tools, list_filter_filter.
  apply filter_none. intros r _ [? ?]. done.
Qed.

Lemma deleteServer_getTools_other id other d :
  other ≠ id ->
  Sql.getToolsByServer other (MCPDatabase.deleteServer id d)
  = Sql.getToolsByServer other d.
Proof.
  intros Hne. unfold Sql.getToolsByServer.
  rewrite deleteServer_tools, list_filter_filter.
  apply list_filter_iff. intros r. split; [tauto|].
  intros Hr. split; congruence.
Qed.

Lemma deleteServer_servers_absent id d :
  has_server id d = false ->
  mcp_servers (MCPDatabase.deleteServer id d) = mcp_servers d.
Proof.
  intros Habs. rewrite deleteServer_servers. apply filter_all.
  intros r Hr Heq. unfold has_server in Habs.
  apply bool_decide_eq_false_1 in Habs. apply Habs.
  apply list_elem_of_fmap. by exists r.
Qed.

Lemma deleteServer_absent id d :
  has_server id d = false ->
  Sql.getToolsByServer id d = [] ->
  MCPDatabase.deleteServer id d = d.
Proof.
  intros Habs Hnone.
  pose proof (deleteServer_servers_absent id d Habs) as Hservers.
  pose proof (deleteServer_tools id d) as Htools.
  assert (Hall : forall r, r ∈ mcp_tools d -> tl_server_id r ≠ id).
  { intros r Hr Heq. unfold Sql.getToolsByServer in Hnone.
    eapply filter_nil_not_elem_of; [exact Hnone|exact Heq|exact Hr]. }
  rewrite filter_all in Htools by done.
  destruct (MCPDatabase.deleteServer id d) as [fk servers tools] eqn:Hdel.
  assert (Hfk : fk = foreign_keys d).
  { change fk with (foreign_keys {| foreign_keys := fk; mcp_servers := servers;
                                    mcp_tools := tools |}).
    by rewrite <- Hdel. }
  cbn in Hservers, Htools. subst. by destruct d.
Qed.

End DeleteFacts.

Section DeleteClaim.
Context `{!JsonCodec MCPServerConfig} `{!JsonCodec (gmap string Json)}.

(** C8, as amended. Deleting a server by a non-empty id always answers
    with success; afterwards the server record is gone, the server has no
    tools and no connection; every other server, tool set and connection
    is as before; for an id without a server record the table of servers is
    unchanged, and when the id has no tools and no connection either, the
    whole world is. *)
Theorem delete_server_POST_cascades (env : Env) (w : World) (id : string) :
  id ≠ "" ->
  let r := delete_server_POST env (Some id) w in
  r.2 = Done {| status := 200; body := BMessage "Server deleted successfully" |}
  /\ MCPDatabase.getServer id (database r.1) = Ok None
  /\ MCPDatabase.getToolsByServer id (database r.1) = Ok []
  /\ MCPConnectionManager.hasConnection id r.1 = (r.1, Done false)
  /\ (forall other, other ≠ id ->
        MCPDatabase.getServer other (database r.1)
        = MCPDatabase.getServer other (database w)
        /\ MCPDatabase.getToolsByServer other (database r.1)
           = MCPDatabase.getToolsByServer other (database w)
        /\ connections r.1 !! other = connections w !! other)
  /\ (Sql.has_server id (database w) = false ->
      Sql.mcp_servers (database r.1) = Sql.mcp_servers (database w))
  /\ (Sql.has_server id (database w) = false ->
      Sql.getToolsByServer id (database w) = [] ->
      connections w !! id = None ->
      r.1 = w).
Proof.
  intros Hid. cbn zeta.
  destruct (deleteConnection_world env id w) as (log & Hrun & Hlog).
  unfold delete_server_POST, Js.try_catch, Js.bind.
  rewrite bool_decide_eq_false_2 by done. rewrite Hrun.
  unfold Js.db_run, Js.modify, respond, Js.ret, Js.set_database.
  cbn [fst snd connections database].
  split; [done|]. split.
  { unfold MCPDatabase.getServer. by rewrite deleteServer_getServer. }
  split.
  { unfold MCPDatabase.getToolsByServer. by rewrite deleteServer_getTools. }
  split.
  { unfold MCPConnectionManager.hasConnection, Js.gets. cbn [connections].
    rewrite bool_decide_eq_false_2; [done|].
    rewrite lookup_delete_eq. by intros [? ?]. }
  split.
  { intros other Hne. split; [|split].
    - unfold MCPDatabase.getServer.
      by rewrite deleteServer_getServer_other.
    - unfold MCPDatabase.getToolsByServer.
      by rewrite deleteServer_getTools_other.
    - by apply lookup_delete_ne. }
  split. { apply deleteServer_servers_absent. }
  intros Habs Hnone Hconn.
  rewrite deleteServer_absent by done. rewrite Hlog by done.
  rewrite delete_id by done. by destruct w.
Qed.

End DeleteClaim.

Section DeleteExamples.
Import Samples.

Lemma delete_server_POST_cascades_witness :
  MCPDatabase.getToolsByServer "s"
    (database (delete_server_POST silent_env (Some "s") connected_world).1)
  = Ok [].
Proof.
  refine (proj1 (proj2 (proj2
    (delete_server_POST_cascades silent_env connected_world "s" _)))).
  discriminate.
Defined.

(** C8 as stated fails for the empty id: the route answers that an id is
    required and deletes nothing, so a server stored under the empty id
    stays. *)
Lemma delete_server_POST_counterexample :
  MCPDatabase.getServer "" nameless
  = Ok (Some (read_back (sample_server "" sse_config) []))
  /\ delete_server_POST silent_env (Some "") (world_of ∅ nameless)
     = (world_of ∅ nameless,
        Done {| status := 400; body := BError "Server ID is required" |}).
Proof. split; vm_compute; reflexivity. Qed.

End DeleteExamples.

(** ** Connecting under the 10-second timer *)

Lemma race_timeout_timer {A} (wins_tie : bool) (promise : Settles A) (ms : N)
    (message : string) :
  timer_fires_first promise ms ->
  race_timeout wins_tie promise ms message = After ms (Throw (Error message)).
Proof.
  destruct promise as [t r|]; [|done]. cbn. intros Hlt.
  replace (t <? ms)%N with false by (symmetry; apply N.ltb_ge; lia).
  replace (t =? ms)%N with false by (symmetry; apply N.eqb_neq; lia).
  done.
Qed.

Section ConnectClaim.
Context `{!JsonCodec MCPServerConfig} `{!JsonCodec (gmap string Json)}.

(** C4. For both transports, when the 10-second timer fires before the
    connection attempt settles (or the attempt never settles), the
    connection test answers with the transport's connection-timeout
    failure exactly 10000 ms after it started, and the connection table has
    no entry for the server; [createMCPConnection] likewise rejects with the
    timeout error after 10000 ms and leaves the table alone. *)
Theorem connect_timeout (env : Env) (w : World) (server : MCPServer) :
  let config := server_config server in
  (transport config = Some "sse" /\ falsy (url config) = false
   /\ url_valid env (default "" (url config)) = true)
  \/ (transport config = Some "stdio" /\ falsy (command config) = false) ->
  timer_fires_first (connect env config) 10000 ->
  let tested := test_connection_POST env server w in
  let created := createMCPConnection env server w in
  (exists message,
     tested.2 = Done {| status := 400; body := BError message |}
     /\ (message = "SSE connection failed: SSE connection timeout"
         \/ message = "STDIO connection failed: Connection timeout"))
  /\ clock tested.1 = (clock w + 10000)%N
  /\ connections tested.1 !! server_id server = None
  /\ (exists message,
        created.2 = Raised (Error message)
        /\ (message = "SSE connection timeout"
            \/ message = "STDIO connection timeout"))
  /\ clock created.1 = (clock w + 10000)%N
  /\ connections created.1 = connections w.
Proof.
  cbn zeta. intros Hstarted Htimer.
  destruct (deleteConnection_world env (server_id server) w)
    as (log & Hrun & _).
  unfold test_connection_POST, createMCPConnection.
  destruct Hstarted as [(Hsse & Hurl & Hvalid)|(Hstdio & Hcommand)].
  - rewrite Hsse, Hurl. rewrite bool_decide_eq_true_2 by done.
    unfold Js.try_catch, Js.bind, new_URL. rewrite Hrun, Hvalid.
    rewrite !race_timeout_timer by done.
    cbn. rewrite lookup_delete_eq. naive_solver.
  - rewrite Hstdio, Hcommand. rewrite bool_decide_eq_false_2 by done.
    rewrite bool_decide_eq_true_2 by done. cbn [andb negb].
    unfold Js.try_catch, Js.bind. rewrite Hrun.
    rewrite !race_timeout_timer by done.
    cbn. rewrite lookup_delete_eq. naive_solver.
Qed.

End ConnectClaim.

Section ConnectExamples.
Import Samples.

(** A stdio server whose command never completes the handshake. *)
Lemma connect_timeout_witness :
  (test_connection_POST silent_env (sample_server "s" stdio_config)
     connected_world).2
  = Done {| status := 400;
            body := BError "STDIO connection failed: Connection timeout" |}
  /\ clock (test_connection_POST silent_env (sample_server "s" stdio_config)
              connected_world).1 = 10000%N
  /\ connections (test_connection_POST silent_env
                    (sample_server "s" stdio_config) connected_world).1
     !! "s" = None.
Proof.
  pose proof (connect_timeout silent_env connected_world
                (sample_server "s" stdio_config)) as Hc.
  cbn zeta in Hc.
  destruct Hc as (_ & Hclock & Htable & _).
  - right. split; reflexivity.
  - exact I.
  - split; [reflexivity|]. split; [exact Hclock|exact Htable].
Defined.

End ConnectExamples.

(** ** Calling a tool over a pooled connection *)

Section ExecuteFacts.
Variable env : Env.

(** What the route does when [callTool] rejects with [failure] after [ms]
    milliseconds. *)
Lemma execute_POST_failure (w : World) (call : MCPToolCall) (name id : string)
    (connection : Connection) (ms : N) (failure : CallFailure) :
  toolName call = Some name -> name ≠ "" ->
  serverId call = Some id -> id ≠ "" ->
  connections w !! id = Some connection ->
  callTool env (client connection) name (arguments call)
  = After ms (Ok (inl failure)) ->
  execute_POST env call w
  = Js.bind
      (if looks_broken (thrown failure)
       then MCPConnectionManager.deleteConnection env id
       else Js.ret tt)
      (fun _ =>
         respond 400 (BToolFailed ("Tool execution failed: "
                                   +:+ message_or_unknown (thrown failure))
                                  (thrown failure)))
      (Js.tick ms w).
Proof.
  intros Hname Hname' Hid Hid' Hconn Hcall.
  unfold execute_POST, Js.try_catch, Js.bind, MCPConnectionManager.getConnection,
    Js.gets, await_callTool, respond, Js.ret.
  rewrite Hname, Hid. cbn [falsy default from_option Datatypes.id].
  rewrite !bool_decide_eq_false_2 by done. cbn [orb].
  rewrite Hconn, Hcall.
  cbn [Js.await Js.bind Js.modify Js.of_result Js.throw].
  unfold Js.bind, Js.modify, Js.throw.
  destruct (looks_broken (thrown failure)); [|done].
  destruct (deleteConnection_world env id (Js.tick ms w)) as (log & Hrun & _).
  by rewrite Hrun.
Qed.

(** What the route does when [callTool] resolves with [result] after [ms]
    milliseconds: the result is not inspected beyond [content]. *)
Lemma execute_POST_resolved (w : World) (call : MCPToolCall) (name id : string)
    (connection : Connection) (ms : N) (result : CallToolResult) :
  toolName call = Some name -> name ≠ "" ->
  serverId call = Some id -> id ≠ "" ->
  connections w !! id = Some connection ->
  callTool env (client connection) name (arguments call)
  = After ms (Ok (inr result)) ->
  execute_POST env call w
  = (Js.tick ms w,
     Done {| status := 200;
             body := BToolResult name (content_or_whole result)
                                 (clock w + ms) |}).
Proof.
  intros Hname Hname' Hid Hid' Hconn Hcall.
  unfold execute_POST, Js.try_catch, Js.bind, MCPConnectionManager.getConnection,
    Js.gets, await_callTool, respond, Js.ret.
  rewrite Hname, Hid. cbn [falsy default from_option Datatypes.id].
  rewrite !bool_decide_eq_false_2 by done. cbn [orb].
  by rewrite Hconn, Hcall.
Qed.

End ExecuteFacts.

(** C6, as amended. Over a pooled connection, a failure that the remote
    tool reports by failing the call (the promise of [callTool] rejects with
    the remote message) yields the 400 answer ["Tool execution failed: " +
    message] carrying that message, whatever the message is; the connection
    entry is kept whenever the message contains none of [connection],
    [closed] and [disconnected]. A call that resolves is answered with
    status 200 and the content of the result, and the connection is kept,
    whatever the result says: the route never reads [isError], so a failure
    that the tool reports inside its result is answered like a success. *)
Theorem execute_POST_remote_failure (env : Env) (w : World)
    (call : MCPToolCall) (name id : string) (connection : Connection)
    (ms : N) :
  toolName call = Some name -> name ≠ "" ->
  serverId call = Some id -> id ≠ "" ->
  connections w !! id = Some connection ->
  let r := execute_POST env call w in
  (forall remote_message : string,
     callTool env (client connection) name (arguments call)
     = After ms (Ok (inl (RemoteToolFailure remote_message))) ->
     r.2 = Done {| status := 400;
                   body := BToolFailed ("Tool execution failed: "
                                        +:+ remote_message)
                                       (Error remote_message) |}
     /\ (looks_broken (Error remote_message) = false ->
         connections r.1 = connections w
         /\ connections r.1 !! id = Some connection))
  /\ (forall result : CallToolResult,
       callTool env (client connection) name (arguments call)
       = After ms (Ok (inr result)) ->
       r.2 = Done {| status := 200;
                     body := BToolResult name (content_or_whole result)
                                         (clock w + ms) |}
       /\ connections r.1 = connections w
       /\ connections r.1 !! id = Some connection).
Proof.
  intros Hname Hname' Hid Hid' Hconn. cbn zeta. split.
  - intros remote_message Hcall.
    rewrite (execute_POST_failure env w call name id connection ms
               (RemoteToolFailure remote_message)) by done.
    cbn [thrown message_or_unknown].
    destruct (looks_broken (Error remote_message)).
    + destruct (deleteConnection_world env id (Js.tick ms w))
        as (log & Hrun & _).
      unfold Js.bind. rewrite Hrun. by split.
    + by split.
  - intros result Hcall.
    by rewrite (execute_POST_resolved env w call name id connection ms result).
Qed.

(** C7, as amended. When a tool call over a pooled connection fails with
    an error whose message contains [connection], [closed] or
    [disconnected], the route answers with the structured 400 failure
    instead of crashing and the connection entry of the server is removed;
    the database, and with it the persisted status of the server, is left
    as it was. *)
Theorem execute_POST_transport_failure (env : Env) (w : World)
    (call : MCPToolCall) (name id : string) (connection : Connection)
    (ms : N) (message : string) :
  toolName call = Some name -> name ≠ "" ->
  serverId call = Some id -> id ≠ "" ->
  connections w !! id = Some connection ->
  callTool env (client connection) name (arguments call)
  = After ms (Ok (inl (TransportFailure message))) ->
  looks_broken (Error message) = true ->
  let r := execute_POST env call w in
  r.2 = Done {| status := 400;
                body := BToolFailed ("Tool execution failed: " +:+ message)
                                    (Error message) |}
  /\ connections r.1 !! id = None
  /\ database r.1 = database w.
Proof.
  intros Hname Hname' Hid Hid' Hconn Hcall Hbroken. cbn zeta.
  rewrite (execute_POST_failure env w call name id connection ms
             (TransportFailure message)) by done.
  cbn [thrown message_or_unknown]. rewrite Hbroken.
  destruct (deleteConnection_world env id (Js.tick ms w)) as (log & Hrun & _).
  unfold Js.bind. rewrite Hrun. cbn. by rewrite lookup_delete_eq.
Qed.

Section ExecuteExamples.
Import Samples.

(** A tool that fails the call with "Unknown symbol: XYZ" gets the 400
    answer and keeps its connection; a tool that resolves with a result
    saying [isError: true] gets the 200 answer with the content of that
    result. *)
Lemma execute_POST_remote_failure_witness :
  ((execute_POST (failing_env (RemoteToolFailure "Unknown symbol: XYZ"))
      call_A connected_world).2
   = Done {| status := 400;
             body := BToolFailed "Tool execution failed: Unknown symbol: XYZ"
                                 (Error "Unknown symbol: XYZ") |}
   /\ connections
        (execute_POST (failing_env (RemoteToolFailure "Unknown symbol: XYZ"))
           call_A connected_world).1 !! "s"
      = Some {| client := 0; process := Some 7 |})
  /\ isError failed_result = true
  /\ (execute_POST reporting_env call_A connected_world).2
     = Done {| status := 200;
               body := BToolResult "A" failed_content
                                   (clock connected_world + 5) |}.
Proof.
  split; [|split; [reflexivity|]].
  - destruct (proj1 (execute_POST_remote_failure
                (failing_env (RemoteToolFailure "Unknown symbol: XYZ"))
                connected_world call_A "A" "s"
                {| client := 0; process := Some 7 |} 5
                eq_refl ltac:(discriminate) eq_refl ltac:(discriminate)
                eq_refl)
              "Unknown symbol: XYZ" eq_refl) as [Hanswer Hkept].
    split; [exact Hanswer|]. exact (proj2 (Hkept eq_refl)).
  - exact (proj1 (proj2 (execute_POST_remote_failure
                reporting_env connected_world call_A "A" "s"
                {| client := 0; process := Some 7 |} 5
                eq_refl ltac:(discriminate) eq_refl ltac:(discriminate)
                eq_refl)
              failed_result eq_refl)).
Defined.

(** C6 as stated fails twice. A tool that reports that the connection to
    its own backend was refused loses the pooled connection of its server;
    and a tool that reports its failure inside the result ([isError: true])
    is answered with status 200 and [success: true], not with the failure
    answer. *)
Lemma execute_POST_remote_failure_counterexample :
  connections
    (execute_POST
       (failing_env (RemoteToolFailure "database connection refused"))
       call_A connected_world).1 !! "s"
  = None
  /\ isError failed_result = true
  /\ (execute_POST reporting_env call_A connected_world).2
     = Done {| status := 200;
               body := BToolResult "A" failed_content
                                   (clock connected_world + 5) |}.
Proof. repeat split; vm_compute; reflexivity. Qed.

Lemma execute_POST_transport_failure_witness :
  connections
    (execute_POST (failing_env (TransportFailure "Connection closed"))
       call_A connected_world).1 !! "s"
  = None.
Proof.
  refine (proj1 (proj2
    (execute_POST_transport_failure
       (failing_env (TransportFailure "Connection closed"))
       connected_world call_A "A" "s" {| client := 0; process := Some 7 |}
       5 "Connection closed" _ _ _ _ _ _ _))).
  all: first [reflexivity | discriminate].
Defined.

(** C7 as stated fails: after the connection closed under a tool call the
    server is still stored as [connected]; and a transport failure whose
    message has none of the three words leaves the broken connection in
    the table. *)
Lemma execute_POST_transport_failure_counterexample :
  (exists server,
     MCPDatabase.getServer "s"
       (database
          (execute_POST (failing_env (TransportFailure "Connection closed"))
             call_A connected_world).1)
     = Ok (Some server)
     /\ server_status server = "connected")
  /\ connections
       (execute_POST (failing_env (TransportFailure "write EPIPE"))
          call_A connected_world).1 !! "s"
     = Some {| client := 0; process := Some 7 |}.
Proof.
  split; [|vm_compute; reflexivity].
  exists (read_back (sample_server "s" sse_config) []).
  split; vm_compute; reflexivity.
Qed.

End ExecuteExamples.

(** * Further properties *)

(** ** The schema translator, beyond the specification's example *)

Section TranslatorMore.
Import Zod.

Lemma omap_ext_in {A B} (f g : A -> option B) (l : list A) :
  (forall x, x ∈ l -> f x = g x) -> omap f l = omap g l.
Proof.
  induction l as [|x l IH]; intros Hfg; [done|]. cbn.
  rewrite (Hfg x) by left.
  rewrite IH by (intros y Hy; apply Hfg; by right). done.
Qed.

Lemma Object_fromEntries_present {V} (f : string -> V) (keys : list string)
    (acc : gmap string V) key :
  key ∈ keys ->
  foldl (fun (acc : gmap string V) kv => <[kv.1 := kv.2]> acc) acc
        (map (fun k => (k, f k)) keys) !! key
  = Some (f key).
Proof.
  revert acc. induction keys as [|k keys IH]; intros acc Hin.
  - by apply elem_of_nil in Hin.
  - cbn [map foldl]. destruct (decide (key ∈ keys)) as [Hrest|Hrest].
    + by apply IH.
    + apply elem_of_cons in Hin as [->|Hin]; [|done].
      rewrite Object_fromEntries_acc.
      * cbn. apply lookup_insert_eq.
      * rewrite <- list_fmap_compose. cbn. by rewrite list_fmap_id.
Qed.

(** The shape the translator builds, key by key: a declared property is
    optional, a required name that is not declared holds [undefined], any
    other key is not in the shape. *)
Lemma translated_shape_lookup (props : gmap string ZodType)
    (required : list string) key :
  merge (Object_fromEntries (map (fun k => (k, props !! k)) required))
        (partial (Some <$> props)) !! key
  = match props !! key with
    | Some t => Some (Some (ZOptional t))
    | None => if decide (key ∈ required) then Some None else None
    end.
Proof.
  unfold merge. destruct (props !! key) as [t|] eqn:Hk.
  - apply lookup_union_Some_l. by rewrite partial_lookup, Hk.
  - rewrite lookup_union_r by by rewrite partial_lookup, Hk.
    case_decide as Hin.
    + unfold Object_fromEntries.
      rewrite (Object_fromEntries_present (fun k => props !! k)) by done.
      cbn. by rewrite Hk.
    + apply Object_fromEntries_absent.
      rewrite <- list_fmap_compose. cbn. by rewrite list_fmap_id.
Qed.

Lemma safeParse_object_insert_unknown (shape : Shape) (data : gmap string Json)
    key v :
  shape !! key = None ->
  safeParse (ZObject shape) (JObj (<[key := v]> data))
  = safeParse (ZObject shape) (JObj data).
Proof.
  intros Hkey. unfold safeParse.
  assert (Hpaths : invalid_paths shape (<[key := v]> data)
                   = invalid_paths shape data).
  { unfold invalid_paths. apply omap_ext_in. intros [k t] Hin.
    apply elem_of_map_to_list in Hin. cbn.
    rewrite lookup_insert_ne; [done|]. intros ->. congruence. }
  assert (Hstrip : strip shape (<[key := v]> data) = strip shape data).
  { unfold strip. apply map_filter_insert_not. intros y. cbn.
    rewrite Hkey. by intros [? ?]. }
  by rewrite Hpaths, Hstrip.
Qed.

End TranslatorMore.

(** X1. For an object schema with declared properties, a field that is
    neither declared nor required has no influence at all on validation:
    adding it to the arguments, with any value, gives the same outcome and
    the same parsed output. *)
Theorem mcpSchemaToZod_ignores_undeclared
    (s : McpSchema) (properties : gmap string (gmap string Json))
    (args : gmap string Json) (key : string) (v : Json) :
  schema_type s = Some (JStr "object") ->
  schema_properties s = Some properties ->
  properties !! key = None ->
  key ∉ default [] (schema_required s) ->
  Zod.safeParse (mcpSchemaToZod s) (JObj (<[key := v]> args))
  = Zod.safeParse (mcpSchemaToZod s) (JObj args).
Proof.
  intros Htype Hprops Hkey Hreq.
  unfold mcpSchemaToZod. rewrite Htype, Hprops. cbn [strict_eq_str].
  rewrite bool_decide_eq_true_2 by done.
  apply safeParse_object_insert_unknown.
  rewrite translated_shape_lookup, lookup_fmap, Hkey. cbn.
  by rewrite decide_False.
Qed.

Lemma mcpSchemaToZod_ignores_undeclared_witness :
  Zod.safeParse (mcpSchemaToZod schema_a)
                (JObj (<["b" := JStr "extra"]> {[ "a" := JNum 5 ]}))
  = Zod.safeParse (mcpSchemaToZod schema_a) (JObj {[ "a" := JNum 5 ]}).
Proof.
  apply (mcpSchemaToZod_ignores_undeclared schema_a
           {[ "a" := {[ "type" := JStr "string" ]} ]}).
  - reflexivity.
  - reflexivity.
  - reflexivity.
  - intros Hin. apply list_elem_of_singleton in Hin. discriminate.
Defined.

(** X2. For an object schema whose required names are all declared, the
    validator never throws, and it reports exactly the declared properties
    that are present with a value of another type than declared: it
    succeeds when there is none, and otherwise fails with one issue per such
    property. *)
Theorem mcpSchemaToZod_reports_ill_typed
    (s : McpSchema) (properties : gmap string (gmap string Json))
    (args : gmap string Json) :
  schema_type s = Some (JStr "object") ->
  schema_properties s = Some properties ->
  (forall key, key ∈ default [] (schema_required s) ->
               is_Some (properties !! key)) ->
  let ill_typed key :=
    exists prop v, properties !! key = Some prop /\ args !! key = Some v
                   /\ Zod.accepts (zod_of_prop prop) (Some v) = false in
  match Zod.safeParse (mcpSchemaToZod s) (JObj args) with
  | Zod.Success _ => forall key, ¬ ill_typed key
  | Zod.ZodError issues =>
      issues ≠ []
      /\ forall path, path ∈ issues <-> exists key, path = [key] /\ ill_typed key
  | Zod.TypeError => False
  end.
Proof.
  intros Htype Hprops Hdecl ill_typed.
  unfold mcpSchemaToZod. rewrite Htype, Hprops. cbn [strict_eq_str].
  rewrite bool_decide_eq_true_2 by done.
  rewrite merge_required_declared; cycle 1.
  { intros key Hin. rewrite lookup_fmap.
    apply Hdecl in Hin as [p ->]. by eexists. }
  unfold Zod.safeParse, Zod.has_undefined.
  rewrite existsb_false_Forall; cycle 1.
  { apply Forall_forall. intros [key t] Hin.
    apply elem_of_map_to_list in Hin. rewrite partial_lookup in Hin.
    destruct (_ !! key); simplify_eq/=; done. }
  assert (Hpaths : forall path,
            path ∈ Zod.invalid_paths
                     (Zod.partial (Some <$> (zod_of_prop <$> properties))) args
            <-> exists key, path = [key] /\ ill_typed key).
  { intros path. unfold Zod.invalid_paths. rewrite list_elem_of_omap. split.
    - intros [[key t] [Hin Hpath]]. apply elem_of_map_to_list in Hin.
      rewrite partial_lookup, lookup_fmap in Hin. cbn in Hpath.
      destruct (properties !! key) as [prop|] eqn:Hp; simplify_eq/=.
      destruct (args !! key) as [v|] eqn:Hv; [|done].
      destruct (Zod.accepts (zod_of_prop prop) (Some v)) eqn:Hacc;
        simplify_eq/=.
      exists key. split; [done|]. by exists prop, v.
    - intros (key & -> & prop & v & Hp & Hv & Hacc).
      exists (key, Some (Zod.ZOptional (zod_of_prop prop))). split.
      + apply elem_of_map_to_list. by rewrite partial_lookup, lookup_fmap, Hp.
      + cbn. by rewrite Hv, Hacc. }
  destruct (Zod.invalid_paths _ args) as [|issue issues] eqn:Hissues.
  - intros key Hbad. apply (elem_of_nil [key]). apply Hpaths. by exists key.
  - split; [done|]. apply Hpaths.
Qed.

Lemma mcpSchemaToZod_reports_ill_typed_witness :
  match Zod.safeParse (mcpSchemaToZod schema_a) (JObj {[ "a" := JNum 5 ]}) with
  | Zod.ZodError issues => issues ≠ []
  | _ => False
  end.
Proof.
  pose proof (mcpSchemaToZod_reports_ill_typed schema_a
                {[ "a" := {[ "type" := JStr "string" ]} ]} {[ "a" := JNum 5 ]})
    as Hx.
  cbn zeta in Hx.
  destruct (Zod.safeParse (mcpSchemaToZod schema_a) (JObj {[ "a" := JNum 5 ]}))
    eqn:Hparse.
  - vm_compute in Hparse. discriminate.
  - apply Hx.
    + reflexivity.
    + reflexivity.
    + intros key Hin. apply list_elem_of_singleton in Hin as ->. by eexists.
  - vm_compute in Hparse. discriminate.
Defined.

(** X3. When an object schema requires a name that its properties do not
    declare, the validator is unusable: validating any argument object
    throws instead of answering. *)
Theorem mcpSchemaToZod_undeclared_required_throws
    (s : McpSchema) (properties : gmap string (gmap string Json))
    (args : gmap string Json) (key : string) :
  schema_type s = Some (JStr "object") ->
  schema_properties s = Some properties ->
  key ∈ default [] (schema_required s) ->
  properties !! key = None ->
  Zod.safeParse (mcpSchemaToZod s) (JObj args) = Zod.TypeError.
Proof.
  intros Htype Hprops Hreq Hkey.
  unfold mcpSchemaToZod. rewrite Htype, Hprops. cbn [strict_eq_str].
  rewrite bool_decide_eq_true_2 by done.
  unfold Zod.safeParse, Zod.has_undefined.
  replace (existsb _ _) with true; [done|]. symmetry.
  apply existsb_exists. exists (key, None). split; [|done].
  apply list_elem_of_In, elem_of_map_to_list.
  rewrite translated_shape_lookup, lookup_fmap, Hkey. cbn.
  by rewrite decide_True.
Qed.

Lemma mcpSchemaToZod_undeclared_required_throws_witness :
  Zod.safeParse
    (mcpSchemaToZod {| schema_type := Some (JStr "object");
                       schema_properties := Some ∅;
                       schema_required := Some ["a"] |})
    (JObj {[ "a" := JStr "x" ]})
  = Zod.TypeError.
Proof.
  apply (mcpSchemaToZod_undeclared_required_throws _ ∅ _ "a").
  - reflexivity.
  - reflexivity.
  - apply list_elem_of_singleton. reflexivity.
  - reflexivity.
Defined.

(** ** Integrity of the registry *)

Section IntegrityFacts.
Import Sql.
Context `{!JsonCodec MCPServerConfig} `{!JsonCodec (gmap string Json)}.

Lemma NoDup_fmap_filter {A B} (f : A -> B) (P : A -> Prop)
    `{!forall x, Decision (P x)} (l : list A) :
  NoDup (f <$> l) -> NoDup (f <$> filter P l).
Proof.
  intros Hl. eapply sublist_NoDup; [exact Hl|].
  apply fmap_sublist, sublist_filter.
Qed.

Lemma has_server_elem id d :
  has_server id d = true <-> id ∈ srv_id <$> mcp_servers d.
Proof. unfold has_server. apply bool_decide_eq_true. Qed.

Lemma keep_last_subset (tools : list MCPTool) tool :
  tool ∈ keep_last tools -> tool ∈ tools.
Proof.
  induction tools as [|t ts IH]; [done|]. cbn.
  case_bool_decide.
  - intros Hin. right. by apply IH.
  - intros [->|Hin]%elem_of_cons; [left|right; by apply IH].
Qed.

Lemma unique_keys_saveServer server d :
  unique_keys d -> unique_keys (MCPDatabase.saveServer server d).
Proof.
  intros [Hs Ht]. unfold MCPDatabase.saveServer, insertServer, unique_keys.
  cbn [mcp_servers mcp_tools srv_id]. split.
  - rewrite fmap_app. apply NoDup_app. split; [by apply NoDup_fmap_filter|].
    split; [|apply NoDup_singleton].
    intros id Hin Hnew. apply list_elem_of_singleton in Hnew as ->.
    apply list_elem_of_fmap in Hin as (r & Heq & Hr).
    apply list_elem_of_filter in Hr as [Hne _]. by apply Hne.
  - destruct (has_server _ d); [|done]. unfold cascade.
    destruct (foreign_keys d); [|done]. by apply NoDup_fmap_filter.
Qed.

Lemma unique_keys_saveTools serverId (tools : list MCPTool) d :
  unique_keys d -> unique_keys (MCPDatabase.saveTools serverId tools d).1.
Proof.
  intros [Hs Ht]. split; [by rewrite mcp_servers_saveTools|].
  destruct (foreign_keys d && negb (has_server serverId d)) eqn:Hfk.
  - destruct tools as [|tool rest].
    + rewrite saveTools_nil. cbn. by apply NoDup_fmap_filter.
    + rewrite saveTools_blocked by done. cbn. by apply NoDup_fmap_filter.
  - rewrite saveTools_ok by done. cbn [fst mcp_tools with_tools].
    rewrite replace_rows_spec, fmap_app. apply NoDup_app. split.
    { by do 2 apply NoDup_fmap_filter. }
    split.
    + intros id Hin Hnew. apply list_elem_of_fmap in Hin as (r & -> & Hr).
      apply list_elem_of_filter in Hr as [Hfree _]. apply Hfree.
      apply list_elem_of_fmap in Hnew as (row & -> & Hrow).
      apply list_elem_of_fmap in Hrow as (tool & -> & Htool).
      apply list_elem_of_fmap. exists tool. split; [done|].
      by apply keep_last_subset.
    + rewrite <- list_fmap_compose.
      pose proof (keep_last_NoDup tools) as Hnames.
      induction (keep_last tools) as [|tool rest IH]; [constructor|].
      cbn in *. apply NoDup_cons in Hnames as [Hnot Hrest].
      apply NoDup_cons. split; [|by apply IH].
      intros Hin. apply Hnot.
      apply list_elem_of_fmap in Hin as (t & Heq & Ht').
      apply list_elem_of_fmap. exists t. split; [|done].
      apply (inj (String.app serverId)) in Heq.
      by apply (inj (String.app "_")) in Heq.
Qed.

Lemma unique_keys_deleteServer id d :
  unique_keys d -> unique_keys (MCPDatabase.deleteServer id d).
Proof.
  intros [Hs Ht]. split.
  - rewrite deleteServer_servers. by apply NoDup_fmap_filter.
  - rewrite deleteServer_tools. by apply NoDup_fmap_filter.
Qed.

Lemma srv_id_updateServerStatus id status d :
  srv_id <$> mcp_servers (MCPDatabase.updateServerStatus id status d)
  = srv_id <$> mcp_servers d.
Proof.
  unfold MCPDatabase.updateServerStatus, Sql.updateServerStatus. cbn.
  induction (mcp_servers d) as [|r rows IH]; [done|]. cbn.
  f_equal; [by case_bool_decide|done].
Qed.

End IntegrityFacts.

Section IntegrityClaims.
Import Sql.
Context `{!JsonCodec MCPServerConfig} `{!JsonCodec (gmap string Json)}.

(** X4. Primary keys stay unique: the fresh database has no two servers
    with one id and no two tools with one key, and [saveServer],
    [saveTools] (also when it throws), [deleteServer] and
    [updateServerStatus] keep it so. *)
Theorem unique_keys_invariant :
  unique_keys Sql.empty
  /\ forall d, unique_keys d ->
       (forall server, unique_keys (MCPDatabase.saveServer server d))
       /\ (forall serverId tools,
             unique_keys (MCPDatabase.saveTools serverId tools d).1)
       /\ (forall id, unique_keys (MCPDatabase.deleteServer id d))
       /\ (forall id status,
             unique_keys (MCPDatabase.updateServerStatus id status d)).
Proof.
  split; [split; constructor|].
  intros d Hd. split; [|split; [|split]].
  - intros server. by apply unique_keys_saveServer.
  - intros serverId tools. by apply unique_keys_saveTools.
  - intros id. by apply unique_keys_deleteServer.
  - intros id status. destruct Hd as [Hs Ht]. split; [|done].
    by rewrite srv_id_updateServerStatus.
Qed.

(** X5. Under enforced foreign keys no tool is ever left without its
    server: the property holds for the fresh database and is kept by
    [saveServer], [saveTools], [deleteServer] and [updateServerStatus]. *)
Theorem references_kept_invariant :
  references_kept Sql.empty
  /\ forall d, references_kept d ->
       (forall server, references_kept (MCPDatabase.saveServer server d))
       /\ (forall serverId tools,
             references_kept (MCPDatabase.saveTools serverId tools d).1)
       /\ (forall id, references_kept (MCPDatabase.deleteServer id d))
       /\ (forall id status,
             references_kept (MCPDatabase.updateServerStatus id status d)).
Proof.
  split. { intros _ r Hr. by apply elem_of_nil in Hr. }
  intros d Hd. split; [|split; [|split]].
  - intros server Hfk r Hr. cbn in Hfk.
    apply has_server_elem. unfold MCPDatabase.saveServer, insertServer.
    cbn [mcp_servers srv_id]. rewrite fmap_app, elem_of_app.
    destruct (decide (tl_server_id r = server_id server)) as [->|Hne].
    { right. cbn. left. }
    left. assert (Hold : r ∈ mcp_tools d).
    { unfold MCPDatabase.saveServer, insertServer in Hr.
      cbn [mcp_tools] in Hr. destruct (has_server _ d); [|done].
      unfold cascade in Hr. rewrite Hfk in Hr.
      by apply list_elem_of_filter in Hr as [_ Hr]. }
    apply (Hd Hfk), has_server_elem in Hold.
    apply list_elem_of_fmap in Hold as (row & Heq & Hrow).
    apply list_elem_of_fmap. exists row. split; [done|].
    apply list_elem_of_filter. split; [|done]. congruence.
  - intros serverId tools Hfk r Hr.
    rewrite foreign_keys_saveTools in Hfk.
    rewrite has_server_saveTools.
    destruct (has_server serverId d) eqn:Hs.
    + rewrite saveTools_ok in Hr by (rewrite Hs; apply andb_false_r).
      cbn [fst mcp_tools with_tools] in Hr.
      rewrite replace_rows_spec in Hr. apply elem_of_app in Hr as [Hr|Hr].
      * apply list_elem_of_filter in Hr as [_ Hr].
        apply list_elem_of_filter in Hr as [_ Hr]. by apply Hd.
      * apply list_elem_of_fmap in Hr as (tool & -> & _). done.
    + assert (Hold : r ∈ mcp_tools (deleteToolsByServer serverId d)).
      { destruct tools as [|tool rest].
        - by rewrite saveTools_nil in Hr.
        - rewrite saveTools_blocked in Hr by (by rewrite Hfk, Hs). done. }
      cbn in Hold. apply list_elem_of_filter in Hold as [_ Hold].
      by apply Hd.
  - intros id Hfk r Hr. cbn in Hfk.
    rewrite deleteServer_tools in Hr.
    apply list_elem_of_filter in Hr as [Hne Hr].
    apply (Hd Hfk), has_server_elem in Hr. apply has_server_elem.
    rewrite deleteServer_servers.
    apply list_elem_of_fmap in Hr as (row & Heq & Hrow).
    apply list_elem_of_fmap. exists row. split; [done|].
    apply list_elem_of_filter. split; [|done]. congruence.
  - intros id status Hfk r Hr. cbn in Hfk, Hr.
    apply has_server_elem. rewrite srv_id_updateServerStatus.
    apply has_server_elem. by apply Hd.
Qed.

End IntegrityClaims.

Section IntegrityExamples.
Import Samples.

Lemma unique_keys_invariant_witness : unique_keys with_A_B.
Proof.
  destruct unique_keys_invariant as [Hempty Hstep].
  apply Hstep. apply Hstep. apply Hstep. exact Hempty.
Defined.

Lemma references_kept_invariant_witness : references_kept clashing.
Proof.
  destruct references_kept_invariant as [Hempty Hstep].
  apply Hstep. apply Hstep. apply Hstep. exact Hempty.
Defined.

End IntegrityExamples.

(** ** Updating and re-saving servers *)

Section UpdateFacts.
Import Sql.
Context `{!JsonCodec MCPServerConfig} `{!JsonCodec (gmap string Json)}.

Lemma restatus_id status id r : srv_id (restatus status id r) = srv_id r.
Proof. unfold restatus. by case_bool_decide. Qed.

Lemma getServer_updateServerStatus key status id d :
  Sql.getServer key (Sql.updateServerStatus status id d)
  = restatus status id <$> Sql.getServer key d.
Proof.
  unfold Sql.getServer, Sql.updateServerStatus. cbn [mcp_servers with_servers].
  fold (restatus status id).
  induction (mcp_servers d) as [|r rows IH]; [done|].
  cbn [map]. rewrite !filter_cons, restatus_id.
  case_decide; [done|]. apply IH.
Qed.

Lemma updateServerStatus_absent status id d :
  has_server id d = false -> Sql.updateServerStatus status id d = d.
Proof.
  intros Habs. unfold Sql.updateServerStatus, with_servers.
  destruct d as [fk servers tools]. cbn in *. f_equal.
  unfold has_server in Habs. cbn in Habs.
  apply bool_decide_eq_false_1 in Habs.
  induction servers as [|r rows IH]; [done|]. cbn in *.
  apply not_elem_of_cons in Habs as [Hne Hrest].
  rewrite bool_decide_eq_false_2 by done. f_equal. by apply IH.
Qed.

Lemma getServer_insertServer_other row other d :
  other ≠ srv_id row ->
  Sql.getServer other (insertServer row d) = Sql.getServer other d.
Proof.
  intros Hne. unfold Sql.getServer, insertServer. cbn [mcp_servers].
  rewrite filter_app, list_filter_filter.
  rewrite (filter_cons_False _ row) by done.
  rewrite filter_nil, app_nil_r. f_equal.
  apply list_filter_iff. intros r. split; [tauto|].
  intros Hr. split; congruence.
Qed.

End UpdateFacts.

Section UpdateClaims.
Import Sql.
Context `{!JsonCodec MCPServerConfig} `{!JsonCodec (gmap string Json)}.

(** X6. [updateServerStatus(id, status)] on an id that is not stored
    changes nothing; on a stored server it changes the status alone:
    [getServer(id)] returns the same server with the new status, every
    other server reads as before and no tool is touched. *)
Theorem updateServerStatus_changes_status_only (id status : string) (d : Db) :
  let d' := MCPDatabase.updateServerStatus id status d in
  (has_server id d = false -> d' = d)
  /\ (forall server,
        MCPDatabase.getServer id d = Ok (Some server) ->
        MCPDatabase.getServer id d' = Ok (Some (with_status server status)))
  /\ (forall other, other ≠ id ->
        MCPDatabase.getServer other d' = MCPDatabase.getServer other d)
  /\ mcp_tools d' = mcp_tools d.
Proof.
  cbn zeta. unfold MCPDatabase.updateServerStatus.
  split; [apply updateServerStatus_absent|]. split; [|split; [|done]].
  - intros server. unfold MCPDatabase.getServer.
    rewrite getServer_updateServerStatus.
    destruct (Sql.getServer id d) as [row|] eqn:Hrow; [|done]. cbn.
    assert (Hid : srv_id row = id).
    { unfold Sql.getServer in Hrow. apply head_Some_elem_of in Hrow.
      by apply list_elem_of_filter in Hrow as [? _]. }
    unfold restatus. rewrite bool_decide_eq_true_2 by done.
    unfold MCPDatabase.server_of_row. cbn.
    destruct (JSON_parse (srv_config row)); [|done].
    by intros [= <-].
  - intros other Hne. unfold MCPDatabase.getServer.
    rewrite getServer_updateServerStatus.
    destruct (Sql.getServer other d) as [row|] eqn:Hrow; [|done]. cbn.
    assert (Hid : srv_id row = other).
    { unfold Sql.getServer in Hrow. apply head_Some_elem_of in Hrow.
      by apply list_elem_of_filter in Hrow as [? _]. }
    unfold restatus. rewrite bool_decide_eq_false_2 by congruence. done.
Qed.

(** X7. [saveServer(s)] is an upsert on [s.id] alone: every other server
    reads as before and keeps its tools. *)
Theorem saveServer_leaves_others (s : MCPServer) (d : Db) (other : string) :
  other ≠ server_id s ->
  MCPDatabase.getServer other (MCPDatabase.saveServer s d)
  = MCPDatabase.getServer other d
  /\ MCPDatabase.getToolsByServer other (MCPDatabase.saveServer s d)
     = MCPDatabase.getToolsByServer other d.
Proof.
  intros Hne. split.
  - unfold MCPDatabase.getServer, MCPDatabase.saveServer.
    by rewrite getServer_insertServer_other.
  - unfold MCPDatabase.getToolsByServer, MCPDatabase.saveServer. f_equal.
    unfold Sql.getToolsByServer, insertServer. cbn [mcp_tools srv_id].
    destruct (has_server (server_id s) d); [|done]. unfold cascade.
    destruct (foreign_keys d); [|done].
    rewrite list_filter_filter. apply list_filter_iff.
    intros r. split; [tauto|]. intros Hr. split; congruence.
Qed.

(** X8. Saving a server again under enforced foreign keys drops the tools
    stored for it: the replaced row takes its tools along. Saving a new
    server, or saving without enforcement, leaves the tools of that id as
    they are. *)
Theorem saveServer_again_drops_tools (s : MCPServer) (d : Db) :
  Sql.getToolsByServer (server_id s) (MCPDatabase.saveServer s d)
  = if foreign_keys d && has_server (server_id s) d
    then []
    else Sql.getToolsByServer (server_id s) d.
Proof.
  unfold Sql.getToolsByServer, MCPDatabase.saveServer, insertServer.
  cbn [mcp_tools srv_id].
  destruct (has_server (server_id s) d);
    [|by rewrite andb_false_r].
  unfold cascade. destruct (foreign_keys d); [|done]. cbn [andb].
  rewrite list_filter_filter. apply filter_none. intros r _ [? ?]. done.
Qed.

End UpdateClaims.

Section UpdateExamples.
Import Sql Samples.

Lemma updateServerStatus_changes_status_only_witness :
  MCPDatabase.getServer "s" (MCPDatabase.updateServerStatus "s" "error" with_A_B)
  = Ok (Some (with_status (read_back (sample_server "s" sse_config) []) "error")).
Proof.
  refine (proj1 (proj2
    (updateServerStatus_changes_status_only "s" "error" with_A_B)) _ _).
  reflexivity.
Defined.

Lemma saveServer_leaves_others_witness :
  MCPDatabase.getToolsByServer "s"
    (MCPDatabase.saveServer (sample_server "t" sse_config) with_A_B)
  = MCPDatabase.getToolsByServer "s" with_A_B.
Proof.
  refine (proj2 (saveServer_leaves_others (sample_server "t" sse_config)
                   with_A_B "s" _)).
  discriminate.
Defined.

(** Saving the sample server again loses its tools [A] and [B]. *)
Example saveServer_again_sample :
  MCPDatabase.getToolsByServer "s" with_A_B
  = Ok [sample_tool "A" "first"; sample_tool "B" "second"]
  /\ MCPDatabase.getToolsByServer "s"
       (MCPDatabase.saveServer (sample_server "s" sse_config) with_A_B)
     = Ok [].
Proof. split; vm_compute; reflexivity. Qed.

End UpdateExamples.

(** ** The listing queries *)

Section ListingFacts.
Import Sql.
Context `{!JsonCodec MCPServerConfig} `{!JsonCodec (gmap string Json)}.

Lemma map_rows_Forall2 {A B} (f : A -> Result B) (rows : list A) (bs : list B) :
  MCPDatabase.map_rows f rows = Ok bs <->
  Forall2 (fun a b => f a = Ok b) rows bs.
Proof.
  revert bs. induction rows as [|row rows IH]; intros bs.
  - cbn. split.
    + intros [= <-]. constructor.
    + by inversion 1.
  - cbn. split.
    + destruct (f row) as [b|] eqn:Hb; [|done].
      destruct (MCPDatabase.map_rows f rows) as [bs'|]; [|done].
      intros [= <-]. constructor; [done|]. by apply IH.
    + inversion 1 as [|? b ? bs' Hb Hrest]; subst. rewrite Hb.
      apply IH in Hrest. by rewrite Hrest.
Qed.

Lemma getServer_unique (d : Db) (r : ServerRow) :
  NoDup (srv_id <$> mcp_servers d) -> r ∈ mcp_servers d ->
  Sql.getServer (srv_id r) d = Some r.
Proof.
  unfold Sql.getServer.
  induction (mcp_servers d) as [|x rows IH]; intros Hnodup Hin.
  - by apply elem_of_nil in Hin.
  - cbn in Hnodup. apply NoDup_cons in Hnodup as [Hnot Hrest].
    apply elem_of_cons in Hin as [->|Hin].
    + by rewrite filter_cons_True.
    + rewrite filter_cons_False; [by apply IH|].
      intros Heq. apply Hnot. rewrite Heq.
      apply list_elem_of_fmap. by exists r.
Qed.

Lemma server_of_row_fields row server :
  MCPDatabase.server_of_row row = Ok server ->
  server_id server = srv_id row
  /\ server_enabled server = MCPDatabase.Boolean (srv_enabled row).
Proof.
  unfold MCPDatabase.server_of_row.
  destruct (JSON_parse (srv_config row)); [|done]. by intros [= <-].
Qed.

Lemma load_tools_id d server server' :
  Listing.load_tools d server = Ok server' ->
  server_id server' = server_id server
  /\ server_enabled server' = server_enabled server.
Proof.
  unfold Listing.load_tools.
  destruct (MCPDatabase.getToolsByServer _ d); [|done]. by intros [= <-].
Qed.

End ListingFacts.

Section ListingClaims.
Import Sql.
Context `{!JsonCodec MCPServerConfig} `{!JsonCodec (gmap string Json)}.
Variable order_by_created_at : list ServerRow -> list ServerRow.
Variable order_by_names :
  list (ToolRow * ServerRow) -> list (ToolRow * ServerRow).
Hypothesis order_by_created_at_perm : forall l, order_by_created_at l ≡ₚ l.
Hypothesis order_by_names_perm : forall l, order_by_names l ≡ₚ l.

(** X9. When [getEnabledServersWithTools] returns, it lists the stored
    servers whose enabled flag is set, each once, and every listed server
    is enabled and is exactly what [getServerWithTools] returns for its
    id. *)
Theorem getEnabledServersWithTools_lists_enabled (d : Db)
    (servers : list MCPServer) :
  unique_keys d ->
  Listing.getEnabledServersWithTools order_by_created_at d = Ok servers ->
  server_id <$> servers
    ≡ₚ srv_id <$> filter (fun r => srv_enabled r = 1%Z) (mcp_servers d)
  /\ forall server, server ∈ servers ->
       server_enabled server = true
       /\ MCPDatabase.getServerWithTools (server_id server) d
          = Ok (Some server).
Proof.
  intros [Hunique _]. unfold Listing.getEnabledServersWithTools,
    Listing.getEnabledServers, Listing.getEnabledServers_rows.
  pose proof (order_by_created_at_perm
                (filter (fun r => srv_enabled r = 1%Z) (mcp_servers d)))
    as Hperm.
  destruct (MCPDatabase.map_rows MCPDatabase.server_of_row _)
    as [bare|] eqn:Hbare; [|done].
  intros Hloaded.
  apply map_rows_Forall2 in Hbare. apply map_rows_Forall2 in Hloaded.
  split.
  - rewrite <- Hperm. clear Hperm.
    revert servers Hloaded.
    induction Hbare as [|row b rows bs Hb _ IH]; intros servers Hloaded.
    + by inversion Hloaded.
    + inversion Hloaded as [|? s' ? ss Hs Hrest]; subst. cbn.
      apply server_of_row_fields in Hb as [Hid _].
      apply load_tools_id in Hs as [Hid' _].
      rewrite Hid', Hid. by rewrite IH.
  - intros server Hin.
    apply list_elem_of_lookup in Hin as [i Hi].
    destruct (Forall2_lookup_r _ _ _ _ _ Hloaded Hi) as (b & Hb & Hload).
    destruct (Forall2_lookup_r _ _ _ _ _ Hbare Hb) as (row & Hrow & Hparse).
    assert (Hstored : row ∈ filter (fun r => srv_enabled r = 1%Z)
                                   (mcp_servers d)).
    { rewrite <- Hperm. apply list_elem_of_lookup. by exists i. }
    apply list_elem_of_filter in Hstored as [Henabled Hstored].
    destruct (server_of_row_fields _ _ Hparse) as [Hid Hflag].
    destruct (load_tools_id _ _ _ Hload) as [Hid' Hflag'].
    split. { by rewrite Hflag', Hflag, Henabled. }
    unfold MCPDatabase.getServerWithTools, MCPDatabase.getServer.
    rewrite Hid', Hid, (getServer_unique d row) by done.
    rewrite Hparse. unfold Listing.load_tools in Hload.
    rewrite Hid in Hload.
    destruct (MCPDatabase.getToolsByServer (srv_id row) d); [|done].
    injection Hload as <-. by rewrite Hid.
Qed.

(** X10. When [getAllAvailableTools] returns, every tool it lists belongs
    to a stored server that is enabled and has status [connected], and
    carries that server's id and name; conversely every stored tool of such
    a server is listed. *)
Theorem getAllAvailableTools_connected_only (d : Db)
    (tools : list AvailableTool) :
  Listing.getAllAvailableTools order_by_names d = Ok tools ->
  (forall x, x ∈ tools ->
     exists t s, t ∈ mcp_tools d /\ s ∈ mcp_servers d
       /\ tl_server_id t = srv_id s
       /\ srv_enabled s = 1%Z /\ srv_status s = "connected"
       /\ tool_name (available_tool x) = tl_name t
       /\ available_serverId x = srv_id s
       /\ available_serverName x = srv_name s)
  /\ (forall t s, t ∈ mcp_tools d -> s ∈ mcp_servers d ->
        tl_server_id t = srv_id s ->
        srv_enabled s = 1%Z -> srv_status s = "connected" ->
        exists x, x ∈ tools
          /\ tool_name (available_tool x) = tl_name t
          /\ available_serverId x = srv_id s
          /\ available_serverName x = srv_name s).
Proof.
  unfold Listing.getAllAvailableTools, Listing.getAllTools.
  set (joined := flat_map _ (mcp_tools d)).
  pose proof (order_by_names_perm joined) as Hperm.
  assert (Hjoined : forall t s, (t, s) ∈ joined <->
            t ∈ mcp_tools d /\ s ∈ mcp_servers d
            /\ srv_id s = tl_server_id t
            /\ srv_enabled s = 1%Z /\ srv_status s = "connected").
  { intros t s. unfold joined. rewrite list_elem_of_In, in_flat_map. split.
    - intros (t' & Ht' & Hin). apply in_map_iff in Hin as (s' & [= <- <-] & Hs').
      apply list_elem_of_In, list_elem_of_filter in Hs' as [? ?].
      apply list_elem_of_In in Ht'. tauto.
    - intros (Ht & Hs & Hcond). exists t. split; [by apply list_elem_of_In|].
      apply in_map. apply list_elem_of_In, list_elem_of_filter. tauto. }
  intros Hrows. apply map_rows_Forall2 in Hrows.
  assert (Hfields : forall row x, Listing.available_of_row row = Ok x ->
            tool_name (available_tool x) = tl_name row.1
            /\ available_serverId x = tl_server_id row.1
            /\ available_serverName x = srv_name row.2).
  { intros row x. unfold Listing.available_of_row, MCPDatabase.tool_of_row.
    destruct (JSON_parse (tl_input_schema row.1)); [|done].
    by intros [= <-]. }
  split.
  - intros x Hx. apply list_elem_of_lookup in Hx as [i Hi].
    destruct (Forall2_lookup_r _ _ _ _ _ Hrows Hi) as ([t s] & Hrow & Hx).
    assert (Hin : (t, s) ∈ joined).
    { rewrite <- Hperm. apply list_elem_of_lookup. by exists i. }
    apply Hjoined in Hin as (Ht & Hs & Hid & Hen & Hst).
    apply Hfields in Hx as (Hname & Hsid & Hsname). cbn in *.
    exists t, s. repeat split; congruence.
  - intros t s Ht Hs Hid Hen Hst.
    assert (Hin : (t, s) ∈ order_by_names joined).
    { rewrite Hperm. apply Hjoined. repeat split; congruence. }
    apply list_elem_of_lookup in Hin as [i Hi].
    destruct (Forall2_lookup_l _ _ _ _ _ Hrows Hi) as (x & Hx & Hok).
    apply Hfields in Hok as (Hname & Hsid & Hsname). cbn in *.
    exists x. split; [apply list_elem_of_lookup; by exists i|].
    repeat split; congruence.
Qed.

End ListingClaims.

Section ListingExamples.
Import Sql Samples.

Lemma with_A_B_unique : unique_keys with_A_B.
Proof.
  apply unique_keys_saveTools. do 2 apply unique_keys_saveServer.
  split; constructor.
Qed.

Lemma getEnabledServersWithTools_lists_enabled_witness :
  exists servers,
    Listing.getEnabledServersWithTools reverse with_A_B = Ok servers
    /\ server_id <$> servers
       ≡ₚ srv_id <$> filter (fun r => srv_enabled r = 1%Z) (mcp_servers with_A_B).
Proof.
  eexists. split; [vm_compute; reflexivity|].
  refine (proj1 (getEnabledServersWithTools_lists_enabled reverse
                   reverse_Permutation with_A_B _ _ _)).
  - exact with_A_B_unique.
  - vm_compute. reflexivity.
Defined.

Lemma getAllAvailableTools_connected_only_witness :
  exists x tools,
    Listing.getAllAvailableTools reverse with_A_B = Ok tools
    /\ x ∈ tools
    /\ tool_name (available_tool x) = "A" /\ available_serverId x = "s"
    /\ available_serverName x = "Sample".
Proof.
  assert (Hrun : Listing.getAllAvailableTools reverse with_A_B
                 = Ok [ {| available_tool := sample_tool "B" "second";
                           available_serverId := "s";
                           available_serverName := "Sample" |};
                        {| available_tool := sample_tool "A" "first";
                           available_serverId := "s";
                           available_serverName := "Sample" |} ])
    by (vm_compute; reflexivity).
  destruct (proj2 (getAllAvailableTools_connected_only reverse
                     reverse_Permutation with_A_B _ Hrun)
              (MCPDatabase.tool_row "s" (sample_tool "A" "first"))
              {| srv_id := "s"; srv_name := "Sample";
                 srv_config := "sse_config"; srv_enabled := 1;
                 srv_status := "connected" |})
    as (x & Hx & Hname & Hid & Hsname).
  - vm_compute. left.
  - vm_compute. left.
  - reflexivity.
  - reflexivity.
  - reflexivity.
  - exists x. eexists. split; [exact Hrun|]. done.
Defined.

End ListingExamples.

(** ** The connection table *)

(** X11. [setConnection] makes the connection the one of its server:
    [getConnection] returns it and [hasConnection] is true; the entries of
    other servers are untouched; a connection that was registered for the
    server before is replaced without being closed (no client is closed, no
    process killed). *)
Theorem setConnection_replaces (id : string) (c : Client)
    (p : option ChildProcess) (w : World) :
  let r := MCPConnectionManager.setConnection id c p w in
  r.2 = Done tt
  /\ MCPConnectionManager.getConnection id r.1
     = (r.1, Done (Some {| client := c; process := p |}))
  /\ MCPConnectionManager.hasConnection id r.1 = (r.1, Done true)
  /\ (forall other, other ≠ id ->
        connections r.1 !! other = connections w !! other)
  /\ events r.1 = events w
  /\ database r.1 = database w.
Proof.
  cbn zeta. unfold MCPConnectionManager.setConnection, Js.set_connections,
    Js.modify, MCPConnectionManager.getConnection,
    MCPConnectionManager.hasConnection, Js.gets.
  cbn [fst snd connections events database].
  rewrite lookup_insert_eq. split; [done|]. split; [done|]. split.
  { rewrite bool_decide_eq_true_2; [done|]. by eexists. }
  split; [|done]. intros other Hne. by apply lookup_insert_ne.
Qed.

(** ** Saving a server through the route *)

Section SaveRoute.
Context `{!JsonCodec MCPServerConfig} `{!JsonCodec (gmap string Json)}.

(** X12. The save route refuses a server without id or without name with
    status 400 and changes nothing; any other server is stored, the answer
    is 200, the connection table is untouched, and the server reads back
    from the registry when its config survives JSON serialization. *)
Theorem save_server_POST_validates (server : MCPServer) (w : World) :
  let r := save_server_POST server w in
  (server_id server = "" \/ server_name server = "" ->
   r = (w, Done {| status := 400;
                   body := BError "Server ID, name, and config are required" |}))
  /\ (server_id server ≠ "" -> server_name server ≠ "" ->
      r.2 = Done {| status := 200;
                    body := BMessage "Server configuration saved successfully" |}
      /\ database r.1 = MCPDatabase.saveServer server (database w)
      /\ connections r.1 = connections w
      /\ (survives_JSON (server_config server) ->
          MCPDatabase.getServer (server_id server) (database r.1)
          = Ok (Some (read_back server [])))).
Proof.
  cbn zeta. unfold save_server_POST, Js.try_catch, Js.bind, Js.db_run,
    Js.modify, respond, Js.ret. split.
  - intros [Hid|Hname].
    + by rewrite (bool_decide_eq_true_2 _ Hid).
    + rewrite (bool_decide_eq_true_2 _ Hname). by rewrite orb_true_r.
  - intros Hid Hname. rewrite !bool_decide_eq_false_2 by done.
    cbn [orb fst snd Js.set_database database connections].
    split; [done|]. split; [done|]. split; [done|].
    intros Hs. unfold MCPDatabase.getServer, MCPDatabase.saveServer.
    rewrite (getServer_insertServer
               {| Sql.srv_id := server_id server;
                  Sql.srv_name := server_name server;
                  Sql.srv_config := JSON_stringify (server_config server);
                  Sql.srv_enabled := if server_enabled server then 1%Z else 0%Z;
                  Sql.srv_status := server_status server |}).
    by rewrite server_of_row_saved.
Qed.

End SaveRoute.

Section SaveRouteExamples.
Import Samples.

Lemma save_server_POST_validates_witness :
  save_server_POST (sample_server "" sse_config) connected_world
  = (connected_world,
     Done {| status := 400;
             body := BError "Server ID, name, and config are required" |}).
Proof.
  refine (proj1 (save_server_POST_validates (sample_server "" sse_config)
                   connected_world) _).
  left. reflexivity.
Defined.

End SaveRouteExamples.

(** ** The connection test, beyond the timeout *)

Lemma race_timeout_in_time {A} (wins_tie : bool) (t ms : N) (r : Result A)
    (message : string) :
  (t < ms)%N -> race_timeout wins_tie (After t r) ms message = After t r.
Proof.
  intros Hlt. cbn.
  by replace (t <? ms)%N with true by (symmetry; apply N.ltb_lt; lia).
Qed.

(** How the race of the connect promise against the timer ends. *)
Lemma race_timeout_cases {A} (wins_tie : bool) (promise : Settles A) (ms : N)
    (message : string) :
  exists t r, race_timeout wins_tie promise ms message = After t r.
Proof.
  destruct promise as [t r|]; cbn; [|eauto].
  destruct ((t <? ms)%N || _); eauto.
Qed.

Section TestConnectionFacts.
Context `{!JsonCodec MCPServerConfig} `{!JsonCodec (gmap string Json)}.
Variable env : Env.

(** The registry after a discovery: the server reads back as connected,
    with the tools found. *)
Lemma getServerWithTools_after_discovery (server : MCPServer)
    (tools : list MCPTool) (d : Sql.Db) :
  survives_JSON (server_config server) ->
  Forall (fun tool => survives_JSON (tool_inputSchema tool)) tools ->
  MCPDatabase.getServerWithTools (server_id server)
    (MCPDatabase.saveTools (server_id server) tools
       (MCPDatabase.saveServer server d)).1
  = Ok (Some (read_back server (keep_last tools))).
Proof.
  intros Hs Htools.
  assert (Hreg : Sql.has_server (server_id server)
                   (MCPDatabase.saveServer server d) = true).
  { unfold MCPDatabase.saveServer.
    apply (has_server_insertServer
             {| Sql.srv_id := server_id server;
                Sql.srv_name := server_name server;
                Sql.srv_config := JSON_stringify (server_config server);
                Sql.srv_enabled := if server_enabled server then 1%Z else 0%Z;
                Sql.srv_status := server_status server |}). }
  unfold MCPDatabase.getServerWithTools, MCPDatabase.getServer, Sql.getServer.
  rewrite mcp_servers_saveTools.
  fold (Sql.getServer (server_id server) (MCPDatabase.saveServer server d)).
  unfold MCPDatabase.saveServer at 1.
  rewrite (getServer_insertServer
             {| Sql.srv_id := server_id server;
                Sql.srv_name := server_name server;
                Sql.srv_config := JSON_stringify (server_config server);
                Sql.srv_enabled := if server_enabled server then 1%Z else 0%Z;
                Sql.srv_status := server_status server |}).
  rewrite server_of_row_saved by done.
  unfold MCPDatabase.getToolsByServer.
  rewrite saveTools_own by by apply saveTools_returns.
  rewrite map_rows_tool_rows by by apply keep_last_sub.
  done.
Qed.

(** What [discover_and_store] does when [listTools] answers. *)
Lemma discover_and_store_answers (server : MCPServer) (c : Client)
    (p : option ChildProcess) (description : string) (ms : N)
    (listed : option (list RemoteTool)) (w : World) :
  listTools env c = After ms (Ok listed) ->
  let tools := map tool_of_remote (default [] listed) in
  discover_and_store env server c p description w
  = ({| connections :=
          <[server_id server := {| client := c; process := p |}]>
            (connections w);
        database :=
          (MCPDatabase.saveTools (server_id server) tools
             (MCPDatabase.saveServer (with_status_connected server)
                (database w))).1;
        clock := (clock w + ms)%N;
        next_client := next_client w;
        events := events w |},
     Done {| status := 200;
             body := BTools tools (server_name server) description |}).
Proof.
  intros Hlist. cbn zeta. unfold discover_and_store. rewrite Hlist.
  unfold Js.bind, Js.await, Js.bind, Js.modify, Js.of_result, Js.ret,
    MCPConnectionManager.setConnection, Js.set_connections, Js.modify,
    Js.db_run, Js.db_try, Js.modify, respond, Js.ret, Js.tick.
  cbn [database connections clock next_client events Js.set_database].
  assert (Hret : (MCPDatabase.saveTools (server_id server)
                    (map tool_of_remote (default [] listed))
                    (MCPDatabase.saveServer (with_status_connected server)
                       (database w))).2 = None).
  { apply saveTools_returns. unfold MCPDatabase.saveServer.
    apply (has_server_insertServer
             {| Sql.srv_id := server_id server;
                Sql.srv_name := server_name server;
                Sql.srv_config := JSON_stringify (server_config server);
                Sql.srv_enabled := if server_enabled server then 1%Z else 0%Z;
                Sql.srv_status := "connected" |}). }
  destruct (MCPDatabase.saveTools _ _ _) as [d2 [e|]]; [done|]. done.
Qed.

(** What [discover_and_store] can do at all. *)
Lemma discover_and_store_cases (server : MCPServer) (c : Client)
    (p : option ChildProcess) (description : string) (w : World) :
  let r := discover_and_store env server c p description w in
  (exists resp, r.2 = Done resp /\ status resp = 200)
  \/ ((r.2 = Hangs \/ exists e, r.2 = Raised e)
      /\ connections r.1 = connections w /\ database r.1 = database w).
Proof.
  cbn zeta. destruct (listTools env c) as [ms [listed|e]|] eqn:Hlist.
  - left. rewrite (discover_and_store_answers _ _ _ _ ms listed) by done.
    eauto.
  - right. unfold discover_and_store. rewrite Hlist.
    unfold Js.bind, Js.await, Js.bind, Js.modify, Js.of_result, Js.throw.
    cbn. eauto.
  - right. unfold discover_and_store. rewrite Hlist.
    unfold Js.bind, Js.await. cbn. eauto.
Qed.

End TestConnectionFacts.

Section TestConnectionClaims.
Context `{!JsonCodec MCPServerConfig} `{!JsonCodec (gmap string Json)}.

(** X13. A successful connection test: when the connect promise resolves
    before the timer and [listTools] answers, the route answers 200 with
    the tools found, registers the new client for the server in place of
    any earlier connection, stores the server with status [connected] and
    replaces its tools; the registry then returns the server with the tools
    found, one per name. The connection of an sse server is registered
    without a process; that of a stdio server with what reading the property
    [process] of its transport gives, which is nothing for a transport that
    has no such property: the client is then registered without a process
    as well. *)
Theorem test_connection_POST_success (env : Env) (w : World)
    (server : MCPServer) (t ms : N) (listed : option (list RemoteTool))
    (p : option ChildProcess) (description : string) :
  let config := server_config server in
  let c := next_client w in
  let tools := map tool_of_remote (default [] listed) in
  (transport config = Some "sse" /\ falsy (url config) = false
   /\ url_valid env (default "" (url config)) = true
   /\ p = None /\ description = "MCP SSE Server")
  \/ (transport config = Some "stdio" /\ falsy (command config) = false
      /\ p = transport_process env c /\ description = "MCP Server") ->
  connect env config = After t (Ok tt) -> (t < 10000)%N ->
  listTools env c = After ms (Ok listed) ->
  let r := test_connection_POST env server w in
  r.2 = Done {| status := 200;
                body := BTools tools (server_name server) description |}
  /\ connections r.1
     = <[server_id server := {| client := c; process := p |}]> (connections w)
  /\ next_client r.1 = S c
  /\ clock r.1 = (clock w + t + ms)%N
  /\ database r.1
     = (MCPDatabase.saveTools (server_id server) tools
          (MCPDatabase.saveServer (with_status_connected server)
             (database w))).1
  /\ (survives_JSON (server_config server) ->
      Forall (fun tool => survives_JSON (tool_inputSchema tool)) tools ->
      MCPDatabase.getServerWithTools (server_id server) (database r.1)
      = Ok (Some (read_back (with_status_connected server)
                            (keep_last tools)))).
Proof.
  cbn zeta. intros Hstarted Hconnect Hlt Hlist.
  destruct (deleteConnection_world env (server_id server) w)
    as (log & Hrun & _).
  assert (Hdb : forall d,
            survives_JSON (server_config server) ->
            Forall (fun tool => survives_JSON (tool_inputSchema tool))
                   (map tool_of_remote (default [] listed)) ->
            MCPDatabase.getServerWithTools (server_id server)
              (MCPDatabase.saveTools (server_id server)
                 (map tool_of_remote (default [] listed))
                 (MCPDatabase.saveServer (with_status_connected server) d)).1
            = Ok (Some (read_back (with_status_connected server)
                          (keep_last (map tool_of_remote
                                        (default [] listed)))))).
  { intros d Hs Htools.
    by apply (getServerWithTools_after_discovery
                (with_status_connected server)). }
  unfold test_connection_POST.
  destruct Hstarted as [(Hsse & Hurl & Hvalid & -> & ->)
                       |(Hstdio & Hcommand & -> & ->)].
  - rewrite Hsse, Hurl. rewrite bool_decide_eq_true_2 by done.
    unfold Js.try_catch, Js.bind, new_URL. rewrite Hrun, Hvalid.
    rewrite Hconnect, race_timeout_in_time by done.
    cbn [Js.ret Js.new_client Js.await Js.bind Js.modify Js.of_result
         connections database clock next_client events Js.tick].
    unfold Js.bind, Js.modify, Js.ret. cbn [Js.tick next_client].
    rewrite (discover_and_store_answers env _ _ _ _ ms listed) by done.
    unfold Js.tick. cbn [fst snd connections database clock next_client].
    rewrite insert_delete_eq. repeat split; try done. apply Hdb.
  - rewrite Hstdio, Hcommand. rewrite bool_decide_eq_false_2 by done.
    rewrite bool_decide_eq_true_2 by done. cbn [andb negb].
    unfold Js.try_catch, Js.bind. rewrite Hrun.
    rewrite Hconnect, race_timeout_in_time by done.
    cbn [Js.ret Js.new_client Js.await Js.bind Js.modify Js.of_result
         connections database clock next_client events Js.tick].
    unfold Js.bind, Js.modify, Js.ret. cbn [Js.tick next_client].
    rewrite (discover_and_store_answers env _ _ _ _ ms listed) by done.
    unfold Js.tick. cbn [fst snd connections database clock next_client].
    rewrite insert_delete_eq. repeat split; try done. apply Hdb.
Qed.

End TestConnectionClaims.

Section TestConnectionFailure.
Context `{!JsonCodec MCPServerConfig} `{!JsonCodec (gmap string Json)}.

(** X14. The connection test never throws and never answers 500. Unless
    it answers 200, the database is exactly as before (in particular no
    status is set to [error]) and no connection is registered: the table is
    either untouched (the configuration was refused before any attempt) or
    has lost the server's former entry. The same holds when the route never
    answers because [listTools] never settles. *)
Theorem test_connection_POST_failure (env : Env) (w : World)
    (server : MCPServer) :
  let r := test_connection_POST env server w in
  match r.2 with
  | Done resp =>
      status resp = 200
      \/ (status resp = 400 /\ database r.1 = database w
          /\ (r.1 = w
              \/ connections r.1 = delete (server_id server) (connections w)))
  | Raised _ => False
  | Hangs =>
      database r.1 = database w
      /\ connections r.1 = delete (server_id server) (connections w)
  end.
Proof.
  cbn zeta.
  destruct (deleteConnection_world env (server_id server) w)
    as (log & Hrun & _).
  unfold test_connection_POST.
  case_bool_decide as Hsse.
  - destruct (falsy (url (server_config server))) eqn:Hurl.
    { cbn. right. eauto. }
    unfold Js.try_catch, Js.bind, new_URL. rewrite Hrun.
    destruct (url_valid env _).
    2:{ cbn. right. eauto. }
    destruct (race_timeout_cases (connect_wins_tie env)
                (connect env (server_config server)) 10000
                "SSE connection timeout") as (t & [[]|e] & ->).
    2:{ cbn. right. eauto. }
    cbn [Js.ret Js.new_client Js.await Js.bind Js.modify Js.of_result].
    unfold Js.bind, Js.modify, Js.ret, Js.tick.
    cbn [connections database clock next_client events].
    match goal with
    | |- context [discover_and_store env server ?c ?p ?desc ?w'] =>
        pose proof (discover_and_store_cases env server c p desc w') as Hcases;
        destruct (discover_and_store env server c p desc w')
          as [w'' [resp|e|]]
    end; cbn in Hcases |- *.
    + destruct Hcases as [(resp' & [= <-] & ?)|([?|(? & ?)] & _)];
        [by left|done|done].
    + destruct Hcases as [(? & ? & _)|(_ & Hc & Hd)]; [done|].
      right. rewrite Hd. split; [done|]. split; [done|]. right. by rewrite Hc.
    + destruct Hcases as [(? & ? & _)|(_ & Hc & Hd)]; [done|].
      by rewrite Hd, Hc.
  - destruct (bool_decide (transport (server_config server) = Some "stdio")
              && negb (falsy (command (server_config server)))).
    2:{ cbn. right. eauto. }
    unfold Js.try_catch, Js.bind. rewrite Hrun.
    destruct (race_timeout_cases (connect_wins_tie env)
                (connect env (server_config server)) 10000
                "Connection timeout") as (t & [[]|e] & ->).
    2:{ cbn. right. eauto. }
    cbn [Js.ret Js.new_client Js.await Js.bind Js.modify Js.of_result].
    unfold Js.bind, Js.modify, Js.ret, Js.tick.
    cbn [connections database clock next_client events].
    match goal with
    | |- context [discover_and_store env server ?c ?p ?desc ?w'] =>
        pose proof (discover_and_store_cases env server c p desc w') as Hcases;
        destruct (discover_and_store env server c p desc w')
          as [w'' [resp|e|]]
    end; cbn in Hcases |- *.
    + destruct Hcases as [(resp' & [= <-] & ?)|([?|(? & ?)] & _)];
        [by left|done|done].
    + destruct Hcases as [(? & ? & _)|(_ & Hc & Hd)]; [done|].
      right. rewrite Hd. split; [done|]. split; [done|]. right. by rewrite Hc.
    + destruct Hcases as [(? & ? & _)|(_ & Hc & Hd)]; [done|].
      by rewrite Hd, Hc.
Qed.

End TestConnectionFailure.

Section TestConnectionExamples.
Import Samples.

(** The test of a stdio server whose transport has no property [process]
    registers the client without a process. The discovery lists [B] twice;
    the registry keeps the later one. *)
Lemma test_connection_POST_success_witness :
  let r := test_connection_POST helpful_env
             (sample_server "s" stdio_config) connected_world in
  connections r.1 !! "s"
  = Some {| client := next_client connected_world; process := None |}
  /\ MCPDatabase.getServerWithTools "s" (database r.1)
     = Ok (Some (read_back
                   (with_status_connected (sample_server "s" stdio_config))
                   [sample_tool "A" "first"; sample_tool "B" "again"])).
Proof.
  cbn zeta.
  destruct (test_connection_POST_success helpful_env connected_world
       (sample_server "s" stdio_config) 120 30
       (Some [ {| remote_name := "A"; remote_description := Some "first";
                  remote_inputSchema := Some ∅ |};
               {| remote_name := "B"; remote_description := None;
                  remote_inputSchema := Some ∅ |};
               {| remote_name := "B"; remote_description := Some "again";
                  remote_inputSchema := Some ∅ |} ])
       None "MCP Server") as (_ & Hconnections & _ & _ & _ & Hregistry).
  - right. repeat split; reflexivity.
  - reflexivity.
  - reflexivity.
  - reflexivity.
  - split.
    + rewrite Hconnections. apply lookup_insert_eq.
    + apply Hregistry; [reflexivity|repeat constructor].
Defined.

End TestConnectionExamples.

(** ** The execute routes *)

Section KeepsStores.

Lemma keeps_ret {A} (a : A) : keeps_stores (Js.ret a).
Proof. by intros w. Qed.

Lemma keeps_throw {A} (e : Exn) : keeps_stores (Js.throw (A:=A) e).
Proof. by intros w. Qed.

Lemma keeps_bind {A B} (m : Js.t A) (k : A -> Js.t B) :
  keeps_stores m -> (forall a, keeps_stores (k a)) -> keeps_stores (Js.bind m k).
Proof.
  intros Hm Hk w. unfold Js.bind. specialize (Hm w).
  destruct (m w) as [w' [a|e|]]; [|done|done].
  specialize (Hk a w'). cbn in *. destruct Hk, Hm. split; congruence.
Qed.

Lemma keeps_try_catch {A} (body : Js.t A) (handler : Exn -> Js.t A) :
  keeps_stores body -> (forall e, keeps_stores (handler e)) ->
  keeps_stores (Js.try_catch body handler).
Proof.
  intros Hb Hh w. unfold Js.try_catch. specialize (Hb w).
  destruct (body w) as [w' [a|e|]]; [done| |done].
  specialize (Hh e w'). cbn in *. destruct Hh, Hb. split; congruence.
Qed.

Lemma keeps_finally {A} (block : Js.t A) (cleanup : Js.t unit) :
  keeps_stores block -> keeps_stores cleanup ->
  keeps_stores (Js_finally block cleanup).
Proof.
  intros Hb Hc w. unfold Js_finally. specialize (Hb w).
  destruct (block w) as [w' [a|e|]]; [| |done].
  all: specialize (Hc w'); destruct (cleanup w') as [w'' [[]|e'|]];
    cbn in *; destruct Hc, Hb; split; congruence.
Qed.

Lemma keeps_try_with_client {A} (create : Js.t Client)
    (body : Client -> Js.t A) (handler : Exn -> Js.t A)
    (cleanup : Client -> Js.t unit) :
  keeps_stores create -> (forall c, keeps_stores (body c)) ->
  (forall e, keeps_stores (handler e)) -> (forall c, keeps_stores (cleanup c)) ->
  keeps_stores (try_with_client create body handler cleanup).
Proof.
  intros Hcr Hb Hh Hcl w. unfold try_with_client. specialize (Hcr w).
  destruct (create w) as [w' [c|e|]]; [| |done].
  - pose proof (keeps_finally _ _ (keeps_try_catch _ _ (Hb c) Hh) (Hcl c) w')
      as Hf.
    cbn in *. destruct Hf, Hcr. split; congruence.
  - specialize (Hh e w'). cbn in *. destruct Hh, Hcr. split; congruence.
Qed.

Lemma keeps_gets {A} (f : World -> A) : keeps_stores (Js.gets f).
Proof. by intros w. Qed.

Lemma keeps_emit (ev : Event) : keeps_stores (Js.emit ev).
Proof. by intros w. Qed.

Lemma keeps_new_client : keeps_stores Js.new_client.
Proof. by intros w. Qed.

Lemma keeps_of_result {A} (r : Result A) : keeps_stores (Js.of_result r).
Proof. destruct r; [apply keeps_ret|apply keeps_throw]. Qed.

Lemma keeps_await {A} (p : Settles A) : keeps_stores (Js.await p).
Proof.
  destruct p as [ms r|]; [|by intros w].
  apply keeps_bind; [by intros w|]. intros _. apply keeps_of_result.
Qed.

Lemma keeps_respond code b : keeps_stores (respond code b).
Proof. apply keeps_ret. Qed.

Lemma keeps_await_callTool env c name arguments :
  keeps_stores (await_callTool env c name arguments).
Proof.
  unfold await_callTool.
  destruct (callTool env c name arguments) as [ms [[f|r]|e]|];
    apply keeps_await.
Qed.

Lemma try_catch_respond_never_raises (body : Js.t Response) (code : nat)
    (f : Exn -> Body) (w : World) (e : Exn) :
  (Js.try_catch body (fun error => respond code (f error)) w).2 ≠ Raised e.
Proof.
  unfold Js.try_catch. by destruct (body w) as [w' [resp|e'|]].
Qed.

End KeepsStores.

Section ExecuteClaims.
Context `{!JsonCodec MCPServerConfig} `{!JsonCodec (gmap string Json)}.

Lemma keeps_createMCPConnection env server :
  keeps_stores (createMCPConnection env server).
Proof.
  unfold createMCPConnection.
  case_bool_decide.
  - destruct (falsy _); [apply keeps_throw|].
    apply keeps_bind.
    { unfold new_URL. destruct (url_valid env _);
        [apply keeps_ret|apply keeps_throw]. }
    intros _. apply keeps_bind; [apply keeps_new_client|]. intros c.
    apply keeps_bind; [apply keeps_await|]. intros _. apply keeps_ret.
  - destruct (_ && _); [|apply keeps_throw].
    apply keeps_bind; [apply keeps_new_client|]. intros c.
    apply keeps_bind; [apply keeps_await|]. intros _. apply keeps_ret.
Qed.

Lemma keeps_close_quietly close_settles c :
  keeps_stores (close_quietly close_settles c).
Proof.
  unfold close_quietly. apply keeps_try_catch.
  - apply keeps_bind; [apply keeps_await|]. intros _. apply keeps_emit.
  - intros e. apply keeps_emit.
Qed.

(** X15. The on-demand execute route works on a connection of its own:
    whatever the request and however the server behaves, it leaves the
    connection table and the database as they were, and it never throws. *)
Theorem on_demand_execute_POST_keeps_stores (env : Env)
    (close_settles : Client -> Settles unit) (call : MCPToolCall) (w : World) :
  let r := on_demand_execute_POST env close_settles call w in
  connections r.1 = connections w
  /\ database r.1 = database w
  /\ forall e, r.2 ≠ Raised e.
Proof.
  cbn zeta.
  assert (Hkeeps : keeps_stores (on_demand_execute_POST env close_settles call)).
  { unfold on_demand_execute_POST. apply keeps_try_catch.
    2:{ intros e. apply keeps_respond. }
    destruct (_ || _); [apply keeps_respond|].
    apply keeps_bind.
    { unfold lookup_server. apply keeps_bind; [apply keeps_gets|].
      intros d. apply keeps_of_result. }
    intros [server|]; [|apply keeps_respond].
    apply keeps_try_with_client.
    - apply keeps_createMCPConnection.
    - intros c. apply keeps_bind; [apply keeps_await_callTool|].
      intros result. apply keeps_bind; [apply keeps_gets|].
      intros now. apply keeps_respond.
    - intros e. apply keeps_respond.
    - intros c. apply keeps_close_quietly. }
  destruct (Hkeeps w) as [Hc Hd]. split; [done|]. split; [done|].
  intros e. unfold on_demand_execute_POST.
  apply try_catch_respond_never_raises.
Qed.

(** X16. The on-demand execute route closes what it opens: once the
    connection is established and the tool call settles, with a result or
    with a failure, the client is closed exactly once before the route
    answers; a failing close is logged and changes nothing in the answer. *)
Theorem on_demand_execute_POST_closes (env : Env)
    (close_settles : Client -> Settles unit) (call : MCPToolCall) (w w1 : World)
    (name id : string) (server : MCPServer) (c : Client) (ms ms' : N)
    (outcome : Result (CallFailure + CallToolResult)) (closed : Result unit) :
  toolName call = Some name -> name ≠ "" ->
  serverId call = Some id -> id ≠ "" ->
  MCPDatabase.getServer id (database w) = Ok (Some server) ->
  createMCPConnection env server w = (w1, Done c) ->
  callTool env c name (arguments call) = After ms outcome ->
  close_settles c = After ms' closed ->
  let r := on_demand_execute_POST env close_settles call w in
  r.2 = Done (execute_answer name (clock w1 + ms) outcome)
  /\ events r.1
     = match closed with
       | Ok _ => Closed c
       | Throw e => Warned e
       end :: events w1
  /\ clock r.1 = (clock w1 + ms + ms')%N.
Proof.
  intros Hname Hname' Hid Hid' Hserver Hcreate Hcall Hclose. cbn zeta.
  assert (Hrun : on_demand_execute_POST env close_settles call w
                 = ({| connections := connections w1;
                       database := database w1;
                       clock := (clock w1 + ms + ms')%N;
                       next_client := next_client w1;
                       events := match closed with
                                 | Ok _ => Closed c
                                 | Throw e => Warned e
                                 end :: events w1 |},
                    Done (execute_answer name (clock w1 + ms) outcome))).
  { unfold on_demand_execute_POST, Js.try_catch at 1.
    rewrite Hname, Hid. cbn [falsy default from_option Datatypes.id].
    rewrite !bool_decide_eq_false_2 by done. cbn [orb].
    unfold Js.bind at 1, lookup_server, Js.bind at 1, Js.gets.
    rewrite Hserver. cbn [Js.of_result Js.ret].
    unfold try_with_client. rewrite Hcreate.
    unfold Js_finally, Js.try_catch, close_quietly, Js.try_catch,
      await_callTool.
    rewrite Hcall, Hclose.
    destruct outcome as [[failure|result]|e]; destruct closed as [[]|e'];
      cbn; done. }
  by rewrite Hrun.
Qed.

End ExecuteClaims.

(** X17. The pooled execute route never connects and never writes: it
    leaves the database untouched, creates no client, adds no entry to the
    connection table and can only remove the entry of the server called
    (the entry of every other server is as before), and never throws.
    Without an entry for the server it answers 400 and changes nothing. *)
Theorem execute_POST_never_connects (env : Env) (call : MCPToolCall)
    (w : World) :
  let r := execute_POST env call w in
  database r.1 = database w
  /\ next_client r.1 = next_client w
  /\ connections r.1 ⊆ connections w
  /\ (forall other, other ≠ default "" (serverId call) ->
        connections r.1 !! other = connections w !! other)
  /\ (forall e, r.2 ≠ Raised e)
  /\ (connections w !! default "" (serverId call) = None ->
      r.1 = w /\ exists resp, r.2 = Done resp /\ status resp = 400).
Proof.
  cbn zeta.
  destruct (execute_POST env call w) as [w' out] eqn:Hrun. cbn [fst snd].
  unfold execute_POST, Js.try_catch, Js.bind, MCPConnectionManager.getConnection,
    Js.gets, await_callTool, respond, Js.ret in Hrun.
  destruct (falsy (toolName call) || falsy (serverId call)).
  { injection Hrun as <- <-. repeat split; try done. eauto. }
  destruct (connections w !! default "" (serverId call)) as [connection|]
    eqn:Hconn.
  2:{ injection Hrun as <- <-. repeat split; try done. eauto. }
  destruct (callTool env (client connection) _ (arguments call))
    as [ms [[failure|result]|e]|];
    cbn [Js.await Js.bind Js.modify Js.of_result Js.throw Js.ret] in Hrun;
    unfold Js.bind, Js.modify, Js.throw, Js.ret in Hrun.
  - destruct (looks_broken (thrown failure)).
    + destruct (deleteConnection_world env (default "" (serverId call))
                  (Js.tick ms w)) as (log & Hdel & _).
      rewrite Hdel in Hrun. injection Hrun as <- <-.
      cbn. repeat split; try done; [apply delete_subseteq|].
      intros other Hother. by apply lookup_delete_ne.
    + injection Hrun as <- <-. repeat split; done.
  - injection Hrun as <- <-. repeat split; done.
  - destruct (looks_broken e).
    + destruct (deleteConnection_world env (default "" (serverId call))
                  (Js.tick ms w)) as (log & Hdel & _).
      rewrite Hdel in Hrun. injection Hrun as <- <-.
      cbn. repeat split; try done; [apply delete_subseteq|].
      intros other Hother. by apply lookup_delete_ne.
    + injection Hrun as <- <-. repeat split; done.
  - injection Hrun as <- <-. repeat split; done.
Qed.

(** X18. Over a pooled connection a tool call that resolves is answered
    with status 200 and the [content] of the result (the whole result when
    it has no content); nothing but the clock changes, so the connection
    stays for the next call. *)
Theorem execute_POST_success (env : Env) (w : World) (call : MCPToolCall)
    (name id : string) (connection : Connection) (ms : N)
    (result : CallToolResult) :
  toolName call = Some name -> name ≠ "" ->
  serverId call = Some id -> id ≠ "" ->
  connections w !! id = Some connection ->
  callTool env (client connection) name (arguments call)
  = After ms (Ok (inr result)) ->
  execute_POST env call w
  = (Js.tick ms w,
     Done {| status := 200;
             body := BToolResult name (content_or_whole result)
                                 (clock w + ms) |}).
Proof.
  intros Hname Hname' Hid Hid' Hconn Hcall.
  unfold execute_POST, Js.try_catch, Js.bind, MCPConnectionManager.getConnection,
    Js.gets, await_callTool, respond, Js.ret.
  rewrite Hname, Hid. cbn [falsy default from_option Datatypes.id].
  rewrite !bool_decide_eq_false_2 by done. cbn [orb].
  rewrite Hconn, Hcall. done.
Qed.


Section ExecuteMoreExamples.
Import Samples.

Lemma on_demand_execute_POST_closes_witness :
  events (on_demand_execute_POST helpful_env (fun _ => After 2 (Ok tt))
            call_A connected_world).1
  = [Closed 1].
Proof.
  refine (proj1 (proj2
    (on_demand_execute_POST_closes helpful_env (fun _ => After 2 (Ok tt))
       call_A connected_world
       (createMCPConnection helpful_env (read_back (sample_server "s" sse_config) [])
          connected_world).1
       "A" "s" (read_back (sample_server "s" sse_config) []) 1 5 2
       (Ok (inr {| content := Some (JStr "done"); whole := JObj ∅ |}))
       (Ok tt) _ _ _ _ _ _ _ _))).
  all: first [reflexivity | discriminate].
Defined.

Lemma execute_POST_success_witness :
  execute_POST helpful_env call_A connected_world
  = (Js.tick 5 connected_world,
     Done {| status := 200;
             body := BToolResult "A" (JStr "done") 5 |}).
Proof.
  refine (execute_POST_success helpful_env connected_world call_A "A" "s"
            {| client := 0; process := Some 7 |} 5
            {| content := Some (JStr "done"); whole := JObj ∅ |} _ _ _ _ _ _).
  all: first [reflexivity | discriminate].
Defined.

End ExecuteMoreExamples.

(** ** The tools offered to the model *)

Section OfferedTools.

Lemma foldl_insert_last {V} (entries : list (string * V))
    (acc : gmap string V) key :
  foldl (fun (acc : gmap string V) kv => <[kv.1 := kv.2]> acc) acc entries
    !! key
  = match last (filter (fun kv => kv.1 = key) entries) with
    | Some kv => Some kv.2
    | None => acc !! key
    end.
Proof.
  induction entries as [|[k v] entries IH] using rev_ind; [done|].
  rewrite foldl_app, filter_app. cbn [foldl fst snd].
  rewrite filter_cons, filter_nil. cbn [fst].
  case_decide as Hk.
  - subst k. rewrite last_snoc. cbn. apply lookup_insert_eq.
  - rewrite app_nil_r, lookup_insert_ne by done. apply IH.
Qed.

Lemma dynamicTools_elem (servers : list MCPServer) name entry :
  (name, entry) ∈ dynamicTools servers <->
  bound_server entry ∈ servers
  /\ offers_tools (bound_server entry) = true
  /\ bound_tool entry ∈ default [] (server_tools (bound_server entry))
  /\ tool_name (bound_tool entry) = name.
Proof.
  unfold dynamicTools, connectedServers.
  rewrite list_elem_of_In, in_flat_map. split.
  - intros (server & Hserver & Hin).
    apply list_elem_of_In, list_elem_of_filter in Hserver as [Hoffers Hserver].
    apply in_map_iff in Hin as (tool & [= <- <-] & Htool).
    apply list_elem_of_In in Htool. done.
  - intros (Hserver & Hoffers & Htool & <-).
    exists (bound_server entry). split.
    + apply list_elem_of_In, list_elem_of_filter. done.
    + apply in_map_iff. exists (bound_tool entry).
      split; [by destruct entry|by apply list_elem_of_In].
Qed.

End OfferedTools.

(** X20. The chat route offers a tool under a name exactly when an
    enabled, connected server with tools has a tool of that name; the entry
    is bound to such a server and tool, and when several of them share the
    name, to the last one in the order of servers and tools: the earlier
    ones cannot be called. *)
Theorem toolsObject_last_wins (servers : list MCPServer) (name : string) :
  toolsObject servers !! name
  = snd <$> last (filter (fun kv => kv.1 = name) (dynamicTools servers))
  /\ (forall entry, toolsObject servers !! name = Some entry ->
        bound_server entry ∈ servers
        /\ offers_tools (bound_server entry) = true
        /\ bound_tool entry ∈ default [] (server_tools (bound_server entry))
        /\ tool_name (bound_tool entry) = name)
  /\ (is_Some (toolsObject servers !! name) <->
      exists server tool,
        server ∈ servers /\ offers_tools server = true
        /\ tool ∈ default [] (server_tools server) /\ tool_name tool = name).
Proof.
  assert (Hlookup : toolsObject servers !! name
            = snd <$> last (filter (fun kv => kv.1 = name)
                                   (dynamicTools servers))).
  { unfold toolsObject. rewrite foldl_insert_last, lookup_empty.
    by destruct (last _). }
  split; [done|]. split.
  - intros entry Hentry. rewrite Hlookup in Hentry.
    destruct (last _) as [[k e]|] eqn:Hlast; simplify_eq/=.
    apply last_Some_elem_of, list_elem_of_filter in Hlast as [Hk Hin].
    cbn in Hk. subst k. by apply dynamicTools_elem.
  - rewrite Hlookup. split.
    + intros [entry Hentry].
      destruct (last _) as [[k e]|] eqn:Hlast; simplify_eq/=.
      apply last_Some_elem_of, list_elem_of_filter in Hlast as [Hk Hin].
      cbn in Hk. subst k. apply dynamicTools_elem in Hin.
      exists (bound_server entry), (bound_tool entry). done.
    + intros (server & tool & Hserver & Hoffers & Htool & Hname).
      assert (Hin : (name, {| bound_server := server; bound_tool := tool |})
                    ∈ filter (fun kv => kv.1 = name) (dynamicTools servers)).
      { apply list_elem_of_filter. split; [done|].
        by apply dynamicTools_elem. }
      destruct (last _) as [kv|] eqn:Hlast; [by eexists|].
      apply last_None in Hlast. rewrite Hlast in Hin.
      by apply elem_of_nil in Hin.
Qed.

(** X21. The OpenAI route can dispatch every tool it offers: for each
    offered function name a server is found. The server found is the first
    one in the list that has a tool of the name, also when the offered
    description and parameters come from a later server. Without such a
    server none is found. *)
Theorem foundServer_first (servers : list MCPServer) :
  (forall f, f ∈ openai_tools servers ->
     is_Some (foundServer servers (function_name f)))
  /\ (forall name server,
        foundServer servers name = Some server ->
        exists before after,
          servers = before ++ server :: after
          /\ has_tool name server = true
          /\ Forall (fun s => has_tool name s = false) before)
  /\ (forall name,
        foundServer servers name = None <->
        Forall (fun s => has_tool name s = false) servers).
Proof.
  assert (Hnone : forall name l,
            List.find (has_tool name) l = None <->
            Forall (fun s => has_tool name s = false) l).
  { intros name l. induction l as [|s l IH]; cbn.
    - split; [constructor|done].
    - destruct (has_tool name s) eqn:Hs.
      + split; [done|]. intros [? _]%Forall_cons. congruence.
      + rewrite IH. split; [by constructor|by intros [_ ?]%Forall_cons]. }
  split; [|split; [|intros name; apply Hnone]].
  - intros f Hf. unfold openai_tools in Hf.
    apply list_elem_of_In, in_flat_map in Hf as (server & Hserver & Hf).
    apply in_map_iff in Hf as (tool & <- & Htool). cbn.
    destruct (foundServer servers (tool_name tool)) eqn:Hfound; [by eexists|].
    apply Hnone in Hfound. rewrite Forall_forall in Hfound.
    apply list_elem_of_In in Hserver. specialize (Hfound server Hserver).
    unfold has_tool in Hfound.
    destruct (server_tools server) as [tools|]; [|done]. cbn in Htool.
    assert (Hex : existsb (fun t => bool_decide (tool_name t = tool_name tool))
                          tools = true).
    { apply existsb_exists. exists tool. split; [done|].
      by apply bool_decide_eq_true_2. }
    congruence.
  - intros name server. unfold foundServer.
    induction servers as [|s servers IH]; [done|]. cbn.
    destruct (has_tool name s) eqn:Hs.
    + intros [= ->]. exists [], servers. by repeat split.
    + intros Hfound. destruct (IH Hfound) as (before & after & -> & Hhas & Hb).
      exists (s :: before), after. repeat split; [done|]. by constructor.
Qed.

Section OfferedToolsExamples.

(** The chat route binds [search] to the last server, the OpenAI route
    calls the first. *)
Example search_is_ambiguous :
  bound_server <$> toolsObject [docs_server; web_server] !! "search"
  = Some web_server
  /\ foundServer [docs_server; web_server] "search" = Some docs_server.
Proof. split; vm_compute; reflexivity. Qed.

End OfferedToolsExamples.
